(** * antigravity-acp: session store, stream adapter and ACP server

    A shallow embedding of the session orchestration engine of
    antigravity-acp:

    - [session.ts]        the session store ([createSessionManager]),
    - [stream-adapter.ts] the stream translator ([createStreamAdapter]),
    - [acp-server.ts]     the JSON-RPC front end and the turn loop
                          ([createAcpServer]),
    - [tools.ts]          the default tool catalogue ([ACP_TOOLS]).

    Closures over mutable variables become records threaded through the
    functions that the closure exports.  What the program reads from its
    environment is an input of the model: the outcome of the credential
    lookup, the backend stream, and the readings of [Date.now()] and
    [Math.random()], which are oracles indexed by the number of readings
    made so far.  A reading of the clock is a number of milliseconds, a
    binary natural number. *)

From Stdlib Require Import ZArith String List.
From stdpp Require Import gmap strings list pretty.

Open Scope string_scope.

(** ** JavaScript values *)

(** Values of type [unknown] and [Record<string, unknown>]: tool arguments,
    tool results and schemas.  The program never computes with the numbers
    inside such values, it only stores and forwards them. *)
#[local] Set Warnings "-register-all".
Inductive Json : Type :=
| JNull
| JBool (b : bool)
| JNum (n : Z)
| JStr (s : string)
| JArr (items : list Json)
| JObj (fields : list (string * Json)).

(** [typeof v === 'string'] *)
Definition isString (v : Json) : bool :=
  match v with JStr _ => true | _ => false end.

(** Truthiness of a string: every string but the empty one. *)
Definition truthyStr (s : string) : bool :=
  match s with EmptyString => false | String _ _ => true end.

(** Truthiness of a value. *)
Definition truthy (v : Json) : bool :=
  match v with
  | JNull => false
  | JBool b => b
  | JNum n => negb (n =? 0)%Z
  | JStr s => truthyStr s
  | JArr _ | JObj _ => true
  end.

(** [a || b] where [a : string | undefined] and [b : string]. *)
Definition orStr (a : option string) (b : string) : string :=
  match a with
  | Some s => if truthyStr s then s else b
  | None => b
  end.

(** [a || b] where both sides are [string | undefined]. *)
Definition orOptStr (a b : option string) : option string :=
  match a with
  | Some s => if truthyStr s then Some s else b
  | None => b
  end.

(** [v || {}] where [v] may be absent. *)
Definition orEmptyObj (v : option Json) : Json :=
  match v with
  | Some j => if truthy j then j else JObj []
  | None => JObj []
  end.

(** ** types/acp.ts and types/antigravity.ts *)

Record AcpTool := mkAcpTool {
  tool_name : string;
  tool_description : string;
  tool_inputSchema : Json
}.

Record FunctionCall := mkFunctionCall {
  fc_name : string;
  fc_args : option Json;
  fc_id : option string
}.

Record FunctionResponse := mkFunctionResponse {
  fr_name : string;
  fr_response : Json;
  fr_id : option string
}.

(** [GeminiPart]: the union is told apart by the fields that are present;
    a thought part is the one that has a [thought] field. *)
Inductive GeminiPart : Type :=
| TextPart (text : string)
| ThoughtPart (text : string) (thought : bool)
| InlineDataPart (mimeType data : string)
| FunctionCallPart (functionCall : FunctionCall)
| FunctionResponsePart (functionResponse : FunctionResponse).

Inductive Role := User | Model.

Record Content := mkContent {
  role : Role;
  parts : list GeminiPart
}.

Record SessionConfig := mkSessionConfig {
  cfg_model : option string;
  cfg_systemPrompt : option string;
  cfg_systemInstruction : option string;
  cfg_tools : option (list AcpTool)
}.

(** ** session.ts *)

(** An [AbortController] is an object on the heap that the session, the
    turn that created it and the backend call share.  A session holds the
    identity of its controller; the controllers on which [abort()] was
    called are collected in [abortedControllers]. *)
Record SessionState := mkSessionState {
  s_id : string;
  s_model : string;
  s_systemInstruction : option string;
  s_tools : list AcpTool;
  s_contents : list Content;
  s_createdAt : N;
  s_abortController : option nat
}.

Record SessionManager := mkSessionManager {
  sessions : gmap string SessionState;
  defaultModel : string;
  abortedControllers : gset nat
}.

Definition DEFAULT_MODEL : string := "gemini-2.0-flash".

Definition createSessionManager (optDefaultModel : option string) : SessionManager :=
  {| sessions := ∅;
     defaultModel := orStr optDefaultModel DEFAULT_MODEL;
     abortedControllers := ∅ |}.

Definition setSessions (f : gmap string SessionState → gmap string SessionState)
    (m : SessionManager) : SessionManager :=
  {| sessions := f (sessions m);
     defaultModel := defaultModel m;
     abortedControllers := abortedControllers m |}.

Definition abortController (c : nat) (m : SessionManager) : SessionManager :=
  {| sessions := sessions m;
     defaultModel := defaultModel m;
     abortedControllers := {[c]} ∪ abortedControllers m |}.

Definition setContents (cs : list Content) (s : SessionState) : SessionState :=
  {| s_id := s_id s; s_model := s_model s;
     s_systemInstruction := s_systemInstruction s; s_tools := s_tools s;
     s_contents := cs; s_createdAt := s_createdAt s;
     s_abortController := s_abortController s |}.

Definition setController (c : option nat) (s : SessionState) : SessionState :=
  {| s_id := s_id s; s_model := s_model s;
     s_systemInstruction := s_systemInstruction s; s_tools := s_tools s;
     s_contents := s_contents s; s_createdAt := s_createdAt s;
     s_abortController := c |}.

(** [sessionIdOf now rnd] is
    [`session_${Date.now()}_${Math.random().toString(36).slice(2, 8)}`]
    for the readings [now] and [rnd]. *)
Definition sessionIdOf (now : N) (rnd : string) : string :=
  "session_" +:+ pretty now +:+ "_" +:+ rnd.

Definition createSession (now createdAt : N) (rnd : string)
    (config : option SessionConfig) (m : SessionManager)
    : SessionState * SessionManager :=
  let id := sessionIdOf now rnd in
  let session :=
    {| s_id := id;
       s_model := orStr (config ≫= cfg_model) (defaultModel m);
       s_systemInstruction :=
         orOptStr (config ≫= cfg_systemInstruction) (config ≫= cfg_systemPrompt);
       s_tools := default [] (config ≫= cfg_tools);
       s_contents := [];
       s_createdAt := createdAt;
       s_abortController := None |} in
  (session, setSessions (insert id session) m).

Definition getSession (sessionId : string) (m : SessionManager) : option SessionState :=
  sessions m !! sessionId.

Definition deleteSession (sessionId : string) (m : SessionManager)
    : bool * SessionManager :=
  let m1 :=
    match sessions m !! sessionId ≫= s_abortController with
    | Some c => abortController c m
    | None => m
    end in
  (bool_decide (is_Some (sessions m !! sessionId)),
   setSessions (delete sessionId) m1).

Definition addUserMessage (sessionId text : string) (m : SessionManager)
    : SessionManager :=
  match sessions m !! sessionId with
  | None => m
  | Some session =>
      let userContent := {| role := User; parts := [TextPart text] |} in
      setSessions
        (insert sessionId (setContents (s_contents session ++ [userContent]) session)) m
  end.

(** The predicate of the [find] in [addAssistantMessage]:
    ['text' in p && !('thought' in p)]. *)
Definition isTextPart (p : GeminiPart) : bool :=
  match p with TextPart _ => true | _ => false end.

(** [parts.find(...)]: the first part that satisfies [isTextPart], as its
    position in the array and its text. *)
Fixpoint findTextPart (ps : list GeminiPart) : option (nat * string) :=
  match ps with
  | [] => None
  | TextPart t :: _ => Some (0, t)
  | _ :: rest =>
      match findTextPart rest with
      | Some (i, t) => Some (S i, t)
      | None => None
      end
  end.

(** The effect of [addAssistantMessage] on the [contents] array: either
    [textPart.text += text] on the part found in the last element, which
    changes that element in place, or a [push] of a new model element. *)
Definition assistantContents (text : string) (contents : list Content)
    : list Content :=
  let assistantContent := {| role := Model; parts := [TextPart text] |} in
  match last contents with
  | Some lastContent =>
      match role lastContent, findTextPart (parts lastContent) with
      | Model, Some (i, old) =>
          <[length contents - 1 :=
              {| role := Model;
                 parts := <[i := TextPart (old +:+ text)]> (parts lastContent) |}]>
            contents
      | _, _ => contents ++ [assistantContent]
      end
  | None => contents ++ [assistantContent]
  end.

Definition addAssistantMessage (sessionId text : string) (m : SessionManager)
    : SessionManager :=
  match sessions m !! sessionId with
  | None => m
  | Some session =>
      setSessions
        (insert sessionId (setContents (assistantContents text (s_contents session)) session)) m
  end.

(** The effect of [addToolCall] on the [contents] array. *)
Definition toolCallContents (functionCall : FunctionCall) (contents : list Content)
    : list Content :=
  match last contents with
  | Some lastContent =>
      match role lastContent with
      | Model =>
          <[length contents - 1 :=
              {| role := Model;
                 parts := parts lastContent ++ [FunctionCallPart functionCall] |}]>
            contents
      | User =>
          contents ++ [{| role := Model; parts := [FunctionCallPart functionCall] |}]
      end
  | None => contents ++ [{| role := Model; parts := [FunctionCallPart functionCall] |}]
  end.

Definition addToolCall (sessionId : string) (functionCall : FunctionCall)
    (m : SessionManager) : SessionManager :=
  match sessions m !! sessionId with
  | None => m
  | Some session =>
      setSessions
        (insert sessionId
           (setContents (toolCallContents functionCall (s_contents session)) session))
        m
  end.

Definition addToolResult (sessionId callId name : string) (result : Json)
    (m : SessionManager) : SessionManager :=
  match sessions m !! sessionId with
  | None => m
  | Some session =>
      let functionResponse :=
        {| fr_name := name;
           fr_response :=
             if isString result then JObj [("output", result)] else result;
           fr_id := Some callId |} in
      let toolResultContent :=
        {| role := User; parts := [FunctionResponsePart functionResponse] |} in
      setSessions
        (insert sessionId (setContents (s_contents session ++ [toolResultContent]) session)) m
  end.

Definition setAbortController (sessionId : string) (controller : option nat)
    (m : SessionManager) : SessionManager :=
  match sessions m !! sessionId with
  | Some session =>
      setSessions (insert sessionId (setController controller session)) m
  | None => m
  end.

Definition cancelSession (sessionId : string) (m : SessionManager)
    : bool * SessionManager :=
  match sessions m !! sessionId ≫= s_abortController with
  | Some c =>
      (true, setAbortController sessionId None (abortController c m))
  | None => (false, m)
  end.

Definition getContents (sessionId : string) (m : SessionManager) : list Content :=
  default [] (s_contents <$> sessions m !! sessionId).

Definition clear (m : SessionManager) : SessionManager :=
  {| sessions := ∅;
     defaultModel := defaultModel m;
     abortedControllers :=
       map_fold
         (λ _ session acc,
            match s_abortController session with
            | Some c => {[c]} ∪ acc
            | None => acc
            end)
         (abortedControllers m) (sessions m) |}.

(** ** tools.ts *)

Definition quote : string := String (Ascii.ascii_of_nat 34) EmptyString.

(** A property of a schema: [{ type, description }]. *)
Definition prop (type description : string) : Json :=
  JObj [("type", JStr type); ("description", JStr description)].

(** [{ type: 'object', properties, required }] *)
Definition objectSchema (properties : list (string * Json)) (required : list string)
    : Json :=
  JObj [("type", JStr "object");
        ("properties", JObj properties);
        ("required", JArr (JStr <$> required))].

Definition ACP_TOOLS : list AcpTool :=
  [ {| tool_name := "read_file";
       tool_description := "Read the contents of a file at the specified path";
       tool_inputSchema := objectSchema
         [("path", prop "string" "The absolute or relative path to the file to read");
          ("offset", prop "number" "Line number to start reading from (0-based)");
          ("limit", prop "number" "Maximum number of lines to read")]
         ["path"] |};
    {| tool_name := "write_file";
       tool_description :=
         "Write content to a file at the specified path, creating it if it does not exist";
       tool_inputSchema := objectSchema
         [("path", prop "string" "The absolute or relative path to the file to write");
          ("content", prop "string" "The content to write to the file")]
         ["path"; "content"] |};
    {| tool_name := "edit_file";
       tool_description := "Make targeted edits to a file by replacing specific text";
       tool_inputSchema := objectSchema
         [("path", prop "string" "The path to the file to edit");
          ("old_string", prop "string" "The exact text to find and replace");
          ("new_string", prop "string" "The text to replace with")]
         ["path"; "old_string"; "new_string"] |};
    {| tool_name := "list_directory";
       tool_description := "List files and directories at the specified path";
       tool_inputSchema := objectSchema
         [("path", prop "string" "The path to the directory to list");
          ("recursive", prop "boolean" "Whether to list recursively")]
         ["path"] |};
    {| tool_name := "search_files";
       tool_description := "Search for files matching a pattern";
       tool_inputSchema := objectSchema
         [("pattern", prop "string" "Glob pattern to match files");
          ("path", prop "string" "Directory to search in")]
         ["pattern"] |};
    {| tool_name := "search_content";
       tool_description := "Search for content within files using regex";
       tool_inputSchema := objectSchema
         [("pattern", prop "string" "Regular expression pattern to search for");
          ("path", prop "string" "Directory to search in");
          ("include",
           prop "string"
             ("File pattern to include (e.g., " +:+ quote +:+ "*.ts" +:+ quote +:+ ")"))]
         ["pattern"] |};
    {| tool_name := "execute_command";
       tool_description := "Execute a shell command";
       tool_inputSchema := objectSchema
         [("command", prop "string" "The command to execute");
          ("cwd", prop "string" "Working directory for the command");
          ("timeout", prop "number" "Timeout in milliseconds")]
         ["command"] |} ].

Record FunctionDeclaration := mkFunctionDeclaration {
  fd_name : string;
  fd_description : string;
  fd_parameters : Json
}.

Definition acpToolsToFunctionDeclarations (tools : list AcpTool)
    : list FunctionDeclaration :=
  (λ tool,
     {| fd_name := tool_name tool;
        fd_description := tool_description tool;
        fd_parameters := tool_inputSchema tool |}) <$> tools.

Definition getToolByName (name : string) : option AcpTool :=
  List.find (λ t, String.eqb (tool_name t) name) ACP_TOOLS.

(** ** Backend events (types/antigravity.ts) *)

Record GeminiCandidate := mkCandidate {
  cand_content : option Content;
  cand_finishReason : option string
}.

Record GeminiResponse := mkResponse {
  candidates : list GeminiCandidate
}.

Record EventError := mkEventError {
  err_code : Z;
  err_message : string;
  err_status : option string
}.

Record AntigravityStreamEvent := mkEvent {
  ev_response : option GeminiResponse;
  ev_error : option EventError
}.

(** ** Session updates (types/acp.ts) *)

Inductive CompleteReason :=
| end_turn | tool_use | max_tokens | stop_sequence | reason_error.

(** The payload of a [sessionUpdate]; the constructor stands for the
    fields [type] and [kind] of the object. *)
Inductive SessionUpdatePayload : Type :=
| AgentMessageChunk (messageId : string) (index : nat) (chunk : string)
| AgentThoughtChunk (thoughtId : string) (index : nat) (chunk : string)
| ToolCall (callId : string) (tool : AcpTool) (input : Json)
| SessionComplete (reason : CompleteReason)
| SessionError (code message : string).

Definition typeName (u : SessionUpdatePayload) : string :=
  match u with
  | AgentMessageChunk _ _ _ => "agent_message_chunk"
  | AgentThoughtChunk _ _ _ => "agent_thought_chunk"
  | ToolCall _ _ _ => "tool_call"
  | SessionComplete _ => "session_complete"
  | SessionError _ _ => "session_error"
  end.

Definition kind (u : SessionUpdatePayload) : string :=
  match u with
  | AgentMessageChunk _ _ _ => "message"
  | AgentThoughtChunk _ _ _ => "thought"
  | ToolCall _ _ _ => "tool_call"
  | SessionComplete _ => "finish"
  | SessionError _ _ => "error"
  end.

Definition reasonString (r : CompleteReason) : string :=
  match r with
  | end_turn => "end_turn"
  | tool_use => "tool_use"
  | max_tokens => "max_tokens"
  | stop_sequence => "stop_sequence"
  | reason_error => "error"
  end.

(** [{ jsonrpc: '2.0', method: 'sessionUpdate', params: { sessionId, update } }] *)
Record SessionUpdateNotification := mkNotification {
  n_sessionId : string;
  n_update : SessionUpdatePayload
}.

(** ** stream-adapter.ts *)

(** The closure of [createStreamAdapter]: its two constants and its three
    variables.  [messageIndex] is a JavaScript number that only counts up
    from 0 by one; it is a natural number here.  [clock] is the number of
    readings of [Date.now()] made so far, the position in the oracle. *)
Record StreamAdapter := mkStreamAdapter {
  sessionId : string;
  toolNameToAcpTool : gmap string AcpTool;
  messageIndex : nat;
  accumulatedText : string;
  currentToolCallId : option string;
  clock : nat
}.

Section Environment.

(** [Date_now k] is the [k]-th reading of [Date.now()], [Math_random k]
    the [k]-th value of [Math.random().toString(36).slice(2, 8)]. *)
Variable Date_now : nat → N.
Variable Math_random : nat → string.

(** [new Map(tools.map((t) => [t.name, t]))]: a later tool replaces an
    earlier one of the same name. *)
Definition createStreamAdapter (sid : string) (tools : list AcpTool) (clk : nat)
    : StreamAdapter :=
  {| sessionId := sid;
     toolNameToAcpTool := foldl (λ acc t, <[tool_name t := t]> acc) ∅ tools;
     messageIndex := 0;
     accumulatedText := "";
     currentToolCallId := None;
     clock := clk |}.

Definition createNotification (a : StreamAdapter) (update : SessionUpdatePayload)
    : SessionUpdateNotification :=
  {| n_sessionId := sessionId a; n_update := update |}.

Definition createMessageChunk (text : string) (a : StreamAdapter)
    : SessionUpdatePayload * StreamAdapter :=
  (AgentMessageChunk
     ("msg_" +:+ sessionId a +:+ "_" +:+ pretty (messageIndex a))
     (messageIndex a) text,
   {| sessionId := sessionId a; toolNameToAcpTool := toolNameToAcpTool a;
      messageIndex := S (messageIndex a);
      accumulatedText := accumulatedText a;
      currentToolCallId := currentToolCallId a; clock := clock a |}).

Definition createThoughtChunk (text : string) (a : StreamAdapter)
    : SessionUpdatePayload * StreamAdapter :=
  (AgentThoughtChunk
     ("thought_" +:+ sessionId a +:+ "_" +:+ pretty (messageIndex a))
     (messageIndex a) text,
   {| sessionId := sessionId a; toolNameToAcpTool := toolNameToAcpTool a;
      messageIndex := S (messageIndex a);
      accumulatedText := accumulatedText a;
      currentToolCallId := currentToolCallId a; clock := clock a |}).

(** The definition that stands for a tool the catalogue does not know. *)
Definition minimalTool (name : string) : AcpTool :=
  {| tool_name := name;
     tool_description := "";
     tool_inputSchema := JObj [("type", JStr "object"); ("properties", JObj [])] |}.

Definition createToolCall (functionCall : FunctionCall) (a : StreamAdapter)
    : SessionUpdatePayload * StreamAdapter :=
  let '(callId, clk) :=
    match fc_id functionCall with
    | Some i =>
        if truthyStr i then (i, clock a)
        else ("call_" +:+ sessionId a +:+ "_" +:+ pretty (Date_now (clock a)),
              S (clock a))
    | None =>
        ("call_" +:+ sessionId a +:+ "_" +:+ pretty (Date_now (clock a)),
         S (clock a))
    end in
  let acpTool := toolNameToAcpTool a !! fc_name functionCall in
  (ToolCall callId
     (default (minimalTool (fc_name functionCall)) acpTool)
     (orEmptyObj (fc_args functionCall)),
   {| sessionId := sessionId a; toolNameToAcpTool := toolNameToAcpTool a;
      messageIndex := messageIndex a;
      accumulatedText := accumulatedText a;
      currentToolCallId := Some callId; clock := clk |}).

Definition createSessionComplete (reason : CompleteReason) : SessionUpdatePayload :=
  SessionComplete reason.

Definition createSessionError (message code : string) : SessionUpdatePayload :=
  SessionError code message.

Definition addText (text : string) (a : StreamAdapter) : StreamAdapter :=
  {| sessionId := sessionId a; toolNameToAcpTool := toolNameToAcpTool a;
     messageIndex := messageIndex a;
     accumulatedText := accumulatedText a +:+ text;
     currentToolCallId := currentToolCallId a; clock := clock a |}.

(** The loop state of [processEvent]: the array [notifications] and the
    closure. *)
Definition Acc : Type := list SessionUpdateNotification * StreamAdapter.

Definition push (mk : StreamAdapter → SessionUpdatePayload * StreamAdapter)
    (acc : Acc) : Acc :=
  let '(update, a) := mk acc.2 in
  ((acc.1 ++ [createNotification a update])%list, a).

(** The body of [for (const part of parts)]. *)
Definition processPart (acc : Acc) (part : GeminiPart) : Acc :=
  match part with
  | ThoughtPart text true => push (createThoughtChunk text) acc
  | ThoughtPart _ false => acc
  | TextPart text =>
      if truthyStr text
      then push (createMessageChunk text) (acc.1, addText text acc.2)
      else acc
  | FunctionCallPart functionCall => push (createToolCall functionCall) acc
  | InlineDataPart _ _ | FunctionResponsePart _ => acc
  end.

(** The chain of tests on [candidate.finishReason]. *)
Definition finishUpdate (finishReason : option string) : option SessionUpdatePayload :=
  match finishReason with
  | Some r =>
      if String.eqb r "STOP" then Some (createSessionComplete end_turn)
      else if String.eqb r "TOOL_USE" then Some (createSessionComplete tool_use)
      else if String.eqb r "SAFETY"
      then Some (createSessionError "Content blocked by safety filters" "SAFETY_BLOCK")
      else if String.eqb r "MAX_TOKENS" then Some (createSessionComplete max_tokens)
      else None
  | None => None
  end.

(** The body of [for (const candidate of candidates)]; a candidate without
    parts is left by [continue]. *)
Definition processCandidate (acc : Acc) (candidate : GeminiCandidate) : Acc :=
  match parts <$> cand_content candidate with
  | None | Some [] => acc
  | Some ps =>
      let acc1 := foldl processPart acc ps in
      match finishUpdate (cand_finishReason candidate) with
      | Some update => ((acc1.1 ++ [createNotification acc1.2 update])%list, acc1.2)
      | None => acc1
      end
  end.

Definition processEvent (event : AntigravityStreamEvent) (a : StreamAdapter)
    : list SessionUpdateNotification * StreamAdapter :=
  match candidates <$> ev_response event with
  | None | Some [] => ([], a)
  | Some cs => foldl processCandidate ([], a) cs
  end.

Definition getAccumulatedText (a : StreamAdapter) : string := accumulatedText a.

Definition getCurrentToolCallId (a : StreamAdapter) : option string :=
  currentToolCallId a.

Definition reset (a : StreamAdapter) : StreamAdapter :=
  {| sessionId := sessionId a; toolNameToAcpTool := toolNameToAcpTool a;
     messageIndex := 0;
     accumulatedText := "";
     currentToolCallId := None; clock := clock a |}.

(** ** acp-server.ts *)

Inductive RpcId := IdNum (n : Z) | IdStr (s : string).

Record PendingToolCall := mkPending {
  p_id : string;
  p_name : string
}.

(** The [result] of a response.  A field of type [option] whose value is
    [None] is [undefined] in the object, and [JSON.stringify] leaves such a
    field out of the line it writes. *)
Inductive RpcResult : Type :=
| InitializeResult (result : Json)
| NewSessionResult (sessionId : string)
| PromptResult (pending : option (list PendingToolCall))
| CancelResult (cancelled : bool)
| EmptyResult.

(** One line written to standard output. *)
Inductive Output : Type :=
| Response (id : RpcId) (result : RpcResult)
| ErrorResponse (id : option RpcId) (code : Z) (message : string) (data : option Json)
| Notification (n : SessionUpdateNotification).

Record AuthConfig := mkAuthConfig {
  accessToken : string;
  refreshToken : string;
  projectId : string
}.

(** [createAntigravityClient]: the client is the credentials it holds. *)
Definition AntigravityClient : Type := AuthConfig.

Inductive AcpRole := user | assistant.

Inductive AcpContent : Type :=
| AcpTextContent (text : string)
| AcpImageContent (media_type data : string)
| AcpToolUseContent (id name : string) (input : Json)
| AcpToolResultContent (tool_use_id content : string) (is_error : option bool).

Inductive MessageContent : Type :=
| StringContent (s : string)
| ArrayContent (items : list AcpContent).

Record AcpMessage := mkMessage {
  msg_role : AcpRole;
  msg_content : MessageContent
}.

Record NewSessionParams := mkNewSessionParams {
  ns_config : option SessionConfig
}.

Record PromptParams := mkPromptParams {
  pp_sessionId : string;
  pp_messages : list AcpMessage
}.

Record ToolResultParams := mkToolResultParams {
  tr_sessionId : string;
  tr_toolUseId : string;
  tr_callId : string;
  tr_toolName : string;
  tr_result : Json;
  tr_isError : option bool
}.

Record CancelParams := mkCancelParams {
  cp_sessionId : string
}.

(** The options of one call of [streamGenerateContent]. *)
Record StreamGenerateContentOptions := mkStreamOptions {
  o_model : string;
  o_contents : list Content;
  o_systemInstruction : option string;
  o_tools : option (list FunctionDeclaration);
  o_signal : nat
}.

(** What the backend does with a call: the events the generator yields,
    then its return or the error it throws. *)
Inductive StreamEnd :=
| StreamDone
| StreamThrow (name message : string).

Record BackendStream := mkStream {
  events : list AntigravityStreamEvent;
  ending : StreamEnd
}.

(** A request as [handleRequest] receives it: the method, its parameters
    at the type the handler casts them to, and what the environment
    answers while the request is handled.  On such a request no handler
    throws; the requests that lack parameters, on which a handler can
    throw, are the [Unchecked] ones of [handleUnchecked], below. *)
Inductive Call : Type :=
| CInitialize (loaded : option AuthConfig)
| CNewSession (params : NewSessionParams)
| CPrompt (params : PromptParams) (stream : BackendStream)
| CToolResult (params : ToolResultParams) (stream : BackendStream)
| CCancel (params : CancelParams)
| CShutdown
| COther (method : string).

Record AcpServerOptions := mkOptions {
  opt_auth : option AuthConfig;
  opt_defaultModel : option string;
  opt_tools : option (list AcpTool)
}.

(** The closure of [createAcpServer], followed by the part of the world it
    acts on: the lines written, the backend calls made, the controllers
    allocated, the positions in the two oracles and the exit code. *)
Record AcpServer := mkAcpServer {
  options : AcpServerOptions;
  sessionManager : SessionManager;
  tools : list AcpTool;
  antigravityClient : option AntigravityClient;
  initialized : bool;
  stdout : list Output;
  backendCalls : list StreamGenerateContentOptions;
  controllers : nat;
  dateReads : nat;
  randomReads : nat;
  exitCode : option Z
}.

Definition SERVER_NAME : string := "antigravity-acp".
Definition SERVER_VERSION : string := "0.1.0".

Definition createAcpServer (opts : AcpServerOptions) : AcpServer :=
  {| options := opts;
     sessionManager := createSessionManager (opt_defaultModel opts);
     tools := default ACP_TOOLS (opt_tools opts);
     antigravityClient := None;
     initialized := false;
     stdout := [];
     backendCalls := [];
     controllers := 0;
     dateReads := 0;
     randomReads := 0;
     exitCode := None |}.

Definition withManager (f : SessionManager → SessionManager) (s : AcpServer)
    : AcpServer :=
  {| options := options s; sessionManager := f (sessionManager s);
     tools := tools s; antigravityClient := antigravityClient s;
     initialized := initialized s; stdout := stdout s;
     backendCalls := backendCalls s; controllers := controllers s;
     dateReads := dateReads s; randomReads := randomReads s;
     exitCode := exitCode s |}.

Definition write (o : Output) (s : AcpServer) : AcpServer :=
  {| options := options s; sessionManager := sessionManager s;
     tools := tools s; antigravityClient := antigravityClient s;
     initialized := initialized s; stdout := stdout s ++ [o];
     backendCalls := backendCalls s; controllers := controllers s;
     dateReads := dateReads s; randomReads := randomReads s;
     exitCode := exitCode s |}.

Definition sendResponse (id : RpcId) (result : RpcResult) : AcpServer → AcpServer :=
  write (Response id result).

Definition sendNotification (n : SessionUpdateNotification) : AcpServer → AcpServer :=
  write (Notification n).

Definition sendError (id : option RpcId) (code : Z) (message : string)
    : AcpServer → AcpServer :=
  write (ErrorResponse id code message None).

Definition initializeResult : Json :=
  JObj
    [("protocolVersion", JNum 1);
     ("agentCapabilities",
      JObj [("promptCapabilities",
             JObj [("image", JBool false); ("embeddedContext", JBool true)]);
            ("mcpCapabilities",
             JObj [("http", JBool false); ("sse", JBool false)]);
            ("sessionCapabilities", JObj [])]);
     ("agentInfo",
      JObj [("name", JStr SERVER_NAME);
            ("title", JStr "Antigravity");
            ("version", JStr SERVER_VERSION)]);
     ("authMethods",
      JArr [JObj [("id", JStr "antigravity-login");
                  ("name", JStr "Log in with Google (Antigravity)");
                  ("description",
                   JStr "Run `antigravity-acp login` in your terminal to authenticate with Google OAuth")]])].

(** [loaded] is what [loadAuthFromConfig()] returns; it is read only when
    the options hold no credentials. *)
Definition handleInitialize (id : RpcId) (loaded : option AuthConfig) (s : AcpServer)
    : AcpServer :=
  let auth := match opt_auth (options s) with Some a => Some a | None => loaded end in
  sendResponse id (InitializeResult initializeResult)
    {| options := options s; sessionManager := sessionManager s;
       tools := tools s;
       antigravityClient :=
         match auth with Some a => Some a | None => antigravityClient s end;
       initialized := true; stdout := stdout s;
       backendCalls := backendCalls s; controllers := controllers s;
       dateReads := dateReads s; randomReads := randomReads s;
       exitCode := exitCode s |}.

(** The state after [createSession] has read the clock twice and the
    random generator once. *)
Definition afterCreate (m : SessionManager) (s : AcpServer) : AcpServer :=
  {| options := options s; sessionManager := m;
     tools := tools s; antigravityClient := antigravityClient s;
     initialized := initialized s; stdout := stdout s;
     backendCalls := backendCalls s; controllers := controllers s;
     dateReads := S (S (dateReads s)); randomReads := S (randomReads s);
     exitCode := exitCode s |}.

Definition handleNewSession (id : RpcId) (params : NewSessionParams) (s : AcpServer)
    : AcpServer :=
  if negb (initialized s) then sendError (Some id) (-32002) "Server not initialized" s
  else
    match antigravityClient s with
    | None =>
        write
          (ErrorResponse (Some id) (-32001) "Authentication required"
             (Some (JObj [("type", JStr "authRequired")])))
          s
    | Some _ =>
        let '(session, m) :=
          createSession (Date_now (dateReads s)) (Date_now (S (dateReads s)))
            (Math_random (randomReads s)) (ns_config params) (sessionManager s) in
        sendResponse id (NewSessionResult (s_id session)) (afterCreate m s)
    end.

Definition newline : string := String (Ascii.ascii_of_nat 10) EmptyString.

(** [JSON.stringify] on the content of a message that is not a string. *)
Variable JSON_stringify : list AcpContent → string.

Definition isUser (m : AcpMessage) : bool :=
  match msg_role m with user => true | assistant => false end.

Definition contentText (m : AcpMessage) : string :=
  match msg_content m with
  | StringContent s => s
  | ArrayContent items => JSON_stringify items
  end.

Definition userTextOf (messages : list AcpMessage) : string :=
  String.concat newline (contentText <$> List.filter isUser messages).

(** [new AbortController()] *)
Definition newAbortController (s : AcpServer) : nat * AcpServer :=
  (controllers s,
   {| options := options s; sessionManager := sessionManager s;
      tools := tools s; antigravityClient := antigravityClient s;
      initialized := initialized s; stdout := stdout s;
      backendCalls := backendCalls s; controllers := S (controllers s);
      dateReads := dateReads s; randomReads := randomReads s;
      exitCode := exitCode s |}).

Definition streamGenerateContent (opts : StreamGenerateContentOptions) (s : AcpServer)
    : AcpServer :=
  {| options := options s; sessionManager := sessionManager s;
     tools := tools s; antigravityClient := antigravityClient s;
     initialized := initialized s; stdout := stdout s;
     backendCalls := backendCalls s ++ [opts]; controllers := controllers s;
     dateReads := dateReads s; randomReads := randomReads s;
     exitCode := exitCode s |}.

Definition setDateReads (k : nat) (s : AcpServer) : AcpServer :=
  {| options := options s; sessionManager := sessionManager s;
     tools := tools s; antigravityClient := antigravityClient s;
     initialized := initialized s; stdout := stdout s;
     backendCalls := backendCalls s; controllers := controllers s;
     dateReads := k; randomReads := randomReads s;
     exitCode := exitCode s |}.

Definition setClock (k : nat) (a : StreamAdapter) : StreamAdapter :=
  {| sessionId := sessionId a; toolNameToAcpTool := toolNameToAcpTool a;
     messageIndex := messageIndex a;
     accumulatedText := accumulatedText a;
     currentToolCallId := currentToolCallId a; clock := k |}.

(** The variables of the [try] block of a turn. *)
Record Turn := mkTurn {
  adapter : StreamAdapter;
  pendingToolCalls : list PendingToolCall
}.

(** The body of [for (const notification of notifications)].  [fullText]
    is what [adapter.getAccumulatedText()] returns: the adapter has
    processed the whole event by then. *)
Definition onNotification (sid fullText : string)
    (st : list PendingToolCall * AcpServer) (notification : SessionUpdateNotification)
    : list PendingToolCall * AcpServer :=
  let s1 := sendNotification notification st.2 in
  let st2 :=
    match n_update notification with
    | ToolCall callId tool input =>
        ((st.1 ++ [{| p_id := callId; p_name := tool_name tool |}])%list,
         withManager
           (addToolCall sid
              {| fc_name := tool_name tool;
                 fc_args := Some (orEmptyObj (Some input));
                 fc_id := Some callId |})
           s1)
    | _ => (st.1, s1)
    end in
  match n_update notification with
  | SessionComplete _ =>
      if truthyStr fullText
      then (st2.1, withManager (addAssistantMessage sid fullText) st2.2)
      else st2
  | _ => st2
  end.

(** The body of [for await (const event of stream)]. *)
Definition onEvent (sid : string) (st : Turn * AcpServer)
    (event : AntigravityStreamEvent) : Turn * AcpServer :=
  let '(notifications, a) :=
    processEvent event (setClock (dateReads st.2) (adapter st.1)) in
  let '(pending, s) :=
    foldl (onNotification sid (getAccumulatedText a))
      (pendingToolCalls st.1, setDateReads (clock a) st.2) notifications in
  ({| adapter := a; pendingToolCalls := pending |}, s).

(** How the [try] block leaves: the response after the loop, or the
    [catch] clause. *)
Definition onEnd (id : RpcId) (e : StreamEnd) (t : Turn) (s : AcpServer) : AcpServer :=
  match e with
  | StreamDone =>
      sendResponse id
        (PromptResult
           (match pendingToolCalls t with
            | [] => None
            | _ :: _ => Some (pendingToolCalls t)
            end))
        s
  | StreamThrow name message =>
      if String.eqb name "AbortError"
      then sendError (Some id) (-32001) "Request cancelled" s
      else sendError (Some id) (-32000) (orStr (Some message) "Unknown error") s
  end.

(** What [handlePrompt] and [handleToolResult] share: everything from
    [new AbortController()] to the [finally] clause.  [session] is the
    object fetched before the history was extended; the turn reads its
    [tools], [model] and [systemInstruction], which never change. *)
Definition runTurn (id : RpcId) (sid : string) (session : SessionState)
    (stream : BackendStream) (s : AcpServer) : AcpServer :=
  let '(controller, s1) := newAbortController s in
  let s2 := withManager (setAbortController sid (Some controller)) s1 in
  let functionDeclarations :=
    acpToolsToFunctionDeclarations
      (if (0 <? length (s_tools session))%nat then s_tools session else tools s2) in
  let s3 :=
    streamGenerateContent
      {| o_model := s_model session;
         o_contents := getContents sid (sessionManager s2);
         o_systemInstruction :=
           match s_systemInstruction session with
           | Some i => if truthyStr i then Some i else None
           | None => None
           end;
         o_tools :=
           if (0 <? length functionDeclarations)%nat
           then Some functionDeclarations else None;
         o_signal := controller |}
      s2 in
  let t0 :=
    {| adapter := createStreamAdapter sid [] (dateReads s3);
       pendingToolCalls := [] |} in
  let '(t, s4) := foldl (onEvent sid) (t0, s3) (events stream) in
  let s5 := onEnd id (ending stream) t s4 in
  withManager (setAbortController sid None) s5.

Definition handlePrompt (id : RpcId) (params : PromptParams) (stream : BackendStream)
    (s : AcpServer) : AcpServer :=
  if negb (initialized s) || negb (bool_decide (is_Some (antigravityClient s)))
  then sendError (Some id) (-32002) "Server not initialized" s
  else
    match getSession (pp_sessionId params) (sessionManager s) with
    | None =>
        sendError (Some id) (-32001)
          ("Session not found: " +:+ pp_sessionId params) s
    | Some session =>
        let userText := userTextOf (pp_messages params) in
        let s1 :=
          if truthyStr userText
          then withManager (addUserMessage (pp_sessionId params) userText) s
          else s in
        runTurn id (pp_sessionId params) session stream s1
    end.

Definition handleToolResult (id : RpcId) (params : ToolResultParams)
    (stream : BackendStream) (s : AcpServer) : AcpServer :=
  if negb (initialized s) || negb (bool_decide (is_Some (antigravityClient s)))
  then sendError (Some id) (-32002) "Server not initialized" s
  else
    match getSession (tr_sessionId params) (sessionManager s) with
    | None =>
        sendError (Some id) (-32001)
          ("Session not found: " +:+ tr_sessionId params) s
    | Some session =>
        let s1 :=
          withManager
            (addToolResult (tr_sessionId params) (tr_callId params)
               (tr_toolName params) (tr_result params))
            s in
        runTurn id (tr_sessionId params) session stream s1
    end.

Definition handleCancel (id : RpcId) (params : CancelParams) (s : AcpServer)
    : AcpServer :=
  let '(cancelled, m) := cancelSession (cp_sessionId params) (sessionManager s) in
  sendResponse id (CancelResult cancelled) (withManager (λ _, m) s).

(** [process.exit(0)] *)
Definition exit (code : Z) (s : AcpServer) : AcpServer :=
  {| options := options s; sessionManager := sessionManager s;
     tools := tools s; antigravityClient := antigravityClient s;
     initialized := initialized s; stdout := stdout s;
     backendCalls := backendCalls s; controllers := controllers s;
     dateReads := dateReads s; randomReads := randomReads s;
     exitCode := Some code |}.

Definition handleShutdown (id : RpcId) (s : AcpServer) : AcpServer :=
  exit 0 (sendResponse id EmptyResult (withManager clear s)).

Definition handleRequest (id : RpcId) (call : Call) (s : AcpServer) : AcpServer :=
  match call with
  | CInitialize loaded => handleInitialize id loaded s
  | CNewSession params => handleNewSession id params s
  | CPrompt params stream => handlePrompt id params stream s
  | CToolResult params stream => handleToolResult id params stream s
  | CCancel params => handleCancel id params s
  | CShutdown => handleShutdown id s
  | COther method => sendError (Some id) (-32601) ("Method not found: " +:+ method) s
  end.

(** The name of the method of a call. *)
Definition methodOf (call : Call) : string :=
  match call with
  | CInitialize _ => "initialize"
  | CNewSession _ => "newSession"
  | CPrompt _ _ => "prompt"
  | CToolResult _ _ => "toolResult"
  | CCancel _ => "cancel"
  | CShutdown => "shutdown"
  | COther method => method
  end.

(** *** [start]: the listener of standard input *)

(** A request whose [params] lack what its handler reads.  [handleRequest]
    casts [params] to the type of the handler without a check, and the
    handler throws a TypeError where it reads a field of [undefined]:
    [params.config], [params.sessionId], [params.messages.filter] and
    [params.tool.name].  A [sessionId] that is [undefined] is looked up in
    the store like any other key and is not found.  [initialize] reads no
    parameter; it throws when [loadAuthFromConfig()] rejects. *)
Inductive Unchecked : Type :=
| InitializeLoadRejects
| NewSessionNoParams
| PromptNoParams
| PromptNoSessionId
| PromptNoMessages (sessionId : string)
| ToolResultNoParams
| ToolResultNoSessionId
| ToolResultNoTool (sessionId : string)
| CancelNoParams
| CancelNoSessionId.

(** What [handleRequest] does with such a request: the handler runs up to
    the field it cannot read.  [None] stands for the promise that rejects;
    the handler has written nothing and changed nothing by then. *)
Definition handleUnchecked (id : RpcId) (u : Unchecked) (s : AcpServer)
    : option AcpServer :=
  match u with
  | InitializeLoadRejects =>
      match opt_auth (options s) with
      | Some _ => Some (handleInitialize id None s)
      | None => None
      end
  | NewSessionNoParams =>
      if negb (initialized s)
      then Some (sendError (Some id) (-32002) "Server not initialized" s)
      else
        match antigravityClient s with
        | None =>
            Some
              (write
                 (ErrorResponse (Some id) (-32001) "Authentication required"
                    (Some (JObj [("type", JStr "authRequired")])))
                 s)
        | Some _ => None
        end
  | PromptNoParams | ToolResultNoParams =>
      if negb (initialized s) || negb (bool_decide (is_Some (antigravityClient s)))
      then Some (sendError (Some id) (-32002) "Server not initialized" s)
      else None
  | PromptNoSessionId | ToolResultNoSessionId =>
      if negb (initialized s) || negb (bool_decide (is_Some (antigravityClient s)))
      then Some (sendError (Some id) (-32002) "Server not initialized" s)
      else Some (sendError (Some id) (-32001) "Session not found: undefined" s)
  | PromptNoMessages sid | ToolResultNoTool sid =>
      if negb (initialized s) || negb (bool_decide (is_Some (antigravityClient s)))
      then Some (sendError (Some id) (-32002) "Server not initialized" s)
      else
        match getSession sid (sessionManager s) with
        | None =>
            Some (sendError (Some id) (-32001) ("Session not found: " +:+ sid) s)
        | Some _ => None
        end
  | CancelNoParams => None
  | CancelNoSessionId => Some (sendResponse id (CancelResult false) s)
  end.

(** A line that is not blank: text that [JSON.parse] rejects (or parses to
    [null], which the destructuring of [handleRequest] rejects), a request
    whose parameters have the type its handler casts them to, or a request
    that lacks some of them. *)
Inductive Input : Type :=
| NotJson
| Request (id : RpcId) (call : Call)
| UncheckedRequest (id : RpcId) (u : Unchecked).

(** A line of standard input; [Blank] when [line.trim()] is empty. *)
Inductive Line : Type :=
| Blank
| Holds (input : Input).

(** The variables of [start], around the closure of the server. *)
Record Loop := mkLoop {
  server : AcpServer;
  pendingRequests : nat;
  closing : bool
}.

Definition maybeExit (l : Loop) : Loop :=
  if closing l && (pendingRequests l =? 0)%nat
  then {| server := exit 0 (withManager clear (server l));
          pendingRequests := pendingRequests l;
          closing := closing l |}
  else l.

(** The [try] block of the listener: [JSON.parse(line)], then
    [await handleRequest(request)]; [None] when one of them throws. *)
Definition tryInput (input : Input) (s : AcpServer) : option AcpServer :=
  match input with
  | NotJson => None
  | Request id call => Some (handleRequest id call s)
  | UncheckedRequest id u => handleUnchecked id u s
  end.

(** [rl.on('line', ...)], the request being handled to its end.  A handler
    that has called [process.exit] does not return: the [finally] clause is
    not reached. *)
Definition onLine (line : Line) (l : Loop) : Loop :=
  match line with
  | Blank => l
  | Holds input =>
      let s1 :=
        match tryInput input (server l) with
        | Some s' => s'
        | None => sendError None (-32700) "Parse error" (server l)
        end in
      match exitCode s1 with
      | Some _ =>
          {| server := s1; pendingRequests := S (pendingRequests l);
             closing := closing l |}
      | None =>
          maybeExit
            {| server := s1; pendingRequests := S (pendingRequests l) - 1;
               closing := closing l |}
      end
  end.

(** [rl.on('close', ...)] *)
Definition onClose (l : Loop) : Loop :=
  maybeExit
    {| server := server l; pendingRequests := pendingRequests l; closing := true |}.

(** A step of the process: nothing happens once it has exited. *)
Definition running (f : Loop → Loop) (l : Loop) : Loop :=
  match exitCode (server l) with
  | Some _ => l
  | None => f l
  end.

(** What the process does with the lines of its standard input, which is
    then closed: each line is handled to its end before the next one is
    read. *)
Definition start (lines : list Line) (s : AcpServer) : Loop :=
  running onClose
    (foldl (λ l line, running (onLine line) l)
       {| server := s; pendingRequests := 0; closing := false |} lines).

End Environment.

(** ** Observations on the output of the stream adapter *)

(** The [index] of an update that has one. *)
Definition chunkIndex (u : SessionUpdatePayload) : option nat :=
  match u with
  | AgentMessageChunk _ i _ | AgentThoughtChunk _ i _ => Some i
  | _ => None
  end.

(** The indices of the message and thought chunks of a list of
    notifications, in the order of the list. *)
Definition chunkIndices (ns : list SessionUpdateNotification) : list nat :=
  omap (λ n, chunkIndex (n_update n)) ns.

(** The [thoughtId]s of a list of notifications. *)
Definition thoughtIds (ns : list SessionUpdateNotification) : list string :=
  omap (λ n, match n_update n with
             | AgentThoughtChunk i _ _ => Some i
             | _ => None
             end) ns.

(** What one adapter emits for the events of a stream: the calls of
    [processEvent] that the loop of a turn makes, one after the other. *)
Definition processEvents (Date_now : nat → N)
    (evs : list AntigravityStreamEvent) (a : StreamAdapter) : Acc :=
  foldl (λ acc ev,
           let '(ns, a1) := processEvent Date_now ev acc.2 in
           ((acc.1 ++ ns)%list, a1))
        ([], a) evs.

(** [counts acc acc']: from [acc] to [acc'] the chunks that were added
    carry the consecutive indices that start at the counter of [acc], and
    the counter of [acc'] is the next one. *)
Definition counts (acc acc' : Acc) : Prop :=
  ∃ d, chunkIndices acc'.1 = (chunkIndices acc.1 ++ seq (messageIndex acc.2) d)%list
       ∧ messageIndex acc'.2 = messageIndex acc.2 + d.

(** The thought chunks of [ns] all carry one and the same identifier. *)
Definition stableThoughtId (ns : list SessionUpdateNotification) : Prop :=
  ∃ tid, ∀ i, i ∈ thoughtIds ns → i = tid.

(** ** Observations on the session store and the server *)

(** No sub-part of the element is a plain text part. *)
Definition noTextPart (ps : list GeminiPart) : Prop :=
  Forall (λ p, isTextPart p = false) ps.

(** All the sub-parts of the element are plain text parts. *)
Definition pureText (c : Content) : bool := forallb isTextPart (parts c).

(** The session exists and its cancellation handle is none. *)
Definition cleared (sid : string) (s : AcpServer) : Prop :=
  ∃ session,
    getSession sid (sessionManager s) = Some session
    ∧ s_abortController session = None.

(** From [s] to [s'] the request [id] was answered by the error -32002,
    and by nothing else. *)
Definition rejected (id : RpcId) (s s' : AcpServer) : Prop :=
  ∃ message data,
    stdout s' = (stdout s ++ [ErrorResponse (Some id) (-32002) message data])%list.

(** The session exists. *)
Definition hasSession (sid : string) (s : AcpServer) : Prop :=
  is_Some (sessions (sessionManager s) !! sid).

(** The store operation [f] discards no session. *)
Definition keepsSessions (f : SessionManager → SessionManager) : Prop :=
  ∀ m sid, is_Some (sessions m !! sid) → is_Some (sessions (f m) !! sid).

(** ** Inputs of the examples *)

(** An event with one candidate: a model content with the parts [ps], and
    the finish reason [finishReason]. *)
Definition eventOf (ps : list GeminiPart) (finishReason : option string)
    : AntigravityStreamEvent :=
  {| ev_response :=
       Some {| candidates :=
                 [ {| cand_content := Some {| role := Model; parts := ps |};
                      cand_finishReason := finishReason |} ] |};
     ev_error := None |}.

(** An event whose only candidate has a finish reason and no content. *)
Definition eventWithoutContent (finishReason : option string)
    : AntigravityStreamEvent :=
  {| ev_response :=
       Some {| candidates :=
                 [ {| cand_content := None;
                      cand_finishReason := finishReason |} ] |};
     ev_error := None |}.

(** A clock that stands still and a random generator that repeats itself. *)
Definition frozenClock : nat → N := λ _, 1700000000000%N.
Definition fixedRandom : nat → string := λ _, "k3x9qa".

(** Credentials, and a stand-in for [JSON.stringify]: the messages of the
    examples have string contents, so that it is never called. *)
Definition credentials : AuthConfig :=
  {| accessToken := "access"; refreshToken := "refresh"; projectId := "project" |}.

Definition stringifyUnused : list AcpContent → string := λ _, "".

(** A server started with credentials and with the default catalogue, then
    initialized, then asked for a session with the default configuration. *)
Definition freshServer : AcpServer :=
  createAcpServer
    {| opt_auth := Some credentials; opt_defaultModel := None; opt_tools := None |}.

Definition readyServer : AcpServer :=
  handleRequest frozenClock fixedRandom stringifyUnused
    (IdNum 0) (CInitialize None) freshServer.

Definition sessionServer : AcpServer :=
  handleRequest frozenClock fixedRandom stringifyUnused
    (IdNum 1) (CNewSession {| ns_config := None |}) readyServer.

Definition theSession : string := "session_1700000000000_k3x9qa".

Definition userSays (text : string) : list AcpMessage :=
  [ {| msg_role := user; msg_content := StringContent text |} ].

(** The backend asks for the tool [read_file] of the default catalogue. *)
Definition readFileCall : FunctionCall :=
  {| fc_name := "read_file";
     fc_args := Some (JObj [("path", JStr "a.txt")]);
     fc_id := Some "c1" |}.

Definition readFileStream : BackendStream :=
  {| events := [eventOf [FunctionCallPart readFileCall] (Some "TOOL_USE")];
     ending := StreamDone |}.

(** A store with one session, which is new. *)
Definition newSessionOf : SessionState * SessionManager :=
  createSession 1 1 "k3x9qa" None (createSessionManager None).

Definition oneSessionStore : SessionManager := newSessionOf.2.

Definition storedSession : string := "session_1_k3x9qa".

(** A store whose only session holds one model element with a text and a
    tool call, written through the operations of the store. *)
Definition mixedStore : SessionManager :=
  addToolCall storedSession readFileCall
    (addAssistantMessage storedSession "a" oneSessionStore).

(** A store whose only session has a live cancellation handle. *)
Definition liveStore : SessionManager :=
  setAbortController storedSession (Some 7) oneSessionStore.

(** A stream that yields a text and is then cancelled. *)
Definition cancelledStream : BackendStream :=
  {| events := [eventOf [TextPart "hel"] None];
     ending := StreamThrow "AbortError" "The operation was aborted" |}.

(** Two thoughts in one event. *)
Definition twoThoughts : AntigravityStreamEvent :=
  eventOf [ThoughtPart "a" true; ThoughtPart "b" true] None.


(** ** Further observations on the stream adapter *)

(** The texts of the message chunks of a list of notifications. *)
Definition messageChunks (ns : list SessionUpdateNotification) : list string :=
  omap (λ n, match n_update n with
             | AgentMessageChunk _ _ c => Some c
             | _ => None
             end) ns.

(** The call identifiers of the tool calls of a list of notifications. *)
Definition toolCallIds (ns : list SessionUpdateNotification) : list string :=
  omap (λ n, match n_update n with
             | ToolCall i _ _ => Some i
             | _ => None
             end) ns.

(** The strings of a list, one after the other. *)
Definition joinAll (l : list string) : string := foldr String.append "" l.

(** The updates that end a turn. *)
Definition isTerminal (u : SessionUpdatePayload) : bool :=
  match u with
  | SessionComplete _ | SessionError _ _ => true
  | _ => false
  end.

(** The parts of a candidate, none when it has no content. *)
Definition partsOf (c : GeminiCandidate) : list GeminiPart :=
  default [] (parts <$> cand_content c).

(** An event that holds the candidate [c] and nothing else. *)
Definition singleCandidate (c : GeminiCandidate) : AntigravityStreamEvent :=
  {| ev_response := Some {| candidates := [c] |}; ev_error := None |}.

(** A step of a loop of the adapter does not look at the notifications
    collected so far: it only adds to them. *)
Definition Prefixed {B} (f : Acc → B → Acc) : Prop :=
  ∀ ns a b, f (ns, a) b = ((ns ++ (f ([], a) b).1)%list, (f ([], a) b).2).

(** [follows a new a']: what holds of the closure [a'] that the adapter
    reaches from [a] while it emits [new]. *)
Definition follows (a : StreamAdapter) (new : list SessionUpdateNotification)
    (a' : StreamAdapter) : Prop :=
  sessionId a' = sessionId a
  ∧ toolNameToAcpTool a' = toolNameToAcpTool a
  ∧ Forall (λ n, n_sessionId n = sessionId a) new
  ∧ accumulatedText a' = accumulatedText a +:+ joinAll (messageChunks new)
  ∧ currentToolCallId a' =
      default (currentToolCallId a) (Some <$> last (toolCallIds new))
  ∧ Forall (λ i, i ≠ "") (toolCallIds new).

(** ** Further observations on the session store *)

(** The fields of a session that are set when it is created. *)
Definition sameSetup (s s' : SessionState) : Prop :=
  s_id s' = s_id s
  ∧ s_model s' = s_model s
  ∧ s_systemInstruction s' = s_systemInstruction s
  ∧ s_tools s' = s_tools s
  ∧ s_createdAt s' = s_createdAt s.

(** A call of one of the operations of the store that act on one session
    and keep it. *)
Inductive StoreCall : Type :=
| CallAddUserMessage (sid text : string)
| CallAddAssistantMessage (sid text : string)
| CallAddToolCall (sid : string) (functionCall : FunctionCall)
| CallAddToolResult (sid callId name : string) (result : Json)
| CallSetAbortController (sid : string) (controller : option nat)
| CallCancelSession (sid : string).

Definition target (c : StoreCall) : string :=
  match c with
  | CallAddUserMessage sid _ | CallAddAssistantMessage sid _
  | CallAddToolCall sid _ | CallAddToolResult sid _ _ _
  | CallSetAbortController sid _ | CallCancelSession sid => sid
  end.

Definition storeCall (m : SessionManager) (c : StoreCall) : SessionManager :=
  match c with
  | CallAddUserMessage sid text => addUserMessage sid text m
  | CallAddAssistantMessage sid text => addAssistantMessage sid text m
  | CallAddToolCall sid functionCall => addToolCall sid functionCall m
  | CallAddToolResult sid callId name result =>
      addToolResult sid callId name result m
  | CallSetAbortController sid controller => setAbortController sid controller m
  | CallCancelSession sid => (cancelSession sid m).2
  end.

(** [grownFrom old new]: the history [new] has every element of [old] at
    its place, unchanged unless it is the last one of [old], and a user
    element unchanged in any case; roles never change. *)
Definition grownFrom (old new : list Content) : Prop :=
  (length old ≤ length new)%nat
  ∧ (∀ i c, (i + 1 < length old)%nat → old !! i = Some c → new !! i = Some c)
  ∧ (∀ i c, old !! i = Some c → role c = User → new !! i = Some c)
  ∧ (∀ i c, old !! i = Some c → ∃ c', new !! i = Some c' ∧ role c' = role c).

(** The controllers that some session of the store holds. *)
Definition liveController (m : SessionManager) (c : nat) : Prop :=
  ∃ sid session,
    sessions m !! sid = Some session ∧ s_abortController session = Some c.

(** ** Further observations on the server *)

(** The tool calls of a list of notifications, as a turn records them for
    its result. *)
Definition toolCallsOf (ns : list SessionUpdateNotification) : list PendingToolCall :=
  omap (λ n, match n_update n with
             | ToolCall i tool _ => Some {| p_id := i; p_name := tool_name tool |}
             | _ => None
             end) ns.

(** A list of notifications without a tool call and without a completion. *)
Definition quiet (ns : list SessionUpdateNotification) : Prop :=
  Forall (λ n, match n_update n with
               | ToolCall _ _ _ | SessionComplete _ => False
               | _ => True
               end) ns.

(** The line is the answer to the request [id]. *)
Definition answers (id : RpcId) (line : Output) : Prop :=
  match line with
  | Response i _ => i = id
  | ErrorResponse i _ _ _ => i = Some id
  | Notification _ => False
  end.

(** The identifiers of the answers among the lines written. *)
Definition answerIds (out : list Output) : list (option RpcId) :=
  omap (λ o, match o with
             | Response i _ => Some (Some i)
             | ErrorResponse i _ _ _ => Some i
             | Notification _ => None
             end) out.

(** What a turn leaves alone in the closure of the server and in the
    world. *)
Definition sameServer (s s' : AcpServer) : Prop :=
  options s' = options s
  ∧ tools s' = tools s
  ∧ antigravityClient s' = antigravityClient s
  ∧ initialized s' = initialized s
  ∧ backendCalls s' = backendCalls s
  ∧ controllers s' = controllers s
  ∧ randomReads s' = randomReads s
  ∧ exitCode s' = exitCode s.

(** The store calls of a list all act on the session [sid]. *)
Definition onSession (sid : string) (calls : list StoreCall) : Prop :=
  Forall (λ c, target c = sid) calls.

(** [noted sid p s ns p' s']: what handling the notifications [ns] of the
    session [sid] does to the list of pending calls and to the server. *)
Definition noted (sid : string) (p : list PendingToolCall) (s : AcpServer)
    (ns : list SessionUpdateNotification)
    (p' : list PendingToolCall) (s' : AcpServer) : Prop :=
  p' = (p ++ toolCallsOf ns)%list
  ∧ stdout s' = (stdout s ++ (Notification <$> ns))%list
  ∧ sameServer s s'
  ∧ ∃ calls,
      onSession sid calls
      ∧ sessionManager s' = foldl storeCall (sessionManager s) calls
      ∧ (quiet ns → calls = []).

(** The catalogue that a turn on [session] declares to the backend. *)
Definition effectiveTools (session : SessionState) (s : AcpServer) : list AcpTool :=
  match s_tools session with
  | [] => tools s
  | _ :: _ => s_tools session
  end.

(** The line that ends a turn: the result with the pending calls, or the
    error of the stream. *)
Definition endLine (id : RpcId) (e : StreamEnd) (pending : list PendingToolCall)
    : Output :=
  match e with
  | StreamDone =>
      Response id
        (PromptResult (match pending with [] => None | _ :: _ => Some pending end))
  | StreamThrow name message =>
      if String.eqb name "AbortError"
      then ErrorResponse (Some id) (-32001) "Request cancelled" None
      else ErrorResponse (Some id) (-32000) (orStr (Some message) "Unknown error") None
  end.

(** Requests handled one after the other, each to its end, until the
    process has exited. *)
Definition handleAll (Date_now : nat → N) (Math_random : nat → string)
    (JSON_stringify : list AcpContent → string)
    (requests : list (RpcId * Call)) (s : AcpServer) : AcpServer :=
  foldl (λ s r,
           match exitCode s with
           | Some _ => s
           | None => handleRequest Date_now Math_random JSON_stringify r.1 r.2 s
           end)
        s requests.

(** The requests of a list up to its first [shutdown], that one included. *)
Fixpoint untilShutdown (requests : list (RpcId * Call)) : list (RpcId * Call) :=
  match requests with
  | [] => []
  | (id, CShutdown) :: _ => [(id, CShutdown)]
  | r :: rest => r :: untilShutdown rest
  end.

(** The session that a request acts on, for the requests that act on one
    session of the store. *)
Definition sessionOf (call : Call) : option string :=
  match call with
  | CPrompt params _ => Some (pp_sessionId params)
  | CToolResult params _ => Some (tr_sessionId params)
  | CCancel params => Some (cp_sessionId params)
  | _ => None
  end.

(** The user element that a prompt records, none for an empty text. *)
Definition promptElement (userText : string) : list Content :=
  if truthyStr userText
  then [ {| role := User; parts := [TextPart userText] |} ]
  else [].

(** The user element that a tool result records. *)
Definition toolResultElement (callId name : string) (result : Json) : Content :=
  {| role := User;
     parts :=
       [FunctionResponsePart
          {| fr_name := name;
             fr_response :=
               if isString result then JObj [("output", result)] else result;
             fr_id := Some callId |}] |}.

(** The request that a turn on [session] sends to the backend, with the
    history [contents] and the controller [signal]. *)
Definition backendRequest (session : SessionState) (s : AcpServer)
    (contents : list Content) (signal : nat) : StreamGenerateContentOptions :=
  {| o_model := s_model session;
     o_contents := contents;
     o_systemInstruction :=
       match s_systemInstruction session with
       | Some i => if truthyStr i then Some i else None
       | None => None
       end;
     o_tools :=
       match effectiveTools session s with
       | [] => None
       | _ :: _ => Some (acpToolsToFunctionDeclarations (effectiveTools session s))
       end;
     o_signal := signal |}.

(** What holds of a server between two requests: sessions exist only on
    a server that is initialized and has a client; a session is stored
    under its own identifier, has a model and holds no cancellation
    handle; and the backend calls made so far carry the controllers
    0, 1, 2, ... in the order of the calls. *)
Definition atRest (s : AcpServer) : Prop :=
  (∀ sid, is_Some (getSession sid (sessionManager s)) →
          initialized s = true ∧ is_Some (antigravityClient s))
  ∧ (∀ sid session,
       getSession sid (sessionManager s) = Some session →
       s_id session = sid ∧ s_model session ≠ ""
       ∧ s_abortController session = None)
  ∧ defaultModel (sessionManager s) ≠ ""
  ∧ controllers s = length (backendCalls s)
  ∧ (o_signal <$> backendCalls s) = seq 0 (length (backendCalls s)).

(** ** Further inputs of the examples *)

(** The session of [sessionServer], as the store holds it. *)
Definition sessionState : SessionState :=
  {| s_id := theSession;
     s_model := DEFAULT_MODEL;
     s_systemInstruction := None;
     s_tools := [];
     s_contents := [];
     s_createdAt := 1700000000000%N;
     s_abortController := None |}.

(** A server that was initialized without credentials. *)
Definition anonymousServer : AcpServer :=
  handleRequest frozenClock fixedRandom stringifyUnused
    (IdNum 0) (CInitialize None)
    (createAcpServer
       {| opt_auth := None; opt_defaultModel := None; opt_tools := None |}).

(** Two requests: [initialize], then [newSession]. *)
Definition twoRequests : list (RpcId * Call) :=
  [ (IdNum 0, CInitialize None);
    (IdNum 1, CNewSession {| ns_config := None |}) ].

Definition credentialOptions : AcpServerOptions :=
  {| opt_auth := Some credentials; opt_defaultModel := None; opt_tools := None |}.

(** A configuration that names a model. *)
Definition modelConfig : SessionConfig :=
  {| cfg_model := Some "gemini-2.5-pro"; cfg_systemPrompt := None;
     cfg_systemInstruction := None; cfg_tools := None |}.

(** Lines of standard input: requests that are well typed, a blank line,
    text that is no request, requests that lack parameters, and a line
    after [shutdown]. *)
Definition someLines : list Line :=
  [ Holds (Request (IdNum 0) (CInitialize None));
    Blank;
    Holds (UncheckedRequest (IdNum 1) (PromptNoMessages theSession));
    Holds (Request (IdNum 2) (CNewSession {| ns_config := None |}));
    Holds (UncheckedRequest (IdNum 3) (PromptNoMessages theSession));
    Holds NotJson;
    Holds (UncheckedRequest (IdNum 4) NewSessionNoParams);
    Holds (UncheckedRequest (IdNum 5) CancelNoParams);
    Holds (Request (IdNum 6) CShutdown);
    Holds (Request (IdNum 7) (CNewSession {| ns_config := None |})) ].

(** A history, and the same history with its trailing model element
    replaced by an empty one. *)
Definition twoElements : list Content :=
  [ {| role := User; parts := [TextPart "read a.txt"] |};
    {| role := Model; parts := [TextPart "a"; FunctionCallPart readFileCall] |} ].

Definition overwritten : list Content :=
  [ {| role := User; parts := [TextPart "read a.txt"] |};
    {| role := Model; parts := [] |} ].

(** ** Observations on thought chunks, on extended elements and on [start] *)

(** The indices of the thought chunks of a list of notifications. *)
Definition thoughtIndices (ns : list SessionUpdateNotification) : list nat :=
  omap (λ n, match n_update n with
             | AgentThoughtChunk _ i _ => Some i
             | _ => None
             end) ns.

(** Every thought chunk of [ns] carries the identifier that is built from
    the session [sid] and from the index of the chunk. *)
Definition thoughtsNamed (sid : string) (ns : list SessionUpdateNotification)
    : Prop :=
  Forall (λ n, match n_update n with
               | AgentThoughtChunk tid i _ =>
                   tid = "thought_" +:+ sid +:+ "_" +:+ pretty i
               | _ => True
               end) ns.

(** [extended c c']: the element [c'] is [c] extended in place.  The text
    of the first plain text sub-part may have grown at its end and tool
    calls may have been added after the sub-parts; the role, the number
    and the order of the sub-parts of [c] and every other sub-part are the
    same. *)
Definition extended (c c' : Content) : Prop :=
  role c' = role c
  ∧ ∃ ps calls,
      parts c' = (ps ++ (FunctionCallPart <$> calls))%list
      ∧ (ps = parts c
         ∨ ∃ i old more,
             findTextPart (parts c) = Some (i, old)
             ∧ ps = <[i := TextPart (old +:+ more)]> (parts c)).

(** [extendedFrom old new]: the history [new] has every element of [old]
    at its place: unchanged when it is not the last one of [old] or when
    it is a user element, and extended in place otherwise. *)
Definition extendedFrom (old new : list Content) : Prop :=
  (length old ≤ length new)%nat
  ∧ (∀ i c, (i + 1 < length old)%nat → old !! i = Some c → new !! i = Some c)
  ∧ (∀ i c, old !! i = Some c → role c = User → new !! i = Some c)
  ∧ (∀ i c, old !! i = Some c → ∃ c', new !! i = Some c' ∧ extended c c').


(** The answer of the listener to a line it could not parse or whose
    handler threw. *)
Definition parseError : Output :=
  ErrorResponse None (-32700) "Parse error" None.





(** ** The stream adapter: the shared index *)

Section AdapterIndex.

Variable Date_now : nat → N.

Lemma counts_refl acc : counts acc acc.
Proof.
  exists 0. simpl. rewrite app_nil_r. split; [done | lia].
Qed.

Lemma counts_trans acc1 acc2 acc3 :
  counts acc1 acc2 → counts acc2 acc3 → counts acc1 acc3.
Proof.
  intros [d1 [E1 M1]] [d2 [E2 M2]]. exists (d1 + d2).
  rewrite E2, E1, M2, M1, seq_app, app_assoc. split; [done | lia].
Qed.

Lemma chunkIndices_snoc ns n :
  chunkIndices (ns ++ [n]) =
  (chunkIndices ns ++ match chunkIndex (n_update n) with
                      | Some i => [i]
                      | None => []
                      end)%list.
Proof.
  unfold chunkIndices. rewrite omap_app. simpl.
  by destruct (chunkIndex (n_update n)).
Qed.

Lemma counts_one ns a u a' :
  chunkIndex u = Some (messageIndex a) →
  messageIndex a' = S (messageIndex a) →
  counts (ns, a) ((ns ++ [createNotification a' u])%list, a').
Proof.
  intros Hu Ha. exists 1. simpl. rewrite chunkIndices_snoc. simpl.
  rewrite Hu. split; [done | lia].
Qed.

Lemma counts_none ns a u a' :
  chunkIndex u = None →
  messageIndex a' = messageIndex a →
  counts (ns, a) ((ns ++ [createNotification a' u])%list, a').
Proof.
  intros Hu Ha. exists 0. simpl. rewrite chunkIndices_snoc. simpl.
  rewrite Hu, app_nil_r. split; [done | lia].
Qed.

Lemma processPart_counts acc part : counts acc (processPart Date_now acc part).
Proof.
  destruct acc as [ns a].
  destruct part as [text | text [] | | fc | ]; simpl;
    try apply counts_refl.
  - destruct (truthyStr text); [| apply counts_refl].
    unfold push. simpl. by apply (counts_one ns a).
  - unfold push. simpl. by apply counts_one.
  - unfold push, createToolCall. simpl.
    destruct (fc_id fc) as [i |]; [destruct (truthyStr i) |];
      by apply counts_none.
Qed.

Lemma foldl_counts {B} (f : Acc → B → Acc) :
  (∀ acc b, counts acc (f acc b)) →
  ∀ bs acc, counts acc (foldl f acc bs).
Proof.
  intros Hf bs. induction bs as [| b bs IH]; intros acc; simpl.
  - apply counts_refl.
  - eapply counts_trans; [apply Hf | apply IH].
Qed.

Lemma processCandidate_counts acc candidate :
  counts acc (processCandidate Date_now acc candidate).
Proof.
  unfold processCandidate.
  destruct (parts <$> cand_content candidate) as [[| p ps] |];
    try apply counts_refl.
  pose proof (foldl_counts _ processPart_counts (p :: ps) acc) as H.
  destruct (finishUpdate (cand_finishReason candidate)) as [u |] eqn:Hu; [| done].
  eapply counts_trans; [exact H |].
  destruct (foldl (processPart Date_now) acc (p :: ps)) as [ns a]. simpl.
  apply counts_none; [| done].
  unfold finishUpdate in Hu.
  destruct (cand_finishReason candidate) as [r |]; [| done].
  repeat (case_match; simplify_eq; try done).
Qed.

Lemma processEvent_counts event a :
  counts ([], a) (processEvent Date_now event a).
Proof.
  unfold processEvent.
  destruct (candidates <$> ev_response event) as [[| c cs] |];
    try apply counts_refl.
  apply foldl_counts, processCandidate_counts.
Qed.

Lemma processEvents_counts evs a :
  counts ([], a) (processEvents Date_now evs a).
Proof.
  unfold processEvents. apply foldl_counts. intros [ns a0] ev. simpl.
  pose proof (processEvent_counts ev a0) as [d [E M]].
  destruct (processEvent Date_now ev a0) as [ns1 a1]. simpl in *.
  exists d. split; [| done].
  cbn [fst snd]. unfold chunkIndices in *. by rewrite omap_app, E.
Qed.

(** C10.  Within one adapter the message chunks and the thought chunks
    share one counter: for every stream of events processed by a freshly
    created adapter, the indices of the chunks it emits, message and
    thought chunks taken together in the order of emission, are
    0, 1, 2, ..., and the counter ends at their number. *)
Theorem C10_shared_chunk_index sid tools clk evs :
  let out := processEvents Date_now evs (createStreamAdapter sid tools clk) in
  chunkIndices out.1 = seq 0 (length (chunkIndices out.1))
  ∧ messageIndex out.2 = length (chunkIndices out.1).
Proof.
  simpl.
  destruct (processEvents_counts evs (createStreamAdapter sid tools clk))
    as [d [E M]].
  simpl in E, M. rewrite E, length_seq. by rewrite M.
Qed.

End AdapterIndex.

(** ** The stream adapter: parts and finish reasons *)

Section AdapterParts.

Variable Date_now : nat → N.

Lemma processPart_prefixed : Prefixed (processPart Date_now).
Proof.
  intros ns a part.
  destruct part as [text | text [] | | fc | ]; simpl;
    try (by rewrite app_nil_r).
  - destruct (truthyStr text); simpl; [done | by rewrite app_nil_r].
  - done.
  - unfold push, createToolCall. simpl.
    by destruct (fc_id fc) as [i |]; [destruct (truthyStr i) |].
Qed.

Lemma foldl_prefixed {B} (f : Acc → B → Acc) :
  Prefixed f → Prefixed (foldl f).
Proof.
  intros Hf ns a bs. revert ns a.
  induction bs as [| b bs IH]; intros ns a; simpl.
  - by rewrite app_nil_r.
  - rewrite Hf. destruct (f ([], a) b) as [n1 a1]. simpl.
    rewrite IH, (IH n1). simpl. by rewrite app_assoc.
Qed.

Lemma processCandidate_prefixed : Prefixed (processCandidate Date_now).
Proof.
  intros ns a c. unfold processCandidate.
  destruct (parts <$> cand_content c) as [[| p ps] |]; simpl;
    try (by rewrite app_nil_r).
  fold (foldl (processPart Date_now) (processPart Date_now (ns, a) p) ps).
  fold (foldl (processPart Date_now) (processPart Date_now ([], a) p) ps).
  change (foldl (processPart Date_now) (processPart Date_now (ns, a) p) ps)
    with (foldl (processPart Date_now) (ns, a) (p :: ps)).
  change (foldl (processPart Date_now) (processPart Date_now ([], a) p) ps)
    with (foldl (processPart Date_now) ([], a) (p :: ps)).
  rewrite (foldl_prefixed _ processPart_prefixed ns a (p :: ps)).
  destruct (finishUpdate (cand_finishReason c)); simpl; [| done].
  by rewrite app_assoc.
Qed.

Lemma thoughtsNamed_app sid ns1 ns2 :
  thoughtsNamed sid ns1 → thoughtsNamed sid ns2 → thoughtsNamed sid (ns1 ++ ns2).
Proof. intros H1 H2. by apply Forall_app. Qed.

Lemma processPart_named acc part :
  thoughtsNamed (sessionId acc.2) acc.1 →
  sessionId (processPart Date_now acc part).2 = sessionId acc.2
  ∧ thoughtsNamed (sessionId acc.2) (processPart Date_now acc part).1.
Proof.
  destruct acc as [ns a]. intros H.
  destruct part as [text | text [] | | fc | ]; simpl; try done.
  - destruct (truthyStr text); [| done]. simpl. split; [done |].
    apply thoughtsNamed_app; [done |]. by repeat constructor.
  - split; [done |]. apply thoughtsNamed_app; [done |]. by repeat constructor.
  - unfold push, createToolCall. simpl in *.
    destruct (fc_id fc) as [i |]; [destruct (truthyStr i) |]; simpl;
      (split; [done |]); (apply thoughtsNamed_app; [done |]);
      by repeat constructor.
Qed.

Lemma foldl_named {B} (f : Acc → B → Acc) :
  (∀ acc b,
     thoughtsNamed (sessionId acc.2) acc.1 →
     sessionId (f acc b).2 = sessionId acc.2
     ∧ thoughtsNamed (sessionId acc.2) (f acc b).1) →
  ∀ bs acc,
    thoughtsNamed (sessionId acc.2) acc.1 →
    sessionId (foldl f acc bs).2 = sessionId acc.2
    ∧ thoughtsNamed (sessionId acc.2) (foldl f acc bs).1.
Proof.
  intros Hf bs. induction bs as [| b bs IH]; intros acc H; simpl; [done |].
  destruct (Hf acc b H) as [S1 N1]. rewrite <- S1 in N1.
  destruct (IH (f acc b) N1) as [S2 N2]. rewrite S2, S1 in *. done.
Qed.

Lemma processCandidate_named acc candidate :
  thoughtsNamed (sessionId acc.2) acc.1 →
  sessionId (processCandidate Date_now acc candidate).2 = sessionId acc.2
  ∧ thoughtsNamed (sessionId acc.2) (processCandidate Date_now acc candidate).1.
Proof.
  intros H. unfold processCandidate.
  destruct (parts <$> cand_content candidate) as [[| p ps] |]; try done.
  destruct (foldl_named _ processPart_named (p :: ps) acc H) as [S1 N1].
  destruct (finishUpdate (cand_finishReason candidate)) as [u |] eqn:Hu; [| done].
  simpl. split; [done |]. apply thoughtsNamed_app; [done |].
  repeat constructor. simpl.
  unfold finishUpdate in Hu.
  destruct (cand_finishReason candidate) as [r |]; [| done].
  repeat (case_match; simplify_eq; try done).
Qed.

Lemma processEvent_named event a :
  sessionId (processEvent Date_now event a).2 = sessionId a
  ∧ thoughtsNamed (sessionId a) (processEvent Date_now event a).1.
Proof.
  unfold processEvent.
  destruct (candidates <$> ev_response event) as [[| c cs] |];
    try (split; [done | constructor]).
  apply (foldl_named _ processCandidate_named (c :: cs) ([], a)). constructor.
Qed.

Lemma processEvents_named evs a :
  thoughtsNamed (sessionId a) (processEvents Date_now evs a).1.
Proof.
  unfold processEvents.
  refine (proj2 (foldl_named _ _ evs ([], a) _)); [| constructor].
  intros [ns a0] ev H. simpl in *.
  destruct (processEvent_named ev a0) as [S1 N1].
  destruct (processEvent Date_now ev a0) as [ns1 a1]. simpl in *.
  split; [done |]. by apply thoughtsNamed_app.
Qed.

Lemma thoughtIds_cons n ns :
  thoughtIds (n :: ns) =
  (match n_update n with AgentThoughtChunk i _ _ => [i] | _ => [] end
   ++ thoughtIds ns)%list.
Proof. unfold thoughtIds. simpl. by destruct (n_update n). Qed.

Lemma thoughtIndices_cons n ns :
  thoughtIndices (n :: ns) =
  (match n_update n with AgentThoughtChunk _ i _ => [i] | _ => [] end
   ++ thoughtIndices ns)%list.
Proof. unfold thoughtIndices. simpl. by destruct (n_update n). Qed.

Lemma thoughtIds_named sid ns :
  thoughtsNamed sid ns →
  thoughtIds ns =
  (λ i, "thought_" +:+ sid +:+ "_" +:+ pretty i) <$> thoughtIndices ns.
Proof.
  induction ns as [| n ns IH]; intros H; [done |].
  apply Forall_cons in H as [Hn H]. specialize (IH H).
  rewrite thoughtIds_cons, thoughtIndices_cons, IH.
  destruct (n_update n); simpl; try done. by rewrite Hn.
Qed.

Lemma thoughtIndices_sublist ns : thoughtIndices ns `sublist_of` chunkIndices ns.
Proof.
  induction ns as [| n ns IH]; [constructor |].
  rewrite thoughtIndices_cons. unfold chunkIndices in *. simpl.
  destruct (n_update n); simpl; try done;
    by (apply sublist_skip || apply sublist_cons).
Qed.

(** C3, as amended.  Parts are translated in the order they appear: in a
    candidate the first part is translated first and the other parts
    after it, on the adapter that the first part has left, the terminal
    update of the candidate coming last; in an event the first candidate
    is translated first.  A part whose thought flag is true
    yields a thought chunk with the identifier
    [thought_<sessionId>_<index>], the current counter as its index and the
    literal text; the counter goes up by one and the accumulated text
    stays.  The identifiers of the thought chunks of a stream are all
    different.  A part with a non-empty text and no thought field is
    appended to the accumulated text and yields a message chunk with the
    current counter as its index; the counter goes up by one.  A text part
    whose text is empty and a part whose thought flag is false yield
    nothing. *)
Theorem C3_parts_translated ns a :
  (∀ text,
     let acc := processPart Date_now (ns, a) (ThoughtPart text true) in
     acc.1 =
       (ns ++ [ {| n_sessionId := sessionId a;
                   n_update :=
                     AgentThoughtChunk
                       ("thought_" +:+ sessionId a +:+ "_" +:+ pretty (messageIndex a))
                       (messageIndex a) text |} ])%list
     ∧ messageIndex acc.2 = S (messageIndex a)
     ∧ accumulatedText acc.2 = accumulatedText a)
  ∧ (∀ text, text ≠ "" →
     let acc := processPart Date_now (ns, a) (TextPart text) in
     acc.1 =
       (ns ++ [ {| n_sessionId := sessionId a;
                   n_update :=
                     AgentMessageChunk
                       ("msg_" +:+ sessionId a +:+ "_" +:+ pretty (messageIndex a))
                       (messageIndex a) text |} ])%list
     ∧ messageIndex acc.2 = S (messageIndex a)
     ∧ accumulatedText acc.2 = accumulatedText a +:+ text)
  ∧ processPart Date_now (ns, a) (TextPart "") = (ns, a)
  ∧ (∀ text, processPart Date_now (ns, a) (ThoughtPart text false) = (ns, a))
  ∧ (∀ content finishReason p ps,
       parts content = p :: ps →
       processCandidate Date_now (ns, a)
         {| cand_content := Some content; cand_finishReason := finishReason |} =
       let first := processPart Date_now (ns, a) p in
       match ps with
       | [] =>
           ((first.1 ++ match finishUpdate finishReason with
                        | Some u => [createNotification first.2 u]
                        | None => []
                        end)%list,
            first.2)
       | _ :: _ =>
           processCandidate Date_now first
             {| cand_content := Some {| role := role content; parts := ps |};
                cand_finishReason := finishReason |}
       end)
  ∧ (∀ c cs e,
       processEvent Date_now
         {| ev_response := Some {| candidates := c :: cs |}; ev_error := e |} a =
       let first := processCandidate Date_now ([], a) c in
       let rest :=
         processEvent Date_now
           {| ev_response := Some {| candidates := cs |}; ev_error := e |}
           first.2 in
       ((first.1 ++ rest.1)%list, rest.2))
  ∧ (∀ p ps finishReason,
       (processEvent Date_now (eventOf (p :: ps) finishReason) a).1 =
       ((processPart Date_now ([], a) p).1 ++
        match ps with
        | [] =>
            match finishUpdate finishReason with
            | Some u =>
                [createNotification (processPart Date_now ([], a) p).2 u]
            | None => []
            end
        | _ :: _ =>
            (processEvent Date_now (eventOf ps finishReason)
               (processPart Date_now ([], a) p).2).1
        end)%list)
  ∧ (∀ sid tools clk evs,
       NoDup
         (thoughtIds
            (processEvents Date_now evs (createStreamAdapter sid tools clk)).1)).
Proof.
  split; [| split; [| split; [| split; [| split; [| split; [| split]]]]]].
  - intros text. by cbn.
  - intros text Htext. destruct text as [| c text]; [done |]. by cbn.
  - reflexivity.
  - reflexivity.
  - intros content finishReason p ps Hps. unfold processCandidate. simpl.
    rewrite Hps. destruct ps as [| q qs]; simpl.
    + destruct (finishUpdate finishReason); [done |].
      rewrite app_nil_r. by destruct (processPart _ _ _).
    + done.
  - intros c cs e. unfold processEvent. simpl.
    destruct (processCandidate Date_now ([], a) c) as [n1 a1]. simpl.
    rewrite (foldl_prefixed _ processCandidate_prefixed n1 a1 cs).
    by destruct cs.
  - intros p ps finishReason. unfold eventOf, processEvent, processCandidate.
    simpl.
    destruct (processPart Date_now ([], a) p) as [n1 a1]. simpl.
    destruct ps as [| q qs]; simpl.
    + destruct (finishUpdate finishReason); simpl; [done | by rewrite app_nil_r].
    + fold (foldl (processPart Date_now) (processPart Date_now (n1, a1) q) qs).
      fold (foldl (processPart Date_now) (processPart Date_now ([], a1) q) qs).
      change (foldl (processPart Date_now) (processPart Date_now (n1, a1) q) qs)
        with (foldl (processPart Date_now) (n1, a1) (q :: qs)).
      change (foldl (processPart Date_now) (processPart Date_now ([], a1) q) qs)
        with (foldl (processPart Date_now) ([], a1) (q :: qs)).
      rewrite (foldl_prefixed _ processPart_prefixed n1 a1 (q :: qs)).
      destruct (finishUpdate finishReason); simpl; [| done].
      by rewrite app_assoc.
  - intros sid tools clk evs.
    pose proof (processEvents_named evs (createStreamAdapter sid tools clk)) as N.
    destruct (processEvents_counts Date_now evs (createStreamAdapter sid tools clk))
      as [d [E _]].
    simpl in N, E. rewrite (thoughtIds_named sid _ N).
    apply NoDup_fmap_2.
    + intros i j H. repeat apply String.app_inj in H. by apply pretty_nat_inj in H.
    + eapply sublist_NoDup; [| apply thoughtIndices_sublist].
      rewrite E. apply NoDup_seq.
Qed.

(** The table of finish reasons. *)
Lemma finishUpdate_table :
  finishUpdate (Some "STOP") = Some (SessionComplete end_turn)
  ∧ finishUpdate (Some "TOOL_USE") = Some (SessionComplete tool_use)
  ∧ finishUpdate (Some "SAFETY") =
      Some (SessionError "SAFETY_BLOCK" "Content blocked by safety filters")
  ∧ finishUpdate (Some "MAX_TOKENS") = Some (SessionComplete max_tokens)
  ∧ finishUpdate None = None
  ∧ ∀ r, r ≠ "STOP" → r ≠ "TOOL_USE" → r ≠ "SAFETY" → r ≠ "MAX_TOKENS" →
         finishUpdate (Some r) = None.
Proof.
  repeat split. intros r H1 H2 H3 H4. unfold finishUpdate.
  apply String.eqb_neq in H1, H2, H3, H4. by rewrite H1, H2, H3, H4.
Qed.

(** A candidate that has parts ends with the update of its finish reason,
    after the updates of its parts. *)
Lemma processCandidate_finish acc content p ps finishReason :
  parts content = p :: ps →
  processCandidate Date_now acc
    {| cand_content := Some content; cand_finishReason := finishReason |} =
  let acc1 := foldl (processPart Date_now) acc (p :: ps) in
  (acc1.1 ++ match finishUpdate finishReason with
             | Some u => [createNotification acc1.2 u]
             | None => []
             end, acc1.2)%list.
Proof.
  intros Hps. unfold processCandidate. simpl. rewrite Hps. simpl.
  destruct (finishUpdate finishReason); [done |].
  rewrite app_nil_r. by destruct (foldl _ _ _).
Qed.

(** C4, the failing input.  A candidate whose content has no parts, or
    that has no content, is left before its finish reason is looked at:
    the event yields no update, whatever the finish reason is. *)
Theorem C4_finish_dropped_without_parts a finishReason :
  processEvent Date_now (eventOf [] finishReason) a = ([], a)
  ∧ processEvent Date_now (eventWithoutContent finishReason) a = ([], a).
Proof. split; reflexivity. Qed.

End AdapterParts.

(** ** The session store *)

Section SessionStore.

Lemma append_cons x (a b : string) : String x a +:+ b = String x (a +:+ b).
Proof. reflexivity. Qed.

Lemma append_assoc (a b c : string) : (a +:+ b) +:+ c = a +:+ (b +:+ c).
Proof.
  induction a as [| x a IH]; [done |]. by rewrite !append_cons, IH.
Qed.

(** [findTextPart] returns the first plain text part, if there is one. *)
Lemma findTextPart_first before old after :
  noTextPart before →
  findTextPart (before ++ TextPart old :: after) = Some (length before, old).
Proof.
  induction 1 as [| p before Hp _ IH]; simpl; [done |].
  rewrite IH. by destruct p.
Qed.

Lemma findTextPart_None ps : noTextPart ps → findTextPart ps = None.
Proof.
  induction 1 as [| p ps Hp _ IH]; simpl; [done |].
  rewrite IH. by destruct p.
Qed.

Lemma findTextPart_cases ps :
  noTextPart ps
  ∨ ∃ before old after,
      ps = (before ++ TextPart old :: after)%list ∧ noTextPart before.
Proof.
  induction ps as [| p ps [IH | (before & old & after & -> & IH)]].
  - left. constructor.
  - destruct (isTextPart p) eqn:Hp.
    + right. destruct p; try done.
      exists [], text, ps. split; [done | constructor].
    + left. by constructor.
  - destruct (isTextPart p) eqn:Hp.
    + right. destruct p; try done.
      exists [], text, (before ++ TextPart old :: after)%list.
      split; [done | constructor].
    + right. exists (p :: before), old, after. split; [done | by constructor].
Qed.

Lemma insert_last {A} (init : list A) (c c' : A) :
  <[length (init ++ [c])%list - 1 := c']> (init ++ [c])%list = (init ++ [c'])%list.
Proof.
  rewrite length_app. simpl.
  replace (length init + 1 - 1) with (length init + 0) by lia.
  by rewrite insert_app_r.
Qed.

Lemma insert_middle {A} (before after : list A) (x y : A) :
  <[length before := y]> (before ++ x :: after)%list = (before ++ y :: after)%list.
Proof.
  replace (length before) with (length before + 0) at 1 by lia.
  by rewrite insert_app_r.
Qed.

(** A text is merged into the first plain text part of a trailing model
    element. *)
Lemma assistantContents_merge text init before old after :
  noTextPart before →
  assistantContents text
    (init ++ [ {| role := Model; parts := before ++ TextPart old :: after |} ]) =
  (init ++ [ {| role := Model;
                parts := before ++ TextPart (old +:+ text) :: after |} ])%list.
Proof.
  intros Hb. unfold assistantContents. rewrite last_snoc. simpl.
  rewrite (findTextPart_first _ _ _ Hb). by rewrite insert_last, insert_middle.
Qed.

(** Otherwise a new model element is opened. *)
Lemma assistantContents_open text contents :
  match last contents with
  | None => True
  | Some c => role c = User ∨ noTextPart (parts c)
  end →
  assistantContents text contents =
  (contents ++ [ {| role := Model; parts := [TextPart text] |} ])%list.
Proof.
  unfold assistantContents. destruct (last contents) as [c |]; [| done].
  intros [Hr | Hn].
  - by rewrite Hr.
  - rewrite (findTextPart_None _ Hn). by destruct (role c).
Qed.

(** After an append the trailing element is a model element that has a
    plain text part, and that text ends with the text appended. *)
Lemma assistantContents_shape text contents :
  ∃ init before pre after,
    assistantContents text contents =
      (init ++ [ {| role := Model;
                    parts := before ++ TextPart (pre +:+ text) :: after |} ])%list
    ∧ noTextPart before
    ∧ (length init ≤ length contents)%nat.
Proof.
  destruct (last contents) as [c |] eqn:Hlast.
  - apply last_Some in Hlast as [init ->].
    destruct c as [[] ps].
    + exists (init ++ [ {| role := User; parts := ps |} ])%list, [], "", [].
      rewrite assistantContents_open; [| rewrite last_snoc; by left].
      repeat split; [constructor | done].
    + destruct (findTextPart_cases ps)
        as [Hn | (before & old & after & -> & Hb)].
      * exists (init ++ [ {| role := Model; parts := ps |} ])%list, [], "", [].
        rewrite assistantContents_open; [| rewrite last_snoc; by right].
        repeat split; [constructor | done].
      * exists init, before, old, after.
        rewrite assistantContents_merge by done.
        repeat split; [done |]. rewrite length_app. simpl. lia.
  - exists contents, [], "", [].
    rewrite assistantContents_open; [| by rewrite Hlast].
    repeat split; [constructor | done].
Qed.

Lemma getContents_addAssistantMessage m sid session text :
  sessions m !! sid = Some session →
  getContents sid (addAssistantMessage sid text m) =
  assistantContents text (s_contents session).
Proof.
  intros Hs. unfold getContents, addAssistantMessage. rewrite Hs. simpl.
  by rewrite lookup_insert_eq.
Qed.

Lemma lookup_addAssistantMessage m sid session text :
  sessions m !! sid = Some session →
  sessions (addAssistantMessage sid text m) !! sid =
  Some (setContents (assistantContents text (s_contents session)) session).
Proof.
  intros Hs. unfold addAssistantMessage. rewrite Hs. simpl.
  by rewrite lookup_insert_eq.
Qed.

(** C2, as amended.  On an existing session, appending assistant text
    merges it into the first plain text sub-part of the trailing element
    exactly when that element is a model element that has such a sub-part,
    whatever else the element holds; otherwise it opens a new model element
    with the text.  Two appends in a row therefore never leave two
    elements: the second one merges into the element the first one wrote,
    and when the first one opened that element its text is [t1 + t2]. *)
Theorem C2_assistant_text_merges m sid session t1 t2 :
  sessions m !! sid = Some session →
  let once := getContents sid (addAssistantMessage sid t1 m) in
  let twice :=
    getContents sid (addAssistantMessage sid t2 (addAssistantMessage sid t1 m)) in
  (∀ init before old after,
     s_contents session =
       (init ++ [ {| role := Model; parts := before ++ TextPart old :: after |} ])%list →
     noTextPart before →
     once = (init ++ [ {| role := Model;
                          parts := before ++ TextPart (old +:+ t1) :: after |} ])%list)
  ∧ (match last (s_contents session) with
     | None => True
     | Some c => role c = User ∨ noTextPart (parts c)
     end →
     once = (s_contents session ++ [ {| role := Model; parts := [TextPart t1] |} ])%list
     ∧ twice =
       (s_contents session ++ [ {| role := Model; parts := [TextPart (t1 +:+ t2)] |} ])%list)
  ∧ (∃ init before pre after,
       noTextPart before
       ∧ once = (init ++ [ {| role := Model;
                              parts := before ++ TextPart (pre +:+ t1) :: after |} ])%list
       ∧ twice = (init ++ [ {| role := Model;
                               parts := before ++ TextPart (pre +:+ t1 +:+ t2) :: after |} ])%list)
  ∧ length twice = length once.
Proof.
  intros Hs once twice.
  assert (once = assistantContents t1 (s_contents session)) as Honce
    by by apply getContents_addAssistantMessage.
  assert (twice = assistantContents t2 once) as Htwice.
  { unfold twice.
    rewrite (getContents_addAssistantMessage _ _ _ _
               (lookup_addAssistantMessage _ _ _ t1 Hs)).
    by rewrite Honce. }
  clearbody once twice. subst twice.
  split; [| split; [| split]].
  - intros init before old after Hc Hb. subst once. rewrite Hc.
    by apply assistantContents_merge.
  - intros Hopen. subst once.
    rewrite (assistantContents_open _ _ Hopen). split; [done |].
    by rewrite (assistantContents_merge t2 _ [] t1 []) by constructor.
  - destruct (assistantContents_shape t1 (s_contents session))
      as (init & before & pre & after & E & Hb & _).
    exists init, before, pre, after. rewrite Honce, E.
    split; [done |]. split; [done |].
    rewrite assistantContents_merge by done. by rewrite append_assoc.
  - destruct (assistantContents_shape t1 (s_contents session))
      as (init & before & pre & after & E & Hb & _).
    rewrite Honce, E, assistantContents_merge by done.
    by rewrite !length_app.
Qed.


Lemma cancelSession_idle m sid :
  sessions m !! sid ≫= s_abortController = None →
  cancelSession sid m = (false, m).
Proof. intros H. unfold cancelSession. by rewrite H. Qed.



End SessionStore.

(** ** The server *)

Section Server.

Variable Date_now : nat → N.
Variable Math_random : nat → string.
Variable JSON_stringify : list AcpContent → string.

Lemma withManager_same s : withManager (λ _, sessionManager s) s = s.
Proof. by destruct s. Qed.

(** C6, as amended.  Until [initialize] has been handled, [newSession],
    [prompt] and [toolResult] are rejected with the error -32002 and change
    nothing else.  [cancel] and [shutdown] are not gated, whatever the flag
    is.  [cancel] is answered by its result: [cancelled: false], with
    nothing else changed, when the session is absent or has no live
    handle, and [cancelled: true] when it has one, which is then aborted
    and taken off the session.  [shutdown] clears the store, so that no
    session is left, is answered by an empty result and exits with the
    code 0.  [initialize] is never gated, whatever the flag is. *)
Theorem C6_gate s id :
  (initialized s = false →
     (∀ params,
        handleRequest Date_now Math_random JSON_stringify id
          (CNewSession params) s =
        write (ErrorResponse (Some id) (-32002) "Server not initialized" None) s)
     ∧ (∀ params stream,
        handleRequest Date_now Math_random JSON_stringify id
          (CPrompt params stream) s =
        write (ErrorResponse (Some id) (-32002) "Server not initialized" None) s)
     ∧ (∀ params stream,
        handleRequest Date_now Math_random JSON_stringify id
          (CToolResult params stream) s =
        write (ErrorResponse (Some id) (-32002) "Server not initialized" None) s))
  ∧ (∀ params,
       let s' :=
         handleRequest Date_now Math_random JSON_stringify id (CCancel params) s in
       (sessions (sessionManager s) !! cp_sessionId params ≫= s_abortController
          = None →
        s' = write (Response id (CancelResult false)) s)
       ∧ (∀ c,
            sessions (sessionManager s) !! cp_sessionId params ≫= s_abortController
              = Some c →
            stdout s' = (stdout s ++ [Response id (CancelResult true)])%list
            ∧ c ∈ abortedControllers (sessionManager s')
            ∧ cleared (cp_sessionId params) s'))
  ∧ (let s' := handleRequest Date_now Math_random JSON_stringify id CShutdown s in
     sessionManager s' = clear (sessionManager s)
     ∧ sessions (sessionManager s') = ∅
     ∧ stdout s' = (stdout s ++ [Response id EmptyResult])%list
     ∧ exitCode s' = Some 0%Z)
  ∧ (∀ loaded,
       stdout
         (handleRequest Date_now Math_random JSON_stringify id
            (CInitialize loaded) s) =
       (stdout s ++ [Response id (InitializeResult initializeResult)])%list
       ∧ initialized
           (handleRequest Date_now Math_random JSON_stringify id
              (CInitialize loaded) s) = true).
Proof.
  split; [| split; [| split]].
  - intros Hinit. repeat split.
    + intros params. simpl. unfold handleNewSession. by rewrite Hinit.
    + intros params stream. simpl. unfold handlePrompt. by rewrite Hinit.
    + intros params stream. simpl. unfold handleToolResult. by rewrite Hinit.
  - intros params. simpl. unfold handleCancel, cancelSession. split.
    + intros Hnone. rewrite Hnone. unfold sendResponse.
      by rewrite withManager_same.
    + intros c Hc. rewrite Hc. split; [done |].
      destruct (sessions (sessionManager s) !! cp_sessionId params)
        as [session |] eqn:Hs; [| done].
      simpl in Hc. unfold setAbortController, abortController. simpl.
      rewrite Hs. simpl. split; [set_solver |].
      eexists. unfold getSession. simpl. rewrite lookup_insert_eq.
      by split.
  - by simpl.
  - intros loaded. by split.
Qed.

(** *** The cancellation handle after a turn *)

Lemma keeps_insert m sid (f : SessionState → SessionState) session :
  sessions m !! sid = Some session →
  ∀ sid', is_Some (sessions m !! sid') →
          is_Some (sessions (setSessions (insert sid (f session)) m) !! sid').
Proof.
  intros Hs sid' H'. simpl. destruct (decide (sid = sid')) as [<- | Hne].
  - by rewrite lookup_insert_eq.
  - by rewrite lookup_insert_ne.
Qed.

Lemma keeps_addUserMessage sid text : keepsSessions (addUserMessage sid text).
Proof.
  intros m sid' H'. unfold addUserMessage.
  destruct (sessions m !! sid) as [session |] eqn:Hs; [| done].
  by apply (keeps_insert m sid (setContents _) session).
Qed.

Lemma keeps_addAssistantMessage sid text :
  keepsSessions (addAssistantMessage sid text).
Proof.
  intros m sid' H'. unfold addAssistantMessage.
  destruct (sessions m !! sid) as [session |] eqn:Hs; [| done].
  by apply (keeps_insert m sid (setContents _) session).
Qed.

Lemma keeps_addToolCall sid functionCall :
  keepsSessions (addToolCall sid functionCall).
Proof.
  intros m sid' H'. unfold addToolCall.
  destruct (sessions m !! sid) as [session |] eqn:Hs; [| done].
  by apply (keeps_insert m sid (setContents _) session).
Qed.

Lemma keeps_addToolResult sid callId name result :
  keepsSessions (addToolResult sid callId name result).
Proof.
  intros m sid' H'. unfold addToolResult.
  destruct (sessions m !! sid) as [session |] eqn:Hs; [| done].
  by apply (keeps_insert m sid (setContents _) session).
Qed.

Lemma keeps_setAbortController sid controller :
  keepsSessions (setAbortController sid controller).
Proof.
  intros m sid' H'. unfold setAbortController.
  destruct (sessions m !! sid) as [session |] eqn:Hs; [| done].
  by apply (keeps_insert m sid (setController _) session).
Qed.

Lemma hasSession_withManager f sid s :
  keepsSessions f → hasSession sid s → hasSession sid (withManager f s).
Proof. intros Hf H. by apply Hf. Qed.

Lemma hasSession_onNotification sid0 sid fullText st notification :
  hasSession sid0 st.2 →
  hasSession sid0 (onNotification sid fullText st notification).2.
Proof.
  intros H. unfold onNotification.
  assert (hasSession sid0 (sendNotification notification st.2)) as H1 by done.
  destruct (n_update notification) as [| | callId tool input | reason |]; simpl;
    try done.
  - by apply hasSession_withManager; [apply keeps_addToolCall |].
  - destruct (truthyStr fullText); simpl; [| done].
    by apply hasSession_withManager; [apply keeps_addAssistantMessage |].
Qed.

Lemma hasSession_foldl {A B} (proj : A → AcpServer) (f : A → B → A) sid0 :
  (∀ st b, hasSession sid0 (proj st) → hasSession sid0 (proj (f st b))) →
  ∀ bs st, hasSession sid0 (proj st) → hasSession sid0 (proj (foldl f st bs)).
Proof.
  intros Hf bs. induction bs as [| b bs IH]; intros st H; simpl; [done |].
  by apply IH, Hf.
Qed.

Lemma hasSession_onEvent sid0 sid st event :
  hasSession sid0 st.2 → hasSession sid0 (onEvent Date_now sid st event).2.
Proof.
  intros H. unfold onEvent.
  destruct (processEvent Date_now event _) as [notifications a].
  pose proof (hasSession_foldl snd
                (onNotification sid (getAccumulatedText a)) sid0
                (hasSession_onNotification sid0 sid (getAccumulatedText a))
                notifications
                (pendingToolCalls st.1, setDateReads (clock a) st.2) H) as H1.
  by destruct (foldl _ _ notifications).
Qed.

Lemma hasSession_onEnd sid0 id e t s :
  hasSession sid0 s → hasSession sid0 (onEnd id e t s).
Proof.
  intros H. destruct e as [| name message]; simpl; [done |].
  by destruct (String.eqb name "AbortError").
Qed.

Lemma cleared_setAbortController sid s :
  hasSession sid s → cleared sid (withManager (setAbortController sid None) s).
Proof.
  intros [session Hs]. exists (setController None session).
  unfold getSession, setAbortController. simpl. rewrite Hs. simpl.
  by rewrite lookup_insert_eq.
Qed.

(** A turn ends with the handle of its session cleared, however the
    stream ends. *)
Lemma runTurn_cleared id sid session stream s :
  hasSession sid s → cleared sid (runTurn Date_now id sid session stream s).
Proof.
  intros H. unfold runTurn. simpl.
  set (s2 := withManager (setAbortController sid (Some (controllers s))) _).
  set (s3 := streamGenerateContent _ s2).
  assert (hasSession sid s3) as H3.
  { subst s3 s2. by apply keeps_setAbortController. }
  pose proof (hasSession_foldl snd (onEvent Date_now sid) sid
                (hasSession_onEvent sid sid) (events stream)
                ({| adapter := createStreamAdapter sid [] (dateReads s3);
                    pendingToolCalls := [] |}, s3) H3) as H4.
  destruct (foldl _ _ (events stream)) as [t s4].
  by apply cleared_setAbortController, hasSession_onEnd.
Qed.

(** C7.  A prompt turn or a tool-result turn on an existing session leaves
    the session in the store with its cancellation handle cleared, for
    every stream of events and for every way the stream ends: by
    returning, by the cancellation error, or by any other error. *)
Theorem C7_handle_cleared s sid :
  initialized s = true →
  is_Some (antigravityClient s) →
  is_Some (getSession sid (sessionManager s)) →
  ∀ id evs e,
    (∀ messages,
       cleared sid
         (handlePrompt Date_now JSON_stringify id
            {| pp_sessionId := sid; pp_messages := messages |}
            {| events := evs; ending := e |} s))
    ∧ (∀ toolUseId callId toolName result isError,
       cleared sid
         (handleToolResult Date_now id
            {| tr_sessionId := sid; tr_toolUseId := toolUseId;
               tr_callId := callId; tr_toolName := toolName;
               tr_result := result; tr_isError := isError |}
            {| events := evs; ending := e |} s)).
Proof.
  intros Hinit Hclient [session Hs] id evs e.
  unfold getSession in Hs. split.
  - intros messages. unfold handlePrompt, getSession. simpl.
    rewrite Hinit, bool_decide_eq_true_2 by done. simpl. rewrite Hs.
    apply runTurn_cleared.
    destruct (truthyStr (userTextOf JSON_stringify messages)).
    + apply hasSession_withManager; [apply keeps_addUserMessage | by eexists].
    + by eexists.
  - intros toolUseId callId toolName result isError.
    unfold handleToolResult, getSession. simpl.
    rewrite Hinit, bool_decide_eq_true_2 by done. simpl. rewrite Hs.
    apply runTurn_cleared.
    apply hasSession_withManager; [apply keeps_addToolResult | by eexists].
Qed.

(** *** One complete turn *)

(** C1.  On a session that [newSession] has just created, with or without
    a tool catalogue of its own, a prompt whose user text is "hi", answered
    by a stream of one event with the text part "hello" and the finish
    reason STOP, writes exactly three lines: the message chunk "hello",
    the completion with reason [end_turn], and the response, which has no
    [pending] field.  The history of the session is then the user element
    "hi" followed by the model element "hello". *)
Theorem C1_hello_turn s id0 id config messages :
  initialized s = true →
  is_Some (antigravityClient s) →
  userTextOf JSON_stringify messages = "hi" →
  let sid := sessionIdOf (Date_now (dateReads s)) (Math_random (randomReads s)) in
  let s1 :=
    handleRequest Date_now Math_random JSON_stringify id0
      (CNewSession {| ns_config := config |}) s in
  let s2 :=
    handleRequest Date_now Math_random JSON_stringify id
      (CPrompt {| pp_sessionId := sid; pp_messages := messages |}
               {| events := [eventOf [TextPart "hello"] (Some "STOP")];
                  ending := StreamDone |})
      s1 in
  stdout s1 = (stdout s ++ [Response id0 (NewSessionResult sid)])%list
  ∧ stdout s2 =
    (stdout s1 ++
     [ Notification
         {| n_sessionId := sid;
            n_update := AgentMessageChunk ("msg_" +:+ sid +:+ "_0") 0 "hello" |};
       Notification
         {| n_sessionId := sid; n_update := SessionComplete end_turn |};
       Response id (PromptResult None) ])%list
  ∧ getContents sid (sessionManager s2) =
    [ {| role := User; parts := [TextPart "hi"] |};
      {| role := Model; parts := [TextPart "hello"] |} ].
Proof.
  intros Hinit [client Hclient] Htext sid s1 s2.
  subst s2 s1. simpl.
  unfold handleNewSession. rewrite Hinit, Hclient. simpl. fold sid.
  split; [done |].
  unfold handlePrompt, getSession. simpl.
  rewrite Hinit, Hclient, bool_decide_eq_true_2 by done. simpl.
  rewrite lookup_insert_eq, Htext. simpl.
  unfold runTurn, addUserMessage, setAbortController, getContents. simpl.
  rewrite !lookup_insert_eq. simpl.
  rewrite !lookup_insert_eq. simpl.
  unfold onEvent, addAssistantMessage. simpl.
  rewrite !lookup_insert_eq. simpl.
  unfold getContents. simpl. rewrite !lookup_insert_eq. simpl.
  rewrite <- !app_assoc. split; [reflexivity |].
  rewrite lookup_insert_eq. reflexivity.
Qed.

End Server.

(** ** The adapter and the catalogue *)

Section Catalogue.

Variable Date_now : nat → N.

Lemma toolMap_snoc (tools : list AcpTool) t :
  foldl (λ acc t, <[tool_name t := t]> acc) (∅ : gmap string AcpTool) (tools ++ [t]) =
  <[tool_name t := t]> (foldl (λ acc t, <[tool_name t := t]> acc) ∅ tools).
Proof. by rewrite foldl_app. Qed.

(** An adapter that is given a catalogue knows each of its tools by name. *)
Lemma createStreamAdapter_knows sid tools clk t :
  NoDup (tool_name <$> tools) →
  t ∈ tools →
  toolNameToAcpTool (createStreamAdapter sid tools clk) !! tool_name t = Some t.
Proof.
  simpl. induction tools as [| x tools IH] using rev_ind; intros Hnd Hin.
  - by apply elem_of_nil in Hin.
  - rewrite toolMap_snoc. rewrite fmap_app in Hnd. simpl in Hnd.
    apply NoDup_app in Hnd as (Hnd & Hfresh & _).
    apply elem_of_app in Hin as [Hin | Hin].
    + rewrite lookup_insert_ne; [by apply IH |].
      intros E. apply (Hfresh (tool_name t)).
      * by apply list_elem_of_fmap_2.
      * rewrite E. apply list_elem_of_singleton. done.
    + apply list_elem_of_singleton in Hin as ->. by rewrite lookup_insert_eq.
Qed.

(** With the catalogue in hand the adapter resolves the definition of a
    tool call by name, and it falls back on the minimal definition for a
    name that the catalogue does not have. *)
Lemma createToolCall_resolves sid tools clk functionCall t :
  NoDup (tool_name <$> tools) →
  t ∈ tools →
  fc_name functionCall = tool_name t →
  ∃ callId,
    (createToolCall Date_now functionCall (createStreamAdapter sid tools clk)).1 =
    ToolCall callId t (orEmptyObj (fc_args functionCall)).
Proof.
  intros Hnd Hin Hname. unfold createToolCall.
  rewrite Hname, (createStreamAdapter_knows sid tools clk t Hnd Hin).
  destruct (fc_id functionCall) as [i |]; [destruct (truthyStr i) |];
    by eexists.
Qed.

(** The adapter of a turn is created without a catalogue: whatever the
    name of the tool, the update carries the minimal definition. *)
Lemma createToolCall_in_turn sid clk ns functionCall a :
  toolNameToAcpTool a = toolNameToAcpTool (createStreamAdapter sid [] clk) →
  ∃ callId,
    (processPart Date_now (ns, a) (FunctionCallPart functionCall)).1 =
    (ns ++ [ {| n_sessionId := sessionId a;
                n_update :=
                  ToolCall callId (minimalTool (fc_name functionCall))
                    (orEmptyObj (fc_args functionCall)) |} ])%list.
Proof.
  intros Hmap. unfold processPart, push, createToolCall. cbn [fst snd].
  rewrite Hmap. simpl. rewrite lookup_empty.
  destruct (fc_id functionCall) as [i |]; [destruct (truthyStr i) |];
    by eexists.
Qed.

End Catalogue.

(** ** The examples *)

(** C1, at an input: the prompt "hi" on the session of [sessionServer]. *)
Lemma C1_hello_turn_witness :
  getContents theSession
    (sessionManager
       (handleRequest frozenClock fixedRandom stringifyUnused (IdNum 2)
          (CPrompt {| pp_sessionId := theSession; pp_messages := userSays "hi" |}
                   {| events := [eventOf [TextPart "hello"] (Some "STOP")];
                      ending := StreamDone |})
          sessionServer)) =
  [ {| role := User; parts := [TextPart "hi"] |};
    {| role := Model; parts := [TextPart "hello"] |} ].
Proof.
  refine (proj2 (proj2
    (C1_hello_turn frozenClock fixedRandom stringifyUnused readyServer
       (IdNum 1) (IdNum 2) None (userSays "hi") _ _ _))).
  - reflexivity.
  - exists credentials. reflexivity.
  - reflexivity.
Defined.

(** C2, at an input: two appends to a new session. *)
Lemma C2_assistant_text_merges_witness :
  getContents storedSession
    (addAssistantMessage storedSession "lo"
       (addAssistantMessage storedSession "Hel" oneSessionStore)) =
  [ {| role := Model; parts := [TextPart "Hello"] |} ].
Proof.
  refine (proj2 (proj1 (proj2
    (C2_assistant_text_merges oneSessionStore storedSession newSessionOf.1
       "Hel" "lo" _)) I)).
  reflexivity.
Defined.

(** C2, the claim as it stands fails: the trailing element of
    [mixedStore] holds a text and a tool call, so that its sub-parts are
    not pure text, and still the text is merged into it and no element is
    opened. *)
Lemma C2_merges_beside_tool_call :
  getContents storedSession mixedStore =
    [ {| role := Model; parts := [TextPart "a"; FunctionCallPart readFileCall] |} ]
  ∧ pureText
      {| role := Model; parts := [TextPart "a"; FunctionCallPart readFileCall] |} = false
  ∧ getContents storedSession (addAssistantMessage storedSession "b" mixedStore) =
    [ {| role := Model; parts := [TextPart "ab"; FunctionCallPart readFileCall] |} ]
  ∧ getContents storedSession (addAssistantMessage storedSession "b" mixedStore) ≠
    (getContents storedSession mixedStore ++
     [ {| role := Model; parts := [TextPart "b"] |} ])%list.
Proof.
  split; [reflexivity |]. split; [reflexivity |]. split; [reflexivity |].
  vm_compute. discriminate.
Qed.

(** C3, at an input: the text part "hello" on a new adapter. *)
Lemma C3_parts_translated_witness :
  (processPart frozenClock ([], createStreamAdapter "s" [] 0) (TextPart "hello")).1 =
  [ {| n_sessionId := "s"; n_update := AgentMessageChunk "msg_s_0" 0 "hello" |} ].
Proof.
  refine (proj1 (proj1 (proj2
    (C3_parts_translated frozenClock [] (createStreamAdapter "s" [] 0)))
    "hello" _)).
  discriminate.
Defined.

(** C3, the claim as it stands fails: the two thought chunks of one event
    carry two identifiers, and an empty text part yields no message
    chunk. *)
Lemma C3_thought_id_changes :
  (processEvent frozenClock twoThoughts (createStreamAdapter "s" [] 0)).1 =
    [ {| n_sessionId := "s"; n_update := AgentThoughtChunk "thought_s_0" 0 "a" |};
      {| n_sessionId := "s"; n_update := AgentThoughtChunk "thought_s_1" 1 "b" |} ]
  ∧ ¬ stableThoughtId
        (processEvent frozenClock twoThoughts (createStreamAdapter "s" [] 0)).1
  ∧ (processEvent frozenClock (eventOf [TextPart ""] None)
       (createStreamAdapter "s" [] 0)).1 = [].
Proof.
  split; [reflexivity |]. split; [| reflexivity].
  intros [tid H].
  assert ("thought_s_0" = tid) as H0 by (apply H; vm_compute; set_solver).
  assert ("thought_s_1" = tid) as H1 by (apply H; vm_compute; set_solver).
  congruence.
Qed.

(** C5, the failing input.  The server runs with the default catalogue,
    which has a definition of [read_file]; the backend calls [read_file];
    the update that is written carries the minimal definition, not the one
    of the catalogue. *)
Theorem C5_catalogue_not_consulted :
  let after :=
    handleRequest frozenClock fixedRandom stringifyUnused (IdNum 2)
      (CPrompt {| pp_sessionId := theSession;
                  pp_messages := userSays "read a.txt" |}
               readFileStream)
      sessionServer in
  stdout after =
    (stdout sessionServer ++
     [ Notification
         {| n_sessionId := theSession;
            n_update :=
              ToolCall "c1" (minimalTool "read_file")
                (JObj [("path", JStr "a.txt")]) |};
       Notification
         {| n_sessionId := theSession; n_update := SessionComplete tool_use |};
       Response (IdNum 2)
         (PromptResult (Some [ {| p_id := "c1"; p_name := "read_file" |} ])) ])%list
  ∧ tools sessionServer = ACP_TOOLS
  ∧ (s_tools <$> getSession theSession (sessionManager sessionServer)) = Some []
  ∧ ∃ tool,
      getToolByName "read_file" = Some tool
      ∧ tool ∈ ACP_TOOLS
      ∧ tool ≠ minimalTool "read_file".
Proof.
  split; [reflexivity |]. split; [reflexivity |]. split; [reflexivity |].
  eexists. split; [reflexivity |]. split; [apply list_elem_of_here |].
  discriminate.
Qed.

(** C6, at an input: [newSession] on a server that was just created. *)
Lemma C6_gate_witness :
  handleRequest frozenClock fixedRandom stringifyUnused (IdNum 1)
    (CNewSession {| ns_config := None |}) freshServer =
  write (ErrorResponse (Some (IdNum 1)) (-32002) "Server not initialized" None)
    freshServer.
Proof.
  refine (proj1 (proj1
    (C6_gate frozenClock fixedRandom stringifyUnused freshServer (IdNum 1)) _)
    {| ns_config := None |}).
  reflexivity.
Defined.

(** C6, the claim as it stands fails: before [initialize], [cancel] and
    [shutdown] are answered by a result, not by the error -32002. *)
Lemma C6_cancel_and_shutdown_not_gated :
  initialized freshServer = false
  ∧ stdout
      (handleRequest frozenClock fixedRandom stringifyUnused (IdNum 1)
         (CCancel {| cp_sessionId := theSession |}) freshServer) =
    [Response (IdNum 1) (CancelResult false)]
  ∧ ¬ rejected (IdNum 1) freshServer
        (handleRequest frozenClock fixedRandom stringifyUnused (IdNum 1)
           (CCancel {| cp_sessionId := theSession |}) freshServer)
  ∧ stdout
      (handleRequest frozenClock fixedRandom stringifyUnused (IdNum 1)
         CShutdown freshServer) =
    [Response (IdNum 1) EmptyResult]
  ∧ ¬ rejected (IdNum 1) freshServer
        (handleRequest frozenClock fixedRandom stringifyUnused (IdNum 1)
           CShutdown freshServer).
Proof.
  split; [reflexivity |]. split; [reflexivity |].
  split; [intros (message & data & H); vm_compute in H; discriminate |].
  split; [reflexivity |].
  intros (message & data & H). vm_compute in H. discriminate.
Qed.

(** C7, at an input: a prompt turn that is cancelled after its first
    event. *)
Lemma C7_handle_cleared_witness :
  cleared theSession
    (handlePrompt frozenClock stringifyUnused (IdNum 2)
       {| pp_sessionId := theSession; pp_messages := userSays "hi" |}
       cancelledStream sessionServer).
Proof.
  refine (proj1
    (C7_handle_cleared frozenClock stringifyUnused sessionServer theSession
       _ _ _ (IdNum 2) (events cancelledStream) (ending cancelledStream))
    (userSays "hi")).
  - reflexivity.
  - exists credentials. reflexivity.
  - vm_compute. eexists. reflexivity.
Defined.



(** ** The stream adapter: what every stream keeps *)

Section AdapterTrace.

Variable Date_now : nat → N.

Lemma append_nil_r (s : string) : s +:+ "" = s.
Proof. induction s as [| c s IH]; [done |]. by rewrite append_cons, IH. Qed.

Lemma append_assoc' (a b c : string) : (a +:+ b) +:+ c = a +:+ (b +:+ c).
Proof.
  induction a as [| x a IH]; [done |]. by rewrite !append_cons, IH.
Qed.

Lemma joinAll_app l1 l2 : joinAll (l1 ++ l2) = joinAll l1 +:+ joinAll l2.
Proof.
  induction l1 as [| x l1 IH]; simpl; [done |].
  by rewrite IH, append_assoc'.
Qed.

Lemma truthyStr_ne s : truthyStr s = true → s ≠ "".
Proof. by destruct s. Qed.

Lemma follows_refl a : follows a [] a.
Proof.
  unfold follows. simpl. rewrite append_nil_r.
  repeat split; constructor.
Qed.

Lemma follows_trans a n1 a1 n2 a2 :
  follows a n1 a1 → follows a1 n2 a2 → follows a (n1 ++ n2) a2.
Proof.
  intros (S1 & M1 & F1 & T1 & C1 & I1) (S2 & M2 & F2 & T2 & C2 & I2).
  unfold follows, messageChunks, toolCallIds in *.
  rewrite !omap_app, joinAll_app, last_app.
  repeat split.
  - congruence.
  - congruence.
  - apply Forall_app. split; [done |].
    eapply Forall_impl; [exact F2 |]. simpl. intros n Hn. congruence.
  - by rewrite T2, T1, append_assoc'.
  - rewrite C2, C1. by destruct (last (omap _ n2)).
  - by apply Forall_app.
Qed.

Lemma processPart_follows a part :
  follows a (processPart Date_now ([], a) part).1
            (processPart Date_now ([], a) part).2.
Proof.
  destruct part as [text | text [] | | fc | ]; simpl;
    try apply follows_refl.
  - destruct (truthyStr text) eqn:Ht; simpl; [| apply follows_refl].
    unfold follows. simpl. rewrite append_nil_r.
    repeat split; repeat constructor.
  - unfold follows. simpl. rewrite append_nil_r.
    repeat split; repeat constructor.
  - unfold push, createToolCall, follows. simpl.
    destruct (fc_id fc) as [i |]; [destruct (truthyStr i) eqn:Hi |]; simpl;
      rewrite append_nil_r; repeat split; repeat constructor;
      try done.
    by apply truthyStr_ne.
Qed.

Lemma foldl_follows {B} (f : Acc → B → Acc) :
  Prefixed f →
  (∀ a b, follows a (f ([], a) b).1 (f ([], a) b).2) →
  ∀ bs a, follows a (foldl f ([], a) bs).1 (foldl f ([], a) bs).2.
Proof.
  intros Hp Hf bs. induction bs as [| b bs IH]; intros a; simpl.
  - apply follows_refl.
  - destruct (f ([], a) b) as [n1 a1] eqn:E.
    rewrite (foldl_prefixed f Hp n1 a1 bs). simpl.
    eapply follows_trans; [| apply IH].
    specialize (Hf a b). by rewrite E in Hf.
Qed.

Lemma finishUpdate_terminal r u : finishUpdate r = Some u → isTerminal u = true.
Proof.
  unfold finishUpdate. destruct r as [r |]; [| done].
  repeat case_match; by intros [= <-].
Qed.

Lemma processCandidate_follows a c :
  follows a (processCandidate Date_now ([], a) c).1
            (processCandidate Date_now ([], a) c).2.
Proof.
  unfold processCandidate.
  destruct (parts <$> cand_content c) as [[| p ps] |];
    try apply follows_refl.
  pose proof (foldl_follows _ (processPart_prefixed Date_now) processPart_follows
                (p :: ps) a) as H.
  destruct (finishUpdate (cand_finishReason c)) as [u |] eqn:Hu; [| done].
  destruct (foldl (processPart Date_now) ([], a) (p :: ps)) as [n1 a1].
  simpl in *. eapply follows_trans; [exact H |].
  unfold finishUpdate in Hu. destruct (cand_finishReason c) as [r |]; [| done].
  unfold follows.
  repeat case_match; simplify_eq; simpl; rewrite ?append_nil_r;
    repeat split; repeat constructor.
Qed.

Lemma processEvent_follows event a :
  follows a (processEvent Date_now event a).1 (processEvent Date_now event a).2.
Proof.
  unfold processEvent.
  destruct (candidates <$> ev_response event) as [[| c cs] |];
    try apply follows_refl.
  apply (foldl_follows _ (processCandidate_prefixed Date_now) processCandidate_follows).
Qed.

Lemma eventStep_prefixed :
  Prefixed (λ (acc : Acc) ev,
              let '(ns, a1) := processEvent Date_now ev acc.2 in
              ((acc.1 ++ ns)%list, a1)).
Proof.
  intros ns a ev. simpl. by destruct (processEvent Date_now ev a).
Qed.

Lemma processEvents_follows evs a :
  follows a (processEvents Date_now evs a).1 (processEvents Date_now evs a).2.
Proof.
  unfold processEvents. apply (foldl_follows _ eventStep_prefixed).
  intros a0 ev. simpl.
  pose proof (processEvent_follows ev a0) as H.
  by destruct (processEvent Date_now ev a0).
Qed.

(** X1.  The text that an adapter has accumulated is the text of the message
    chunks it has emitted, in the order of emission: thoughts, tool calls
    and terminal updates add nothing to it. *)
Theorem accumulated_text_is_message_chunks sid tools clk evs :
  let out := processEvents Date_now evs (createStreamAdapter sid tools clk) in
  getAccumulatedText out.2 = joinAll (messageChunks out.1).
Proof.
  simpl.
  by destruct (processEvents_follows evs (createStreamAdapter sid tools clk))
    as (_ & _ & _ & T & _).
Qed.

(** X2.  The current tool call identifier of an adapter is the identifier of
    the last tool call it has emitted, none when it has emitted no tool
    call; and no tool call is emitted with an empty identifier. *)
Theorem current_tool_call_is_last_emitted sid tools clk evs :
  let out := processEvents Date_now evs (createStreamAdapter sid tools clk) in
  getCurrentToolCallId out.2 = last (toolCallIds out.1)
  ∧ Forall (λ i, i ≠ "") (toolCallIds out.1).
Proof.
  simpl.
  destruct (processEvents_follows evs (createStreamAdapter sid tools clk))
    as (_ & _ & _ & _ & C & I).
  split; [| done]. unfold getCurrentToolCallId. rewrite C. simpl.
  by destruct (last _).
Qed.

(** X3.  Every notification of an adapter carries the session identifier the
    adapter was created with. *)
Theorem notifications_carry_session sid tools clk evs :
  Forall (λ n, n_sessionId n = sid)
    (processEvents Date_now evs (createStreamAdapter sid tools clk)).1.
Proof.
  by destruct (processEvents_follows evs (createStreamAdapter sid tools clk))
    as (_ & _ & F & _).
Qed.

(** X4.  [reset] takes an adapter back to the state it was created in, whatever
    it has processed: the counter, the text and the tool call identifier
    start again, the session and the catalogue stay. *)
Theorem reset_restores_created_adapter sid tools clk evs :
  let out := processEvents Date_now evs (createStreamAdapter sid tools clk) in
  reset out.2 = createStreamAdapter sid tools (clock out.2).
Proof.
  simpl.
  destruct (processEvents_follows evs (createStreamAdapter sid tools clk))
    as (S & M & _).
  unfold reset. rewrite S, M. reflexivity.
Qed.

Lemma singleCandidate_step acc c :
  (let '(ns, a1) := processEvent Date_now (singleCandidate c) acc.2 in
   ((acc.1 ++ ns)%list, a1)) =
  processCandidate Date_now acc c.
Proof.
  destruct acc as [ns a]. rewrite (processCandidate_prefixed Date_now ns a c).
  unfold processEvent. simpl.
  by destruct (processCandidate Date_now ([], a) c).
Qed.

(** X5.  The candidates of one event are processed one after the other, as if
    each had come in an event of its own: their updates are put together
    in the order of the candidates. *)
Theorem candidates_processed_in_turn cs err a :
  processEvent Date_now
    {| ev_response := Some {| candidates := cs |}; ev_error := err |} a =
  processEvents Date_now (singleCandidate <$> cs) a.
Proof.
  unfold processEvents, processEvent. simpl.
  assert (∀ acc,
            foldl (λ acc ev,
                     let '(ns, a1) := processEvent Date_now ev acc.2 in
                     ((acc.1 ++ ns)%list, a1))
                  acc (singleCandidate <$> cs) =
            foldl (processCandidate Date_now) acc cs) as H.
  { induction cs as [| c cs IH]; intros acc; [done |].
    cbn [fmap list_fmap foldl]. rewrite <- IH. f_equal.
    apply singleCandidate_step. }
  rewrite H. by destruct cs.
Qed.

Lemma processPart_body ns a part :
  ∃ new,
    (processPart Date_now (ns, a) part).1 = (ns ++ new)%list
    ∧ (length new ≤ 1)%nat
    ∧ Forall (λ n, isTerminal (n_update n) = false) new.
Proof.
  assert (∃ new : list SessionUpdateNotification,
            ns = (ns ++ new)%list ∧ (length new ≤ 1)%nat
            ∧ Forall (λ n, isTerminal (n_update n) = false) new) as Hnone.
  { exists []. rewrite app_nil_r. split; [done |]. split; [simpl; lia |].
    constructor. }
  destruct part as [text | text [] | | fc | ]; simpl; try exact Hnone.
  - destruct (truthyStr text); simpl; [| exact Hnone].
    eexists. split; [reflexivity |]. split; [simpl; lia |].
    by repeat constructor.
  - eexists. split; [reflexivity |]. split; [simpl; lia |].
    by repeat constructor.
  - unfold push, createToolCall. simpl.
    destruct (fc_id fc) as [i |]; [destruct (truthyStr i) |]; simpl;
      (eexists; split; [reflexivity |]; split; [simpl; lia |];
       by repeat constructor).
Qed.

Lemma foldl_processPart_body ps acc :
  ∃ new,
    (foldl (processPart Date_now) acc ps).1 = (acc.1 ++ new)%list
    ∧ (length new ≤ length ps)%nat
    ∧ Forall (λ n, isTerminal (n_update n) = false) new.
Proof.
  revert acc. induction ps as [| p ps IH]; intros acc; simpl.
  - exists []. rewrite app_nil_r. split; [done |]. split; [simpl; lia | constructor].
  - destruct acc as [ns a].
    destruct (processPart_body ns a p) as (n1 & E1 & L1 & F1).
    destruct (IH (processPart Date_now (ns, a) p)) as (n2 & E2 & L2 & F2).
    exists (n1 ++ n2)%list. rewrite E2, E1, app_assoc, length_app.
    split; [done |]. split; [simpl in *; lia | by apply Forall_app].
Qed.

(** X6.  A candidate yields at most one update for each of its parts, none of
    them terminal, followed by at most one terminal update: a terminal
    update is always the last update of its candidate. *)
Theorem terminal_update_ends_candidate a c :
  ∃ body fin,
    (processCandidate Date_now ([], a) c).1 = (body ++ fin)%list
    ∧ (length body ≤ length (partsOf c))%nat
    ∧ Forall (λ n, isTerminal (n_update n) = false) body
    ∧ (length fin ≤ 1)%nat
    ∧ Forall (λ n, isTerminal (n_update n) = true) fin.
Proof.
  unfold processCandidate, partsOf.
  destruct (parts <$> cand_content c) as [[| p ps] |]; simpl;
    try (exists [], []; split; [done |]; split; [simpl; lia |];
         split; [constructor |]; split; [simpl; lia | constructor]).
  destruct (foldl_processPart_body (p :: ps) ([], a)) as (body & E & L & F).
  simpl in E, L.
  destruct (finishUpdate (cand_finishReason c)) as [u |] eqn:Hu.
  - exists body, [createNotification
                    (foldl (processPart Date_now)
                       (processPart Date_now ([], a) p) ps).2 u].
    simpl. rewrite E. split; [done |]. split; [done |]. split; [done |].
    split; [lia |]. repeat constructor. simpl.
    by eapply finishUpdate_terminal.
  - exists body, []. rewrite E, app_nil_r.
    split; [done |]. split; [done |]. split; [done |].
    split; [simpl; lia | constructor].
Qed.

(** X7.  The name map of an adapter holds, for every name, the last tool of
    that name in the catalogue it was created with: a later definition
    replaces an earlier one, and a name the catalogue does not have is not
    in the map. *)
Theorem later_tool_definition_wins sid tools clk name :
  toolNameToAcpTool (createStreamAdapter sid tools clk) !! name =
  last (filter (λ t, tool_name t = name) tools).
Proof.
  simpl. induction tools as [| t tools IH] using rev_ind; [done |].
  rewrite foldl_app, filter_app. simpl.
  destruct (decide (tool_name t = name)) as [<- | Hne].
  - rewrite lookup_insert_eq, filter_cons_True by done.
    by rewrite filter_nil, last_snoc.
  - rewrite lookup_insert_ne, filter_cons_False by done.
    by rewrite filter_nil, app_nil_r.
Qed.

(** When the names of a catalogue are distinct, the adapter finds by name
    what a search of the catalogue from its start finds. *)
Lemma toolMap_find (tools : list AcpTool) name :
  NoDup (tool_name <$> tools) →
  foldl (λ acc t, <[tool_name t := t]> acc) (∅ : gmap string AcpTool) tools
    !! name =
  List.find (λ t, String.eqb (tool_name t) name) tools.
Proof.
  induction tools as [| t tools IH] using rev_ind; intros Hnd; [done |].
  rewrite fmap_app in Hnd. simpl in Hnd.
  apply NoDup_app in Hnd as (Hnd & Hfresh & _).
  rewrite foldl_app. simpl.
  assert (∀ l, List.find (λ t0, String.eqb (tool_name t0) name) (l ++ [t]) =
               match List.find (λ t0, String.eqb (tool_name t0) name) l with
               | Some y => Some y
               | None => if String.eqb (tool_name t) name then Some t else None
               end) as Hfind.
  { intros l. induction l as [| y l IHl]; simpl; [done |].
    by destruct (String.eqb (tool_name y) name). }
  rewrite Hfind.
  destruct (String.eqb_spec (tool_name t) name) as [<- | Hne].
  - rewrite lookup_insert_eq.
    destruct (List.find _ tools) as [y |] eqn:Hy; [| done].
    apply find_some in Hy as [Hin Heq]. apply String.eqb_eq in Heq.
    exfalso. apply (Hfresh (tool_name t)).
    + rewrite <- Heq. apply list_elem_of_fmap_2. by apply list_elem_of_In.
    + apply list_elem_of_singleton. done.
  - rewrite lookup_insert_ne by done. rewrite IH by done.
    by destruct (List.find _ tools).
Qed.

(** X8.  An adapter that is given the default catalogue resolves a name to the
    tool that [getToolByName] returns for it, for every name. *)
Theorem default_catalogue_resolves_like_getToolByName sid clk name :
  toolNameToAcpTool (createStreamAdapter sid ACP_TOOLS clk) !! name =
  getToolByName name.
Proof.
  unfold getToolByName, createStreamAdapter. cbn [toolNameToAcpTool].
  apply toolMap_find.
  apply (bool_decide_eq_true_1 (NoDup (tool_name <$> ACP_TOOLS))).
  by vm_compute.
Qed.

End AdapterTrace.

(** ** The session store: absent sessions, frames and the history *)

Section StoreCalls.

Lemma storeCall_absent m c :
  sessions m !! target c = None → storeCall m c = m.
Proof.
  intros H. destruct c; simpl in *;
    unfold addUserMessage, addAssistantMessage, addToolCall, addToolResult,
      setAbortController, cancelSession; by rewrite H.
Qed.

(** X9.  An operation on a session that the store does not have changes
    nothing, and the history of such a session reads as empty. *)
Theorem absent_session_is_ignored m c :
  sessions m !! target c = None →
  storeCall m c = m ∧ getContents (target c) m = [].
Proof.
  intros H. split; [by apply storeCall_absent |].
  unfold getContents. by rewrite H.
Qed.

(** What an operation does to the session it is called on. *)
Lemma storeCall_present m c session :
  sessions m !! target c = Some session →
  ∃ session',
    sessions (storeCall m c) = <[target c := session']> (sessions m)
    ∧ defaultModel (storeCall m c) = defaultModel m
    ∧ sameSetup session session'
    ∧ (s_contents session' = s_contents session
       ∨ (∃ x, role x = User
               ∧ s_contents session' = (s_contents session ++ [x])%list)
       ∨ (∃ text, s_contents session' =
                  assistantContents text (s_contents session))
       ∨ (∃ fc, s_contents session' =
                toolCallContents fc (s_contents session))).
Proof.
  intros H. destruct c; simpl in *.
  - unfold addUserMessage. rewrite H. eexists. split; [done |].
    split; [done |]. split; [done |]. right. left.
    eexists. split; [| reflexivity]. done.
  - unfold addAssistantMessage. rewrite H. eexists. split; [done |].
    split; [done |]. split; [done |]. right. right. left. by eexists.
  - unfold addToolCall. rewrite H. eexists. split; [done |].
    split; [done |]. split; [done |]. right. right. right. by eexists.
  - unfold addToolResult. rewrite H. eexists. split; [done |].
    split; [done |]. split; [done |]. right. left.
    eexists. split; [| reflexivity]. done.
  - unfold setAbortController. rewrite H. eexists. split; [done |].
    split; [done |]. split; [done |]. by left.
  - unfold cancelSession, setAbortController. rewrite H. simpl.
    destruct (s_abortController session) as [k |] eqn:Hk.
    + simpl. rewrite H. eexists. split; [done |].
      split; [done |]. split; [done |]. by left.
    + exists session. simpl. rewrite insert_id by done.
      split; [done |]. split; [done |]. split; [done |]. by left.
Qed.

Lemma sameSetup_trans s1 s2 s3 :
  sameSetup s1 s2 → sameSetup s2 s3 → sameSetup s1 s3.
Proof.
  intros (? & ? & ? & ? & ?) (? & ? & ? & ? & ?).
  unfold sameSetup. repeat split; congruence.
Qed.

Lemma storeCall_frame m c :
  dom (sessions (storeCall m c)) = dom (sessions m)
  ∧ defaultModel (storeCall m c) = defaultModel m
  ∧ ∀ sid session,
      sessions m !! sid = Some session →
      ∃ session',
        sessions (storeCall m c) !! sid = Some session'
        ∧ sameSetup session session'.
Proof.
  destruct (sessions m !! target c) as [session |] eqn:H.
  - destruct (storeCall_present m c session H) as (session' & E & D & S & _).
    rewrite E, D. split; [| split; [done |]].
    + by apply dom_insert_lookup_L.
    + intros sid x Hx. destruct (decide (target c = sid)) as [<- | Hne].
      * rewrite lookup_insert_eq. simplify_eq. by eexists.
      * rewrite lookup_insert_ne by done. exists x. split; [done |].
        by repeat split.
  - rewrite (storeCall_absent m c H). split; [done |]. split; [done |].
    intros sid x Hx. exists x. split; [done |]. by repeat split.
Qed.

(** X10.  No sequence of operations on sessions adds a session to the store or
    takes one away, and none changes the identifier, the model, the system
    instruction, the tools or the creation time of a session. *)
Theorem setup_is_immutable calls m sid session :
  sessions m !! sid = Some session →
  dom (sessions (foldl storeCall m calls)) = dom (sessions m)
  ∧ ∃ session',
      sessions (foldl storeCall m calls) !! sid = Some session'
      ∧ sameSetup session session'.
Proof.
  revert m session. induction calls as [| c calls IH]; intros m session H; simpl.
  - split; [done |]. exists session. split; [done |]. by repeat split.
  - destruct (storeCall_frame m c) as (D & _ & F).
    destruct (F sid session H) as (s1 & H1 & S1).
    destruct (IH (storeCall m c) s1 H1) as (D2 & s2 & H2 & S2).
    split; [congruence |]. exists s2. split; [done |].
    by eapply sameSetup_trans.
Qed.

Lemma grownFrom_refl cs : grownFrom cs cs.
Proof. unfold grownFrom. repeat split; eauto. Qed.

Lemma grownFrom_trans a b c : grownFrom a b → grownFrom b c → grownFrom a c.
Proof.
  intros (L1 & K1 & U1 & R1) (L2 & K2 & U2 & R2). unfold grownFrom.
  split; [lia |]. split; [| split].
  - intros i x Hi Hx. apply K2; [lia |]. by apply K1.
  - intros i x Hx Hu. apply U2; [| done]. by apply U1.
  - intros i x Hx. destruct (R1 i x Hx) as (y & Hy & Ry).
    destruct (R2 i y Hy) as (z & Hz & Rz). exists z. split; [done | congruence].
Qed.

Lemma grownFrom_push cs x : grownFrom cs (cs ++ [x]).
Proof.
  unfold grownFrom. rewrite length_app. simpl. split; [lia |].
  split; [| split].
  - intros i c _ Hc. by apply lookup_app_l_Some.
  - intros i c Hc _. by apply lookup_app_l_Some.
  - intros i c Hc. exists c. split; [by apply lookup_app_l_Some | done].
Qed.

Lemma grownFrom_last init c c' :
  role c = Model → role c' = Model →
  grownFrom (init ++ [c]) (init ++ [c']).
Proof.
  intros Hc Hc'. unfold grownFrom. rewrite !length_app. simpl.
  split; [lia |]. split; [| split].
  - intros i x Hi Hx. rewrite lookup_app_l in Hx by lia.
    by apply lookup_app_l_Some.
  - intros i x Hx Hu. destruct (decide (i < length init)%nat) as [Hlt | Hge].
    + rewrite lookup_app_l in Hx by done. by apply lookup_app_l_Some.
    + rewrite lookup_app_r in Hx by lia.
      destruct (i - length init) as [| k]; simpl in Hx; [| done].
      simplify_eq. congruence.
  - intros i x Hx. destruct (decide (i < length init)%nat) as [Hlt | Hge].
    + rewrite lookup_app_l in Hx by done. exists x.
      split; [by apply lookup_app_l_Some | done].
    + rewrite lookup_app_r in Hx by lia. rewrite lookup_app_r by lia.
      destruct (i - length init) as [| k]; simpl in *; [| done].
      simplify_eq. exists c'. split; [done | congruence].
Qed.

Lemma grownFrom_assistantContents text cs :
  grownFrom cs (assistantContents text cs).
Proof.
  unfold assistantContents.
  destruct (last cs) as [c |] eqn:Hlast; [| apply grownFrom_push].
  apply last_Some in Hlast as [init ->].
  destruct (role c) eqn:Hr; [apply grownFrom_push |].
  destruct (findTextPart (parts c)) as [[i old] |]; [| apply grownFrom_push].
  rewrite insert_last. by apply grownFrom_last.
Qed.

Lemma grownFrom_toolCallContents fc cs :
  grownFrom cs (toolCallContents fc cs).
Proof.
  unfold toolCallContents.
  destruct (last cs) as [c |] eqn:Hlast; [| apply grownFrom_push].
  apply last_Some in Hlast as [init ->].
  destruct (role c) eqn:Hr; [apply grownFrom_push |].
  rewrite insert_last. by apply grownFrom_last.
Qed.

Lemma storeCall_grows m c sid :
  grownFrom (getContents sid m) (getContents sid (storeCall m c)).
Proof.
  destruct (sessions m !! target c) as [session |] eqn:H.
  - destruct (storeCall_present m c session H) as (session' & E & _ & _ & Hc).
    unfold getContents. rewrite E.
    destruct (decide (target c = sid)) as [<- | Hne].
    + rewrite lookup_insert_eq, H. simpl.
      destruct Hc as [-> | [(x & _ & ->) | [(text & ->) | (fc & ->)]]].
      * apply grownFrom_refl.
      * apply grownFrom_push.
      * apply grownFrom_assistantContents.
      * apply grownFrom_toolCallContents.
    + rewrite lookup_insert_ne by done. apply grownFrom_refl.
  - rewrite (storeCall_absent m c H). apply grownFrom_refl.
Qed.

Lemma findTextPart_lookup ps i t :
  findTextPart ps = Some (i, t) → ps !! i = Some (TextPart t).
Proof.
  revert i. induction ps as [| p ps IH]; intros i H; [done |].
  destruct p; simpl in H; try (by simplify_eq);
    (destruct (findTextPart ps) as [[j u] |]; [| done]);
    simplify_eq; simpl; by apply IH.
Qed.

Lemma findTextPart_calls ps calls :
  findTextPart (ps ++ (FunctionCallPart <$> calls)) = findTextPart ps.
Proof.
  induction ps as [| p ps IH]; simpl.
  - induction calls as [| c calls IHc]; [done |].
    rewrite fmap_cons. cbn [findTextPart]. by rewrite IHc.
  - destruct p; try done; by rewrite IH.
Qed.

Lemma findTextPart_insert ps i t t' :
  findTextPart ps = Some (i, t) →
  findTextPart (<[i := TextPart t']> ps) = Some (i, t').
Proof.
  revert i. induction ps as [| p ps IH]; intros i H; [done |].
  destruct p; simpl in H; try (by simplify_eq);
    (destruct (findTextPart ps) as [[j u] |] eqn:E; [| done]);
    simplify_eq; simpl; by rewrite (IH j).
Qed.

Lemma extended_refl c : extended c c.
Proof.
  split; [done |]. exists (parts c), []. simpl. rewrite app_nil_r.
  split; [done | by left].
Qed.

Lemma extended_trans c1 c2 c3 : extended c1 c2 → extended c2 c3 → extended c1 c3.
Proof.
  intros (R1 & ps1 & calls1 & E1 & H1) (R2 & ps2 & calls2 & E2 & H2).
  split; [congruence |].
  destruct H2 as [-> | (i2 & old2 & more2 & F2 & ->)].
  - exists ps1, (calls1 ++ calls2)%list.
    rewrite E2, E1, fmap_app, app_assoc. by split.
  - rewrite E1, findTextPart_calls in F2.
    pose proof (findTextPart_lookup _ _ _ F2) as L2.
    apply lookup_lt_Some in L2.
    rewrite E1, insert_app_l in E2 by done.
    exists (<[i2 := TextPart (old2 +:+ more2)]> ps1), (calls1 ++ calls2)%list.
    rewrite E2, fmap_app, app_assoc. split; [done |]. right.
    destruct H1 as [-> | (i1 & old1 & more1 & F1 & ->)].
    + by exists i2, old2, more2.
    + rewrite (findTextPart_insert _ _ _ _ F1) in F2. simplify_eq.
      exists i2, old1, (more1 +:+ more2). split; [done |].
      by rewrite list_insert_insert_eq, append_assoc'.
Qed.

Lemma extendedFrom_refl cs : extendedFrom cs cs.
Proof.
  unfold extendedFrom. repeat split; eauto.
  intros i c Hc. exists c. split; [done | apply extended_refl].
Qed.

Lemma extendedFrom_trans a b c :
  extendedFrom a b → extendedFrom b c → extendedFrom a c.
Proof.
  intros (L1 & K1 & U1 & R1) (L2 & K2 & U2 & R2). unfold extendedFrom.
  split; [lia |]. split; [| split].
  - intros i x Hi Hx. apply K2; [lia |]. by apply K1.
  - intros i x Hx Hu. apply U2; [| done]. by apply U1.
  - intros i x Hx. destruct (R1 i x Hx) as (y & Hy & Ry).
    destruct (R2 i y Hy) as (z & Hz & Rz). exists z.
    split; [done | by eapply extended_trans].
Qed.

Lemma extendedFrom_push cs x : extendedFrom cs (cs ++ [x]).
Proof.
  unfold extendedFrom. rewrite length_app. simpl. split; [lia |].
  split; [| split].
  - intros i c _ Hc. by apply lookup_app_l_Some.
  - intros i c Hc _. by apply lookup_app_l_Some.
  - intros i c Hc. exists c.
    split; [by apply lookup_app_l_Some | apply extended_refl].
Qed.

Lemma extendedFrom_last init c c' :
  role c = Model → extended c c' →
  extendedFrom (init ++ [c]) (init ++ [c']).
Proof.
  intros Hc Hc'. unfold extendedFrom. rewrite !length_app. simpl.
  split; [lia |]. split; [| split].
  - intros i x Hi Hx. rewrite lookup_app_l in Hx by lia.
    by apply lookup_app_l_Some.
  - intros i x Hx Hu. destruct (decide (i < length init)%nat) as [Hlt | Hge].
    + rewrite lookup_app_l in Hx by done. by apply lookup_app_l_Some.
    + rewrite lookup_app_r in Hx by lia.
      destruct (i - length init) as [| k]; simpl in Hx; [| done].
      simplify_eq. congruence.
  - intros i x Hx. destruct (decide (i < length init)%nat) as [Hlt | Hge].
    + rewrite lookup_app_l in Hx by done. exists x.
      split; [by apply lookup_app_l_Some | apply extended_refl].
    + rewrite lookup_app_r in Hx by lia. rewrite lookup_app_r by lia.
      destruct (i - length init) as [| k]; simpl in *; [| done].
      simplify_eq. by exists c'.
Qed.

Lemma extendedFrom_assistantContents text cs :
  extendedFrom cs (assistantContents text cs).
Proof.
  unfold assistantContents.
  destruct (last cs) as [c |] eqn:Hlast; [| apply extendedFrom_push].
  apply last_Some in Hlast as [init ->].
  destruct (role c) eqn:Hr; [apply extendedFrom_push |].
  destruct (findTextPart (parts c)) as [[i old] |] eqn:Hf;
    [| apply extendedFrom_push].
  rewrite insert_last. apply extendedFrom_last; [done |].
  split; [done |].
  exists (<[i := TextPart (old +:+ text)]> (parts c)), []. simpl.
  rewrite app_nil_r. split; [done |]. right. by exists i, old, text.
Qed.

Lemma extendedFrom_toolCallContents fc cs :
  extendedFrom cs (toolCallContents fc cs).
Proof.
  unfold toolCallContents.
  destruct (last cs) as [c |] eqn:Hlast; [| apply extendedFrom_push].
  apply last_Some in Hlast as [init ->].
  destruct (role c) eqn:Hr; [apply extendedFrom_push |].
  rewrite insert_last. apply extendedFrom_last; [done |].
  split; [done |]. exists (parts c), [fc]. split; [done | by left].
Qed.

Lemma storeCall_extends m c sid :
  extendedFrom (getContents sid m) (getContents sid (storeCall m c)).
Proof.
  destruct (sessions m !! target c) as [session |] eqn:H.
  - destruct (storeCall_present m c session H) as (session' & E & _ & _ & Hc).
    unfold getContents. rewrite E.
    destruct (decide (target c = sid)) as [<- | Hne].
    + rewrite lookup_insert_eq, H. simpl.
      destruct Hc as [-> | [(x & _ & ->) | [(text & ->) | (fc & ->)]]].
      * apply extendedFrom_refl.
      * apply extendedFrom_push.
      * apply extendedFrom_assistantContents.
      * apply extendedFrom_toolCallContents.
    + rewrite lookup_insert_ne by done. apply extendedFrom_refl.
  - rewrite (storeCall_absent m c H). apply extendedFrom_refl.
Qed.

(** X11.  The history of a session only grows.  Over any sequence of
    operations it never gets shorter, an element that is not the last one
    is never changed again, a user element is never changed at all, and
    the only change an element ever sees is an extension in place: its
    role stays, the text of its first plain text sub-part may grow at its
    end and tool calls may be added after its sub-parts, while its other
    sub-parts stay as they are, where they are. *)
Theorem history_only_grows calls m sid :
  extendedFrom (getContents sid m) (getContents sid (foldl storeCall m calls)).
Proof.
  revert m. induction calls as [| c calls IH]; intros m; simpl.
  - apply extendedFrom_refl.
  - eapply extendedFrom_trans; [apply storeCall_extends | apply IH].
Qed.

End StoreCalls.

(** ** The session store: tool calls, creation, deletion and clearing *)

Section StoreLifeCycle.

(** X12.  A tool call joins the trailing model element of the history, whatever
    that element holds, and opens a model element when the history is
    empty or ends with a user element.  Either way the history then ends
    with a model element whose last sub-part is the call. *)
Theorem tool_call_joins_trailing_model_element m sid session functionCall :
  sessions m !! sid = Some session →
  ∃ init ps,
    getContents sid (addToolCall sid functionCall m) =
      (init ++ [ {| role := Model;
                    parts := ps ++ [FunctionCallPart functionCall] |} ])%list
    ∧ (s_contents session = (init ++ [ {| role := Model; parts := ps |} ])%list
       ∨ (s_contents session = init ∧ ps = []
          ∧ ∀ c, last init = Some c → role c = User)).
Proof.
  intros Hs. unfold getContents, addToolCall. rewrite Hs. simpl.
  rewrite lookup_insert_eq. simpl. unfold toolCallContents.
  destruct (last (s_contents session)) as [c |] eqn:Hlast.
  - pose proof Hlast as Hl. apply last_Some in Hl as [init E].
    destruct c as [[] ps]; simpl.
    + exists (s_contents session), []. split; [done |]. right.
      split; [done |]. split; [done |]. intros c Hc. by simplify_eq.
    + exists init, ps. rewrite E, insert_last. split; [done | by left].
  - exists (s_contents session), []. split; [done |]. right.
    split; [done |]. split; [done |]. intros c Hc. by simplify_eq.
Qed.

(** X13.  [createSession] stores the session it returns under the identifier it
    has made: the session is found again, with an empty history and no
    cancellation handle, and every session with another identifier is
    left as it was. *)
Theorem created_session_is_stored now createdAt rnd config m :
  let session := (createSession now createdAt rnd config m).1 in
  let m' := (createSession now createdAt rnd config m).2 in
  s_id session = sessionIdOf now rnd
  ∧ getSession (s_id session) m' = Some session
  ∧ getContents (s_id session) m' = []
  ∧ s_abortController session = None
  ∧ (∀ other, other ≠ s_id session → getSession other m' = getSession other m)
  ∧ dom (sessions m') = {[s_id session]} ∪ dom (sessions m).
Proof.
  simpl. unfold getSession, getContents. simpl.
  rewrite lookup_insert_eq. repeat split.
  - intros other Hne. by rewrite lookup_insert_ne.
  - by rewrite dom_insert_L.
Qed.

(** X14.  The model of a created session is the model of the configuration
    unless that is missing or empty, and then the default model of the
    store; in a store made by [createSessionManager] it is never empty. *)
Theorem created_session_has_a_model now createdAt rnd config optDefault :
  let session :=
    (createSession now createdAt rnd config (createSessionManager optDefault)).1 in
  s_model session ≠ ""
  ∧ (∀ model, config ≫= cfg_model = Some model → model ≠ "" →
              s_model session = model)
  ∧ ((config ≫= cfg_model = None ∨ config ≫= cfg_model = Some "") →
     s_model session = orStr optDefault DEFAULT_MODEL).
Proof.
  simpl. unfold orStr. split; [| split].
  - destruct (config ≫= cfg_model) as [[| c model] |]; simpl; try done;
      destruct optDefault as [[| d def] |]; by simpl.
  - intros model -> Hm. by destruct model.
  - by intros [-> | ->].
Qed.

(** X15.  [deleteSession] tells whether the session was there; afterwards the
    session is gone, its cancellation handle, if it had one, has been
    aborted and no other, and the other sessions are left as they were. *)
Theorem deleteSession_removes_and_aborts m sid :
  let r := deleteSession sid m in
  (r.1 = true ↔ is_Some (getSession sid m))
  ∧ getSession sid r.2 = None
  ∧ (∀ other, other ≠ sid → getSession other r.2 = getSession other m)
  ∧ (∀ c, c ∈ abortedControllers r.2 ↔
          c ∈ abortedControllers m
          ∨ ∃ session, getSession sid m = Some session
                       ∧ s_abortController session = Some c).
Proof.
  simpl. unfold deleteSession, getSession. simpl. split; [| split; [| split]].
  - by rewrite bool_decide_eq_true.
  - destruct (sessions m !! sid ≫= s_abortController); simpl;
      by rewrite lookup_delete_eq.
  - intros other Hne.
    destruct (sessions m !! sid ≫= s_abortController); simpl;
      by rewrite lookup_delete_ne.
  - intros c. destruct (sessions m !! sid) as [session |] eqn:Hs; simpl.
    + destruct (s_abortController session) as [k |] eqn:Hk; simpl.
      * rewrite elem_of_union, elem_of_singleton. split.
        -- intros [-> | H]; [right; by exists session | by left].
        -- intros [H | (x & [= <-] & Hx)]; [by right | left; congruence].
      * split; [by left |]. intros [H | (x & [= <-] & Hx)]; [done | congruence].
    + split; [by left |]. by intros [H | (x & Hx & _)].
Qed.

Lemma clear_aborted m c :
  c ∈ abortedControllers (clear m) ↔
  c ∈ abortedControllers m ∨ liveController m c.
Proof.
  unfold clear, liveController. simpl.
  apply (map_fold_weak_ind
           (λ (r : gset nat) (ss : gmap string SessionState),
              c ∈ r ↔
              c ∈ abortedControllers m
              ∨ ∃ sid session,
                  ss !! sid = Some session
                  ∧ s_abortController session = Some c)).
  - split; [by left |]. intros [H | (sid & x & Hx & _)]; [done |].
    by rewrite lookup_empty in Hx.
  - intros sid x ss r Hfresh IH.
    destruct (s_abortController x) as [k |] eqn:Hk.
    + rewrite elem_of_union, elem_of_singleton, IH. split.
      * intros [-> | [H | (sid' & y & Hy & Hc)]].
        -- right. exists sid, x. by rewrite lookup_insert_eq.
        -- by left.
        -- right. exists sid', y. split; [| done].
           rewrite lookup_insert_ne; [done |]. intros <-. congruence.
      * intros [H | (sid' & y & Hy & Hc)]; [right; by left |].
        destruct (decide (sid = sid')) as [<- | Hne].
        -- rewrite lookup_insert_eq in Hy. simplify_eq. left. congruence.
        -- rewrite lookup_insert_ne in Hy by done. right. right.
           by exists sid', y.
    + rewrite IH. split.
      * intros [H | (sid' & y & Hy & Hc)]; [by left |].
        right. exists sid', y. split; [| done].
        rewrite lookup_insert_ne; [done |]. intros <-. congruence.
      * intros [H | (sid' & y & Hy & Hc)]; [by left |].
        destruct (decide (sid = sid')) as [<- | Hne].
        -- rewrite lookup_insert_eq in Hy. by simplify_eq.
        -- rewrite lookup_insert_ne in Hy by done. right.
           by exists sid', y.
Qed.

(** X16.  [clear] leaves a store without sessions in which every cancellation
    handle that a session held has been aborted, and nothing else has;
    clearing a second time changes nothing. *)
Theorem clear_aborts_every_live_handle m :
  sessions (clear m) = ∅
  ∧ (∀ c, c ∈ abortedControllers (clear m) ↔
          c ∈ abortedControllers m ∨ liveController m c)
  ∧ clear (clear m) = clear m.
Proof.
  split; [done |]. split; [apply clear_aborted |].
  unfold clear at 1. simpl. by rewrite map_fold_empty.
Qed.

(** A second cancel of the same session finds nothing to cancel. *)
Lemma second_cancel_returns_false m sid :
  cancelSession sid (cancelSession sid m).2 = (false, (cancelSession sid m).2).
Proof.
  unfold cancelSession at 2 3.
  destruct (sessions m !! sid ≫= s_abortController) as [c |] eqn:H; simpl.
  - destruct (sessions m !! sid) as [session |] eqn:Hs; [| done].
    unfold cancelSession, setAbortController. simpl. rewrite Hs. simpl.
    by rewrite lookup_insert_eq.
  - unfold cancelSession. by rewrite H.
Qed.

End StoreLifeCycle.

(** ** The server: what a turn does *)

Section Turn.

Variable Date_now : nat → N.
Variable Math_random : nat → string.
Variable JSON_stringify : list AcpContent → string.

Lemma sameServer_refl s : sameServer s s.
Proof. by repeat split. Qed.

Lemma sameServer_trans s1 s2 s3 :
  sameServer s1 s2 → sameServer s2 s3 → sameServer s1 s3.
Proof.
  intros (? & ? & ? & ? & ? & ? & ? & ?) (? & ? & ? & ? & ? & ? & ? & ?).
  unfold sameServer. repeat split; congruence.
Qed.

Lemma noted_refl sid p s : noted sid p s [] p s.
Proof.
  unfold noted. simpl. rewrite !app_nil_r.
  split; [done |]. split; [done |]. split; [apply sameServer_refl |].
  exists []. split; [constructor | done].
Qed.

Lemma quiet_app n1 n2 : quiet (n1 ++ n2) ↔ quiet n1 ∧ quiet n2.
Proof. apply Forall_app. Qed.

Lemma noted_trans sid p s n1 p1 s1 n2 p2 s2 :
  noted sid p s n1 p1 s1 → noted sid p1 s1 n2 p2 s2 →
  noted sid p s (n1 ++ n2) p2 s2.
Proof.
  intros (P1 & O1 & S1 & c1 & T1 & M1 & Q1) (P2 & O2 & S2 & c2 & T2 & M2 & Q2).
  unfold noted, toolCallsOf. rewrite omap_app, fmap_app.
  split; [by rewrite P2, P1, app_assoc |].
  split; [by rewrite O2, O1, app_assoc |].
  split; [by eapply sameServer_trans |].
  exists (c1 ++ c2)%list. split; [by apply Forall_app |].
  split; [by rewrite foldl_app, <- M1 |].
  intros [H1 H2]%quiet_app. by rewrite Q1, Q2.
Qed.

Lemma onNotification_noted sid fullText st n :
  noted sid st.1 st.2 [n]
    (onNotification sid fullText st n).1 (onNotification sid fullText st n).2.
Proof.
  destruct st as [p s]. unfold onNotification, noted, toolCallsOf, quiet. simpl.
  destruct (n_update n) as [| | callId tool input | reason |] eqn:Hu; simpl;
    rewrite ?app_nil_r.
  - split; [done |]. split; [done |]. split; [by repeat split |].
    exists []. split; [constructor | done].
  - split; [done |]. split; [done |]. split; [by repeat split |].
    exists []. split; [constructor | done].
  - split; [done |]. split; [done |]. split; [by repeat split |].
    exists [CallAddToolCall sid
              {| fc_name := tool_name tool;
                 fc_args := Some (orEmptyObj (Some input));
                 fc_id := Some callId |}].
    split; [by repeat constructor |]. split; [done |].
    intros H. apply Forall_cons in H as [H _]. by rewrite Hu in H.
  - destruct (truthyStr fullText); simpl.
    + split; [done |]. split; [done |]. split; [by repeat split |].
      exists [CallAddAssistantMessage sid fullText].
      split; [by repeat constructor |]. split; [done |].
      intros H. apply Forall_cons in H as [H _]. by rewrite Hu in H.
    + split; [done |]. split; [done |]. split; [by repeat split |].
      exists []. split; [constructor | done].
  - split; [done |]. split; [done |]. split; [by repeat split |].
    exists []. split; [constructor | done].
Qed.

Lemma foldl_onNotification_noted sid fullText ns st :
  noted sid st.1 st.2 ns
    (foldl (onNotification sid fullText) st ns).1
    (foldl (onNotification sid fullText) st ns).2.
Proof.
  revert st. induction ns as [| n ns IH]; intros st; simpl.
  - apply noted_refl.
  - change (n :: ns) with ([n] ++ ns)%list.
    eapply noted_trans; [apply onNotification_noted | apply IH].
Qed.

Lemma onNotifications_dateReads sid fullText ns st :
  dateReads (foldl (onNotification sid fullText) st ns).2 = dateReads st.2.
Proof.
  revert st. induction ns as [| n ns IH]; intros st; simpl; [done |].
  rewrite IH. destruct st as [p0 s0]. unfold onNotification. simpl.
  destruct (n_update n); simpl; try done.
  by destruct (truthyStr fullText).
Qed.

Lemma setClock_id a : setClock (clock a) a = a.
Proof. by destruct a. Qed.

Lemma processEvents_cons ev evs a :
  processEvents Date_now (ev :: evs) a =
  (((processEvent Date_now ev a).1 ++
    (processEvents Date_now evs (processEvent Date_now ev a).2).1)%list,
   (processEvents Date_now evs (processEvent Date_now ev a).2).2).
Proof.
  unfold processEvents. cbn [foldl fst snd].
  destruct (processEvent Date_now ev a) as [n1 a1]. cbn [fst snd app].
  exact (foldl_prefixed _ (eventStep_prefixed Date_now) n1 a1 evs).
Qed.

(** The loop of a turn hands every event to the adapter and handles the
    notifications it returns. *)
Lemma foldl_onEvent_noted sid evs t s :
  dateReads s = clock (adapter t) →
  let out := processEvents Date_now evs (adapter t) in
  let st := foldl (onEvent Date_now sid) (t, s) evs in
  adapter st.1 = out.2
  ∧ dateReads st.2 = clock out.2
  ∧ noted sid (pendingToolCalls t) (setDateReads (clock out.2) s) out.1
      (pendingToolCalls st.1) st.2.
Proof.
  revert t s. induction evs as [| ev evs IH]; intros t s Hclock.
  - simpl. split; [done |]. split; [done |].
    rewrite <- Hclock.
    replace (setDateReads (dateReads s) s) with s by by destruct s.
    apply noted_refl.
  - rewrite processEvents_cons. cbn [foldl].
    destruct (processEvent Date_now ev (adapter t)) as [n1 a1] eqn:E1.
    destruct (foldl (onNotification sid (getAccumulatedText a1))
                (pendingToolCalls t, setDateReads (clock a1) s) n1)
      as [p1 s1] eqn:F1.
    assert (onEvent Date_now sid (t, s) ev =
            ({| adapter := a1; pendingToolCalls := p1 |}, s1)) as Eon.
    { unfold onEvent. cbn [fst snd]. rewrite Hclock, setClock_id, E1.
      by rewrite F1. }
    rewrite Eon. cbn [fst snd].
    pose proof (foldl_onNotification_noted sid (getAccumulatedText a1) n1
                  (pendingToolCalls t, setDateReads (clock a1) s)) as H1.
    rewrite F1 in H1. cbn [fst snd] in H1.
    assert (dateReads s1 = clock a1) as Hc1.
    { pose proof (onNotifications_dateReads sid (getAccumulatedText a1) n1
                    (pendingToolCalls t, setDateReads (clock a1) s)) as Hd.
      by rewrite F1 in Hd. }
    specialize (IH {| adapter := a1; pendingToolCalls := p1 |} s1 Hc1).
    cbn [adapter pendingToolCalls] in IH.
    destruct IH as (IA & ID & IN).
    split; [done |]. split; [done |].
    eapply noted_trans; [| exact IN].
    destruct H1 as (P1 & O1 & S1 & calls & T1 & M1 & Q1).
    unfold noted. cbn [stdout sessionManager setDateReads] in *.
    split; [done |]. split; [done |].
    split; [| by exists calls].
    destruct S1 as (? & ? & ? & ? & ? & ? & ? & ?).
    by repeat split.
Qed.

Lemma getContents_setAbortController sid sid' controller m :
  getContents sid' (setAbortController sid controller m) = getContents sid' m.
Proof.
  unfold getContents, setAbortController.
  destruct (sessions m !! sid) as [session |] eqn:H; [| done]. simpl.
  destruct (decide (sid = sid')) as [<- | Hne].
  - by rewrite lookup_insert_eq, H.
  - by rewrite lookup_insert_ne.
Qed.

Lemma declared_tools session s :
  (let functionDeclarations :=
     acpToolsToFunctionDeclarations
       (if (0 <? length (s_tools session))%nat then s_tools session else tools s) in
   if (0 <? length functionDeclarations)%nat
   then Some functionDeclarations else None) =
  match effectiveTools session s with
  | [] => None
  | _ :: _ => Some (acpToolsToFunctionDeclarations (effectiveTools session s))
  end.
Proof.
  unfold effectiveTools. destruct (s_tools session) as [| t ts]; simpl.
  - by destruct (tools s).
  - done.
Qed.

(** What a turn does, from the new controller to the [finally] clause. *)
Lemma runTurn_noted id sid session stream s :
  let out :=
    processEvents Date_now (events stream)
      (createStreamAdapter sid [] (dateReads s)) in
  let s' := runTurn Date_now id sid session stream s in
  stdout s' =
    (stdout s ++ (Notification <$> out.1) ++
     [endLine id (ending stream) (toolCallsOf out.1)])%list
  ∧ backendCalls s' =
    (backendCalls s ++
     [ {| o_model := s_model session;
          o_contents := getContents sid (sessionManager s);
          o_systemInstruction :=
            match s_systemInstruction session with
            | Some i => if truthyStr i then Some i else None
            | None => None
            end;
          o_tools :=
            match effectiveTools session s with
            | [] => None
            | _ :: _ =>
                Some (acpToolsToFunctionDeclarations (effectiveTools session s))
            end;
          o_signal := controllers s |} ])%list
  ∧ controllers s' = S (controllers s)
  ∧ (options s' = options s ∧ tools s' = tools s
     ∧ antigravityClient s' = antigravityClient s
     ∧ initialized s' = initialized s
     ∧ randomReads s' = randomReads s ∧ exitCode s' = exitCode s)
  ∧ ∃ calls,
      onSession sid calls
      ∧ (quiet out.1 → calls = [])
      ∧ sessionManager s' =
        foldl storeCall (sessionManager s)
          (CallSetAbortController sid (Some (controllers s)) ::
           calls ++ [CallSetAbortController sid None]).
Proof.
  intros out s'. subst s'. unfold runTurn.
  cbn [newAbortController].
  set (s2 := withManager (setAbortController sid (Some (controllers s))) _).
  set (s3 := streamGenerateContent _ s2).
  pose proof (foldl_onEvent_noted sid (events stream)
                {| adapter := createStreamAdapter sid [] (dateReads s3);
                   pendingToolCalls := [] |} s3 eq_refl) as H.
  cbn [adapter pendingToolCalls] in H.
  change (dateReads s3) with (dateReads s) in *. fold out in H.
  destruct (foldl (onEvent Date_now sid) _ (events stream)) as [t s4].
  cbn [fst snd] in H. destruct H as (_ & _ & P & O & S & calls & T & M & Q).
  cbn [stdout sessionManager setDateReads app] in *.
  destruct S as (So & St & Sc & Si & Sb & Sk & Sr & Se).
  cbn [options tools antigravityClient initialized backendCalls controllers
       randomReads exitCode setDateReads] in *.
  assert (∀ x, stdout (withManager (setAbortController sid None) (onEnd id (ending stream) t x))
               = (stdout x ++ [endLine id (ending stream) (pendingToolCalls t)])%list)
    as Hend.
  { intros x. destruct (ending stream) as [| name message]; simpl; [done |].
    by destruct (String.eqb name "AbortError"). }
  split; [| split; [| split; [| split]]].
  - rewrite Hend, O, P. simpl. by rewrite <- app_assoc.
  - destruct (ending stream) as [| name message]; simpl;
      [| destruct (String.eqb name "AbortError")]; simpl;
      rewrite Sb; subst s3 s2; simpl;
      rewrite getContents_setAbortController;
      (do 2 f_equal); f_equal; apply declared_tools.
  - destruct (ending stream) as [| name message]; simpl;
      [| destruct (String.eqb name "AbortError")]; simpl; by rewrite Sk.
  - destruct (ending stream) as [| name message]; simpl;
      [| destruct (String.eqb name "AbortError")]; simpl;
      by rewrite So, St, Sc, Si, Sr, Se.
  - exists calls. split; [done |]. split; [done |].
    cbn [foldl]. rewrite foldl_app. cbn [foldl storeCall].
    destruct (ending stream) as [| name message]; simpl;
      [| destruct (String.eqb name "AbortError")]; simpl; by rewrite M.
Qed.

End Turn.

(** ** The server: prompts and tool results *)

Section Handlers.

Variable Date_now : nat → N.
Variable Math_random : nat → string.
Variable JSON_stringify : list AcpContent → string.

Lemma handlePrompt_turn s sid session id messages stream :
  initialized s = true →
  is_Some (antigravityClient s) →
  getSession sid (sessionManager s) = Some session →
  handlePrompt Date_now JSON_stringify id
    {| pp_sessionId := sid; pp_messages := messages |} stream s =
  runTurn Date_now id sid session stream
    (if truthyStr (userTextOf JSON_stringify messages)
     then withManager
            (addUserMessage sid (userTextOf JSON_stringify messages)) s
     else s).
Proof.
  intros Hi Hc Hs. unfold handlePrompt. simpl.
  by rewrite Hi, bool_decide_eq_true_2, Hs.
Qed.

Lemma handleToolResult_turn s sid session id toolUseId callId name result isError stream :
  initialized s = true →
  is_Some (antigravityClient s) →
  getSession sid (sessionManager s) = Some session →
  handleToolResult Date_now id
    {| tr_sessionId := sid; tr_toolUseId := toolUseId; tr_callId := callId;
       tr_toolName := name; tr_result := result; tr_isError := isError |}
    stream s =
  runTurn Date_now id sid session stream
    (withManager (addToolResult sid callId name result) s).
Proof.
  intros Hi Hc Hs. unfold handleToolResult. simpl.
  by rewrite Hi, bool_decide_eq_true_2, Hs.
Qed.

Lemma getContents_addUserMessage m sid session text :
  sessions m !! sid = Some session →
  getContents sid (addUserMessage sid text m) =
  (s_contents session ++ [ {| role := User; parts := [TextPart text] |} ])%list.
Proof.
  intros H. unfold getContents, addUserMessage. rewrite H. simpl.
  by rewrite lookup_insert_eq.
Qed.

Lemma getContents_addToolResult m sid session callId name result :
  sessions m !! sid = Some session →
  getContents sid (addToolResult sid callId name result m) =
  (s_contents session ++ [toolResultElement callId name result])%list.
Proof.
  intros H. unfold getContents, addToolResult. rewrite H. simpl.
  by rewrite lookup_insert_eq.
Qed.

(** The state in which the turn of a prompt starts. *)
Lemma recorded_prompt s sid session text :
  getSession sid (sessionManager s) = Some session →
  let s1 := if truthyStr text
            then withManager (addUserMessage sid text) s else s in
  stdout s1 = stdout s ∧ dateReads s1 = dateReads s
  ∧ backendCalls s1 = backendCalls s ∧ controllers s1 = controllers s
  ∧ tools s1 = tools s
  ∧ getContents sid (sessionManager s1) =
    (s_contents session ++ promptElement text)%list.
Proof.
  intros Hs. unfold promptElement. destruct (truthyStr text); simpl.
  - repeat split. by apply getContents_addUserMessage.
  - repeat split. unfold getContents. unfold getSession in Hs.
    by rewrite Hs, app_nil_r.
Qed.

(** X17.  A turn writes the notifications of its adapter, in their order, and
    then its result.  When the stream returns, the result lists the tool
    calls that were notified, in their order, and has no [pending] field
    when there was none. *)
Theorem turn_result_lists_tool_calls s sid session id evs :
  initialized s = true →
  is_Some (antigravityClient s) →
  getSession sid (sessionManager s) = Some session →
  let out :=
    processEvents Date_now evs (createStreamAdapter sid [] (dateReads s)) in
  let lines :=
    ((Notification <$> out.1) ++
     [Response id
        (PromptResult
           (match toolCallsOf out.1 with
            | [] => None
            | _ :: _ => Some (toolCallsOf out.1)
            end))])%list in
  (∀ messages,
     stdout
       (handlePrompt Date_now JSON_stringify id
          {| pp_sessionId := sid; pp_messages := messages |}
          {| events := evs; ending := StreamDone |} s) =
     (stdout s ++ lines)%list)
  ∧ (∀ toolUseId callId name result isError,
     stdout
       (handleToolResult Date_now id
          {| tr_sessionId := sid; tr_toolUseId := toolUseId;
             tr_callId := callId; tr_toolName := name;
             tr_result := result; tr_isError := isError |}
          {| events := evs; ending := StreamDone |} s) =
     (stdout s ++ lines)%list).
Proof.
  intros Hi Hc Hs out lines. split.
  - intros messages. rewrite (handlePrompt_turn _ _ session) by done.
    destruct (recorded_prompt s sid session
                (userTextOf JSON_stringify messages) Hs)
      as (Ho & Hd & _).
    destruct (runTurn_noted Date_now id sid session
                {| events := evs; ending := StreamDone |}
                (if truthyStr (userTextOf JSON_stringify messages)
                 then withManager
                        (addUserMessage sid (userTextOf JSON_stringify messages)) s
                 else s)) as (H & _).
    rewrite H, Ho, Hd. reflexivity.
  - intros toolUseId callId name result isError.
    rewrite (handleToolResult_turn _ _ session) by done.
    destruct (runTurn_noted Date_now id sid session
                {| events := evs; ending := StreamDone |}
                (withManager (addToolResult sid callId name result) s))
      as (H & _).
    rewrite H. reflexivity.
Qed.

(** X18.  When the stream throws, the notifications written before the error
    stay, and the request is answered by an error: code -32001 and the
    message "Request cancelled" for an [AbortError], code -32000 and the
    message of the error, or "Unknown error" when that is empty, for any
    other error. *)
Theorem stream_error_is_reported s sid session id evs name message :
  initialized s = true →
  is_Some (antigravityClient s) →
  getSession sid (sessionManager s) = Some session →
  let out :=
    processEvents Date_now evs (createStreamAdapter sid [] (dateReads s)) in
  ∃ code text,
    (name = "AbortError" → code = (-32001)%Z ∧ text = "Request cancelled")
    ∧ (name ≠ "AbortError" →
       code = (-32000)%Z
       ∧ (message ≠ "" → text = message)
       ∧ (message = "" → text = "Unknown error"))
    ∧ (∀ messages,
         stdout
           (handlePrompt Date_now JSON_stringify id
              {| pp_sessionId := sid; pp_messages := messages |}
              {| events := evs; ending := StreamThrow name message |} s) =
         (stdout s ++ (Notification <$> out.1) ++
          [ErrorResponse (Some id) code text None])%list)
    ∧ (∀ toolUseId callId toolName result isError,
         stdout
           (handleToolResult Date_now id
              {| tr_sessionId := sid; tr_toolUseId := toolUseId;
                 tr_callId := callId; tr_toolName := toolName;
                 tr_result := result; tr_isError := isError |}
              {| events := evs; ending := StreamThrow name message |} s) =
         (stdout s ++ (Notification <$> out.1) ++
          [ErrorResponse (Some id) code text None])%list).
Proof.
  intros Hi Hc Hs out.
  exists (if String.eqb name "AbortError" then -32001 else -32000)%Z,
         (if String.eqb name "AbortError" then "Request cancelled"
          else orStr (Some message) "Unknown error").
  split; [| split; [| split]].
  - intros ->. by simpl.
  - intros Hn. apply String.eqb_neq in Hn. rewrite Hn.
    split; [done |]. split.
    + intros Hm. by destruct message.
    + by intros ->.
  - intros messages. rewrite (handlePrompt_turn _ _ session) by done.
    destruct (recorded_prompt s sid session
                (userTextOf JSON_stringify messages) Hs)
      as (Ho & Hd & _).
    destruct (runTurn_noted Date_now id sid session
                {| events := evs; ending := StreamThrow name message |}
                (if truthyStr (userTextOf JSON_stringify messages)
                 then withManager
                        (addUserMessage sid (userTextOf JSON_stringify messages)) s
                 else s)) as (H & _).
    rewrite H, Ho, Hd. simpl. fold out.
    by destruct (String.eqb name "AbortError").
  - intros toolUseId callId toolName result isError.
    rewrite (handleToolResult_turn _ _ session) by done.
    destruct (runTurn_noted Date_now id sid session
                {| events := evs; ending := StreamThrow name message |}
                (withManager (addToolResult sid callId toolName result) s))
      as (H & _).
    rewrite H. simpl. fold out.
    by destruct (String.eqb name "AbortError").
Qed.

(** X19.  A turn makes one backend call, with the model of the session, the
    history as it is once the prompt or the tool result is recorded, the
    system instruction unless it is empty, the tools of the session, or
    those of the server when the session has none, and the controller
    that was made for the turn. *)
Theorem turn_sends_the_recorded_history s sid session id stream :
  initialized s = true →
  is_Some (antigravityClient s) →
  getSession sid (sessionManager s) = Some session →
  (∀ messages,
     backendCalls
       (handlePrompt Date_now JSON_stringify id
          {| pp_sessionId := sid; pp_messages := messages |} stream s) =
     (backendCalls s ++
      [backendRequest session s
         (s_contents session ++
          promptElement (userTextOf JSON_stringify messages))
         (controllers s)])%list)
  ∧ (∀ toolUseId callId name result isError,
     backendCalls
       (handleToolResult Date_now id
          {| tr_sessionId := sid; tr_toolUseId := toolUseId;
             tr_callId := callId; tr_toolName := name;
             tr_result := result; tr_isError := isError |} stream s) =
     (backendCalls s ++
      [backendRequest session s
         (s_contents session ++ [toolResultElement callId name result])
         (controllers s)])%list).
Proof.
  intros Hi Hc Hs. split.
  - intros messages. rewrite (handlePrompt_turn _ _ session) by done.
    destruct (recorded_prompt s sid session
                (userTextOf JSON_stringify messages) Hs)
      as (_ & _ & Hb & Hk & Ht & Hcs).
    destruct (runTurn_noted Date_now id sid session stream
                (if truthyStr (userTextOf JSON_stringify messages)
                 then withManager
                        (addUserMessage sid (userTextOf JSON_stringify messages)) s
                 else s)) as (_ & H & _).
    rewrite H, Hb, Hk, Hcs. unfold backendRequest, effectiveTools.
    by rewrite Ht.
  - intros toolUseId callId name result isError.
    rewrite (handleToolResult_turn _ _ session) by done.
    destruct (runTurn_noted Date_now id sid session stream
                (withManager (addToolResult sid callId name result) s))
      as (_ & H & _).
    rewrite H. simpl.
    by rewrite (getContents_addToolResult _ _ session).
Qed.

(** X20.  A prompt or a tool result for a session that the store does not have
    is answered by the error -32001 that names the session, and has no
    other effect: no notification, no backend call, no controller. *)
Theorem unknown_session_is_reported s sid id stream :
  initialized s = true →
  is_Some (antigravityClient s) →
  getSession sid (sessionManager s) = None →
  (∀ messages,
     handlePrompt Date_now JSON_stringify id
       {| pp_sessionId := sid; pp_messages := messages |} stream s =
     write (ErrorResponse (Some id) (-32001) ("Session not found: " +:+ sid) None) s)
  ∧ (∀ toolUseId callId name result isError,
     handleToolResult Date_now id
       {| tr_sessionId := sid; tr_toolUseId := toolUseId;
          tr_callId := callId; tr_toolName := name;
          tr_result := result; tr_isError := isError |} stream s =
     write (ErrorResponse (Some id) (-32001) ("Session not found: " +:+ sid) None) s).
Proof.
  intros Hi Hc Hs. split.
  - intros messages. unfold handlePrompt. simpl.
    by rewrite Hi, bool_decide_eq_true_2, Hs.
  - intros toolUseId callId name result isError. unfold handleToolResult.
    simpl. by rewrite Hi, bool_decide_eq_true_2, Hs.
Qed.

(** X21.  On a server that is initialized and has no backend client,
    [newSession] is answered by the error -32001 with the data
    [{ type: 'authRequired' }] and creates no session, while [prompt] and
    [toolResult] are answered by the error -32002. *)
Theorem unauthenticated_server_rejects s id :
  initialized s = true →
  antigravityClient s = None →
  (∀ params,
     handleNewSession Date_now Math_random id params s =
     write
       (ErrorResponse (Some id) (-32001) "Authentication required"
          (Some (JObj [("type", JStr "authRequired")])))
       s)
  ∧ (∀ params stream,
     handlePrompt Date_now JSON_stringify id params stream s =
     write (ErrorResponse (Some id) (-32002) "Server not initialized" None) s)
  ∧ (∀ params stream,
     handleToolResult Date_now id params stream s =
     write (ErrorResponse (Some id) (-32002) "Server not initialized" None) s).
Proof.
  intros Hi Hc. split; [| split].
  - intros params. unfold handleNewSession. by rewrite Hi, Hc.
  - intros params stream. unfold handlePrompt. by rewrite Hi, Hc.
  - intros params stream. unfold handleToolResult. by rewrite Hi, Hc.
Qed.

Lemma runTurn_answered id sid session stream s :
  ∃ ns line,
    stdout (runTurn Date_now id sid session stream s) =
      (stdout s ++ (Notification <$> ns) ++ [line])%list
    ∧ answers id line.
Proof.
  destruct (runTurn_noted Date_now id sid session stream s) as (H & _).
  eexists _, _. split; [exact H |].
  destruct (ending stream) as [| name message]; simpl; [done |].
  by destruct (String.eqb name "AbortError").
Qed.

Lemma write_answered id line s :
  answers id line →
  ∃ ns line',
    stdout (write line s) = (stdout s ++ (Notification <$> ns) ++ [line'])%list
    ∧ answers id line'.
Proof. intros H. by exists [], line. Qed.

Lemma handleRequest_answered id call s :
  ∃ ns line,
    stdout (handleRequest Date_now Math_random JSON_stringify id call s) =
      (stdout s ++ (Notification <$> ns) ++ [line])%list
    ∧ answers id line.
Proof.
  destruct call as [loaded | params | params stream | params stream
                    | params | | method]; simpl.
  - by exists [], (Response id (InitializeResult initializeResult)).
  - unfold handleNewSession.
    destruct (initialized s); simpl; [| by apply write_answered].
    destruct (antigravityClient s); [| by apply write_answered].
    by eexists [], _.
  - unfold handlePrompt.
    destruct (negb (initialized s) || _); [by apply write_answered |].
    destruct (getSession _ _); [| by apply write_answered].
    destruct (truthyStr _).
    + destruct (runTurn_answered id (pp_sessionId params) s0 stream
                  (withManager
                     (addUserMessage (pp_sessionId params)
                        (userTextOf JSON_stringify (pp_messages params))) s))
        as (ns & line & H & A).
      by exists ns, line.
    + apply runTurn_answered.
  - unfold handleToolResult.
    destruct (negb (initialized s) || _); [by apply write_answered |].
    destruct (getSession _ _); [| by apply write_answered].
    destruct (runTurn_answered id (tr_sessionId params) s0 stream
                (withManager
                   (addToolResult (tr_sessionId params) (tr_callId params)
                      (tr_toolName params) (tr_result params)) s))
      as (ns & line & H & A).
    by exists ns, line.
  - unfold handleCancel. destruct (cancelSession _ _) as [cancelled m].
    by exists [], (Response id (CancelResult cancelled)).
  - by exists [], (Response id EmptyResult).
  - by apply write_answered.
Qed.







End Handlers.

(** ** The server: a request and the sessions of the store *)

Section Frames.

Variable Date_now : nat → N.
Variable Math_random : nat → string.
Variable JSON_stringify : list AcpContent → string.

Lemma storeCall_other m c other :
  other ≠ target c →
  sessions (storeCall m c) !! other = sessions m !! other.
Proof.
  intros Hne. destruct (sessions m !! target c) as [session |] eqn:H.
  - destruct (storeCall_present m c session H) as (session' & E & _).
    rewrite E. by rewrite lookup_insert_ne.
  - by rewrite (storeCall_absent m c H).
Qed.

Lemma storeCalls_other sid calls m other :
  onSession sid calls → other ≠ sid →
  sessions (foldl storeCall m calls) !! other = sessions m !! other.
Proof.
  intros Hon Hne. revert m.
  induction Hon as [| c calls Hc _ IH]; intros m; simpl; [done |].
  rewrite IH. apply storeCall_other. congruence.
Qed.

Lemma storeCalls_setup calls m :
  dom (sessions (foldl storeCall m calls)) = dom (sessions m)
  ∧ defaultModel (foldl storeCall m calls) = defaultModel m
  ∧ ∀ sid session,
      sessions m !! sid = Some session →
      ∃ session',
        sessions (foldl storeCall m calls) !! sid = Some session'
        ∧ sameSetup session session'.
Proof.
  revert m. induction calls as [| c calls IH]; intros m; simpl.
  - split; [done |]. split; [done |]. intros sid session H.
    exists session. split; [done |]. by repeat split.
  - destruct (storeCall_frame m c) as (D & M & F).
    destruct (IH (storeCall m c)) as (D2 & M2 & F2).
    split; [congruence |]. split; [congruence |].
    intros sid session H.
    destruct (F sid session H) as (s1 & H1 & S1).
    destruct (F2 sid s1 H1) as (s2 & H2 & S2).
    exists s2. split; [done |]. by eapply sameSetup_trans.
Qed.

Lemma storeCalls_grow calls m sid :
  grownFrom (getContents sid m) (getContents sid (foldl storeCall m calls)).
Proof.
  revert m. induction calls as [| c calls IH]; intros m; simpl.
  - apply grownFrom_refl.
  - eapply grownFrom_trans; [apply storeCall_grows | apply IH].
Qed.

(** A request on a session acts on the store through operations on that
    session only, and leaves the closure of the server as it is. *)
Lemma request_storeCalls id call sid s :
  sessionOf call = Some sid →
  let s' := handleRequest Date_now Math_random JSON_stringify id call s in
  (options s' = options s ∧ tools s' = tools s
   ∧ antigravityClient s' = antigravityClient s
   ∧ initialized s' = initialized s
   ∧ randomReads s' = randomReads s ∧ exitCode s' = exitCode s)
  ∧ ∃ calls,
      onSession sid calls
      ∧ sessionManager s' = foldl storeCall (sessionManager s) calls.
Proof.
  intros Hsid.
  assert ((options s = options s ∧ tools s = tools s
           ∧ antigravityClient s = antigravityClient s
           ∧ initialized s = initialized s
           ∧ randomReads s = randomReads s
           ∧ exitCode s = exitCode s)
          ∧ ∃ calls,
              onSession sid calls
              ∧ sessionManager s = foldl storeCall (sessionManager s) calls)
    as Hwrite.
  { split; [done |]. exists []. split; [constructor | done]. }
  destruct call as [loaded | params | params stream | params stream
                    | params | | method]; simpl in *; simplify_eq.
  - unfold handlePrompt.
    destruct (negb (initialized s) || _); [exact Hwrite |].
    destruct (getSession _ _) as [session |]; [| exact Hwrite].
    destruct (truthyStr _).
    + destruct (runTurn_noted Date_now id (pp_sessionId params) session stream
                  (withManager
                     (addUserMessage (pp_sessionId params)
                        (userTextOf JSON_stringify (pp_messages params))) s))
        as (_ & _ & _ & F & calls & T & _ & M).
      split; [exact F |].
      exists (CallAddUserMessage (pp_sessionId params)
                (userTextOf JSON_stringify (pp_messages params)) ::
              CallSetAbortController (pp_sessionId params) (Some (controllers s)) ::
              calls ++ [CallSetAbortController (pp_sessionId params) None]).
      split; [| exact M].
      repeat (apply Forall_cons; split; [done |]).
      apply Forall_app. split; [done |]. by repeat constructor.
    + destruct (runTurn_noted Date_now id (pp_sessionId params) session stream s)
        as (_ & _ & _ & F & calls & T & _ & M).
      split; [exact F |]. eexists. split; [| exact M].
      apply Forall_cons. split; [done |].
      apply Forall_app. split; [done |]. by repeat constructor.
  - unfold handleToolResult.
    destruct (negb (initialized s) || _); [exact Hwrite |].
    destruct (getSession _ _) as [session |]; [| exact Hwrite].
    destruct (runTurn_noted Date_now id (tr_sessionId params) session stream
                (withManager
                   (addToolResult (tr_sessionId params) (tr_callId params)
                      (tr_toolName params) (tr_result params)) s))
      as (_ & _ & _ & F & calls & T & _ & M).
    split; [exact F |].
    exists (CallAddToolResult (tr_sessionId params) (tr_callId params)
              (tr_toolName params) (tr_result params) ::
            CallSetAbortController (tr_sessionId params) (Some (controllers s)) ::
            calls ++ [CallSetAbortController (tr_sessionId params) None]).
    split; [| exact M].
    repeat (apply Forall_cons; split; [done |]).
    apply Forall_app. split; [done |]. by repeat constructor.
  - unfold handleCancel.
    destruct (cancelSession (cp_sessionId params) (sessionManager s))
      as [cancelled m] eqn:E. simpl. split; [done |].
    exists [CallCancelSession (cp_sessionId params)].
    split; [by repeat constructor |]. simpl. by rewrite E.
Qed.

(** X23.  A prompt, a tool result or a cancel leaves every other session of the
    store exactly as it was, neither adds nor removes a session, keeps the
    identifier, model, system instruction and tools of its own session,
    and does not change the catalogue, the client or the flag of the
    server. *)
Theorem request_touches_only_its_session id call sid s :
  sessionOf call = Some sid →
  let s' := handleRequest Date_now Math_random JSON_stringify id call s in
  (∀ other, other ≠ sid →
            getSession other (sessionManager s') = getSession other (sessionManager s))
  ∧ dom (sessions (sessionManager s')) = dom (sessions (sessionManager s))
  ∧ (∀ session,
       getSession sid (sessionManager s) = Some session →
       ∃ session',
         getSession sid (sessionManager s') = Some session'
         ∧ sameSetup session session')
  ∧ tools s' = tools s
  ∧ antigravityClient s' = antigravityClient s
  ∧ initialized s' = initialized s.
Proof.
  intros Hsid s'.
  destruct (request_storeCalls id call sid s Hsid)
    as ((_ & Ht & Hc & Hi & _) & calls & Hon & M).
  fold s' in Ht, Hc, Hi, M. unfold getSession. rewrite M.
  destruct (storeCalls_setup calls (sessionManager s)) as (D & _ & F).
  split; [| split; [done | split; [| done]]].
  - intros other Hne. by apply (storeCalls_other sid).
  - intros session H. by apply F.
Qed.

(** X24.  A prompt, a tool result or a cancel only lets histories grow: no
    history gets shorter, no element but a trailing model element is
    changed, and no user element is changed. *)
Theorem request_only_grows_histories id call sid s sid' :
  sessionOf call = Some sid →
  grownFrom
    (getContents sid' (sessionManager s))
    (getContents sid'
       (sessionManager
          (handleRequest Date_now Math_random JSON_stringify id call s))).
Proof.
  intros Hsid.
  destruct (request_storeCalls id call sid s Hsid) as (_ & calls & _ & M).
  rewrite M. apply storeCalls_grow.
Qed.

(** X25.  Text is recorded in the history only on a completion.  When the
    adapter of a turn emits no tool call and no [session_complete], as when
    the stream is cut short, ends without a finish reason or is blocked,
    the history after the turn is the history with the prompt or the tool
    result, and none of the text that was streamed. *)
Theorem unfinished_text_is_not_recorded s sid session id stream :
  initialized s = true →
  is_Some (antigravityClient s) →
  getSession sid (sessionManager s) = Some session →
  quiet (processEvents Date_now (events stream)
           (createStreamAdapter sid [] (dateReads s))).1 →
  (∀ messages,
     getContents sid
       (sessionManager
          (handlePrompt Date_now JSON_stringify id
             {| pp_sessionId := sid; pp_messages := messages |} stream s)) =
     (s_contents session ++
      promptElement (userTextOf JSON_stringify messages))%list)
  ∧ (∀ toolUseId callId name result isError,
     getContents sid
       (sessionManager
          (handleToolResult Date_now id
             {| tr_sessionId := sid; tr_toolUseId := toolUseId;
                tr_callId := callId; tr_toolName := name;
                tr_result := result; tr_isError := isError |} stream s)) =
     (s_contents session ++ [toolResultElement callId name result])%list).
Proof.
  intros Hi Hc Hs Hq. split.
  - intros messages.
    rewrite (handlePrompt_turn Date_now JSON_stringify _ _ session) by done.
    destruct (recorded_prompt s sid session
                (userTextOf JSON_stringify messages) Hs)
      as (_ & Hd & _ & _ & _ & Hcs).
    destruct (runTurn_noted Date_now id sid session stream
                (if truthyStr (userTextOf JSON_stringify messages)
                 then withManager
                        (addUserMessage sid (userTextOf JSON_stringify messages)) s
                 else s)) as (_ & _ & _ & _ & calls & _ & Q & M).
    rewrite Hd in Q. rewrite M, (Q Hq). simpl.
    by rewrite !getContents_setAbortController.
  - intros toolUseId callId name result isError.
    rewrite (handleToolResult_turn Date_now _ _ session) by done.
    destruct (runTurn_noted Date_now id sid session stream
                (withManager (addToolResult sid callId name result) s))
      as (_ & _ & _ & _ & calls & _ & Q & M).
    rewrite M, (Q Hq). simpl.
    rewrite !getContents_setAbortController.
    by apply getContents_addToolResult.
Qed.

End Frames.

(** ** The server: the round trip of a tool call *)

Section RoundTrip.

Variable Date_now : nat → N.
Variable JSON_stringify : list AcpContent → string.

Lemma truthy_orEmptyObj v : truthy (orEmptyObj v) = true.
Proof.
  unfold orEmptyObj. destruct v as [j |]; [| done].
  by destruct (truthy j) eqn:H.
Qed.

Lemma synthesized_id_ne (sid : string) (now : N) :
  "call_" +:+ sid +:+ "_" +:+ pretty now ≠ "".
Proof. done. Qed.

Lemma runTurn_tool_call s sid captured session id functionCall :
  sessions (sessionManager s) !! sid = Some session →
  let s' :=
    runTurn Date_now id sid captured
      {| events := [eventOf [FunctionCallPart functionCall] (Some "TOOL_USE")];
         ending := StreamDone |} s in
  ∃ callId,
    callId ≠ ""
    ∧ (∀ i, fc_id functionCall = Some i → i ≠ "" → callId = i)
    ∧ last (stdout s') =
      Some (Response id
              (PromptResult
                 (Some [ {| p_id := callId; p_name := fc_name functionCall |} ])))
    ∧ getContents sid (sessionManager s') =
      toolCallContents
        {| fc_name := fc_name functionCall;
           fc_args := Some (orEmptyObj (fc_args functionCall));
           fc_id := Some callId |}
        (s_contents session).
Proof.
  intros H. simpl. unfold runTurn. simpl.
  unfold onEvent. simpl. unfold push, createToolCall. simpl.
  destruct (fc_id functionCall) as [i |] eqn:Hid;
    [destruct (truthyStr i) eqn:Hi |]; simpl.
  - exists i. split; [by apply truthyStr_ne |].
    split; [by intros ? [= <-] |].
    rewrite !last_snoc. split; [done |].
    unfold getContents, setAbortController, addToolCall. simpl.
    rewrite H. simpl. rewrite !lookup_insert_eq. simpl.
    rewrite !lookup_insert_eq, lookup_empty, truthy_orEmptyObj. simpl.
    by rewrite lookup_insert_eq.
  - eexists. split; [apply (synthesized_id_ne sid) |].
    split; [intros ? [= <-] Hne; by destruct i |].
    rewrite !last_snoc. split; [done |].
    unfold getContents, setAbortController, addToolCall. simpl.
    rewrite H. simpl. rewrite !lookup_insert_eq. simpl.
    rewrite !lookup_insert_eq, lookup_empty, truthy_orEmptyObj. simpl.
    by rewrite lookup_insert_eq.
  - eexists. split; [apply (synthesized_id_ne sid) |].
    split; [done |].
    rewrite !last_snoc. split; [done |].
    unfold getContents, setAbortController, addToolCall. simpl.
    rewrite H. simpl. rewrite !lookup_insert_eq. simpl.
    rewrite !lookup_insert_eq, lookup_empty, truthy_orEmptyObj. simpl.
    by rewrite lookup_insert_eq.
Qed.

Lemma toolCallContents_shape functionCall contents :
  ∃ init ps,
    toolCallContents functionCall contents =
    (init ++ [ {| role := Model;
                  parts := ps ++ [FunctionCallPart functionCall] |} ])%list.
Proof.
  unfold toolCallContents.
  destruct (last contents) as [c |] eqn:Hlast.
  - apply last_Some in Hlast as [init ->]. destruct c as [[] ps]; simpl.
    + by eexists _, [].
    + exists init, ps. by rewrite insert_last.
  - by eexists _, [].
Qed.

(** X26.  The round trip of a tool call.  When the stream of a prompt yields one
    tool call and the finish reason TOOL_USE, the result lists that call
    and no other, under the identifier of the backend when it has one and
    under a made-up identifier otherwise, and the history ends with a
    model element whose last sub-part is the call under that identifier:
    the identifier that the client sends back with the result is the one
    the history holds. *)
Theorem tool_call_round_trip s sid session id messages functionCall :
  initialized s = true →
  is_Some (antigravityClient s) →
  getSession sid (sessionManager s) = Some session →
  let s' :=
    handlePrompt Date_now JSON_stringify id
      {| pp_sessionId := sid; pp_messages := messages |}
      {| events := [eventOf [FunctionCallPart functionCall] (Some "TOOL_USE")];
         ending := StreamDone |} s in
  ∃ callId,
    callId ≠ ""
    ∧ (∀ i, fc_id functionCall = Some i → i ≠ "" → callId = i)
    ∧ last (stdout s') =
      Some (Response id
              (PromptResult
                 (Some [ {| p_id := callId; p_name := fc_name functionCall |} ])))
    ∧ ∃ init ps,
        getContents sid (sessionManager s') =
        (init ++
         [ {| role := Model;
              parts :=
                ps ++
                [FunctionCallPart
                   {| fc_name := fc_name functionCall;
                      fc_args := Some (orEmptyObj (fc_args functionCall));
                      fc_id := Some callId |}] |} ])%list.
Proof.
  intros Hi Hc Hs s'. subst s'.
  rewrite (handlePrompt_turn Date_now JSON_stringify _ _ session) by done.
  assert (∃ stored,
            sessions
              (sessionManager
                 (if truthyStr (userTextOf JSON_stringify messages)
                  then withManager
                         (addUserMessage sid (userTextOf JSON_stringify messages)) s
                  else s)) !! sid = Some stored) as [stored Hstored].
  { destruct (truthyStr _); simpl; [| by eexists].
    unfold addUserMessage, getSession in *. rewrite Hs. simpl.
    rewrite lookup_insert_eq. by eexists. }
  destruct (runTurn_tool_call _ sid session stored id functionCall Hstored)
    as (callId & Hne & Hid & Hout & Hcs).
  exists callId. split; [done |]. split; [done |]. split; [done |].
  rewrite Hcs. apply toolCallContents_shape.
Qed.

End RoundTrip.

(** ** The server: sequences of requests *)

Section Sequences.

Variable Date_now : nat → N.
Variable Math_random : nat → string.
Variable JSON_stringify : list AcpContent → string.

Lemma atRest_created opts : atRest (createAcpServer opts).
Proof.
  unfold atRest, getSession. simpl. split; [| split; [| split]].
  - intros sid [x Hx]. by rewrite lookup_empty in Hx.
  - intros sid x Hx. by rewrite lookup_empty in Hx.
  - unfold orStr. destruct (opt_defaultModel opts) as [[| c m] |]; by simpl.
  - done.
Qed.

Lemma atRest_write line s : atRest s → atRest (write line s).
Proof. done. Qed.

Lemma orStr_ne a b : b ≠ "" → orStr a b ≠ "".
Proof. intros Hb. unfold orStr. by destruct a as [[| c a] |]. Qed.

(** What a prompt or a tool result does to the controllers and to the
    backend calls: nothing when it is rejected, and otherwise one new
    controller, one call that carries it, and a session left without
    handle. *)
Lemma turn_request_effect id call sid s :
  sessionOf call = Some sid →
  (∀ params, call ≠ CCancel params) →
  let s' := handleRequest Date_now Math_random JSON_stringify id call s in
  (sessionManager s' = sessionManager s
   ∧ controllers s' = controllers s ∧ backendCalls s' = backendCalls s)
  ∨ (cleared sid s'
     ∧ controllers s' = S (controllers s)
     ∧ ∃ c, backendCalls s' = (backendCalls s ++ [c])%list
            ∧ o_signal c = controllers s).
Proof.
  intros Hsid Hnc.
  destruct call as [loaded | params | params stream | params stream
                    | params | | method]; simpl in *; simplify_eq.
  - unfold handlePrompt.
    destruct (negb (initialized s) || _); [by left |].
    destruct (getSession _ _) as [session |] eqn:Hs; [| by left].
    right. destruct (truthyStr _).
    + destruct (runTurn_noted Date_now id (pp_sessionId params) session stream
                  (withManager
                     (addUserMessage (pp_sessionId params)
                        (userTextOf JSON_stringify (pp_messages params))) s))
        as (_ & B & K & _).
      split; [| split; [exact K | eexists; split; [exact B | done]]].
      apply runTurn_cleared.
      apply hasSession_withManager; [apply keeps_addUserMessage | by eexists].
    + destruct (runTurn_noted Date_now id (pp_sessionId params) session stream s)
        as (_ & B & K & _).
      split; [| split; [exact K | eexists; split; [exact B | done]]].
      apply runTurn_cleared. by eexists.
  - unfold handleToolResult.
    destruct (negb (initialized s) || _); [by left |].
    destruct (getSession _ _) as [session |] eqn:Hs; [| by left].
    right.
    destruct (runTurn_noted Date_now id (tr_sessionId params) session stream
                (withManager
                   (addToolResult (tr_sessionId params) (tr_callId params)
                      (tr_toolName params) (tr_result params)) s))
      as (_ & B & K & _).
    split; [| split; [exact K | eexists; split; [exact B | done]]].
    apply runTurn_cleared.
    apply hasSession_withManager; [apply keeps_addToolResult | by eexists].
  - by destruct (Hnc params).
Qed.

Lemma atRest_turn id call sid s :
  sessionOf call = Some sid →
  (∀ params, call ≠ CCancel params) →
  atRest s →
  atRest (handleRequest Date_now Math_random JSON_stringify id call s).
Proof.
  intros Hsid Hnc (I1 & I2 & I3 & I4 & I5).
  destruct (request_storeCalls Date_now Math_random JSON_stringify
              id call sid s Hsid)
    as ((_ & _ & Hc & Hi & _) & calls & Hon & M).
  destruct (storeCalls_setup calls (sessionManager s)) as (D & Dm & F).
  pose proof (turn_request_effect id call sid s Hsid Hnc) as E.
  set (s' := handleRequest Date_now Math_random JSON_stringify id call s) in *.
  assert (∀ x, is_Some (getSession x (sessionManager s')) →
               is_Some (getSession x (sessionManager s))) as Hback.
  { intros x Hx. unfold getSession in *. rewrite M in Hx.
    apply elem_of_dom. rewrite <- D. by apply elem_of_dom. }
  unfold atRest. split; [| split; [| split; [| split]]].
  - intros x Hx. rewrite Hi, Hc. apply (I1 x). by apply Hback.
  - intros x session' Hx.
    destruct (Hback x (ex_intro _ _ Hx)) as [session Hold].
    destruct (I2 x session Hold) as (Jid & Jm & Jc).
    destruct (decide (x = sid)) as [-> | Hne].
    + unfold getSession in *. destruct (F sid session Hold) as (y & Hy & S).
      rewrite <- M in Hy. simplify_eq.
      destruct S as (Sid & Sm & _). split; [congruence |].
      split; [congruence |].
      destruct E as [(Em & _) | ((z & Hz & Hzc) & _)].
      * rewrite Em in Hx. by simplify_eq.
      * unfold getSession in Hz. by simplify_eq.
    + unfold getSession in *. rewrite M in Hx.
      rewrite (storeCalls_other sid calls _ x Hon Hne) in Hx. by simplify_eq.
  - by rewrite M, Dm.
  - destruct E as [(_ & Ek & Eb) | (_ & Ek & c & Eb & _)].
    + by rewrite Ek, Eb.
    + rewrite Ek, Eb, length_app. simpl. lia.
  - destruct E as [(_ & Ek & Eb) | (_ & Ek & c & Eb & Ec)].
    + by rewrite Eb.
    + rewrite Eb, fmap_app, length_app, seq_app, I5. simpl.
      by rewrite Ec, I4.
Qed.

Lemma atRest_handleRequest id call s :
  atRest s →
  atRest (handleRequest Date_now Math_random JSON_stringify id call s).
Proof.
  intros I. pose proof I as (I1 & I2 & I3 & I4 & I5).
  destruct call as [loaded | params | params stream | params stream
                    | params | | method].
  - simpl. unfold atRest, handleInitialize. simpl.
    split; [| done]. intros sid Hs. split; [done |].
    destruct (I1 sid Hs) as (_ & [c Hc]). rewrite Hc.
    destruct (opt_auth (options s)); [by eexists |].
    destruct loaded; by eexists.
  - simpl. unfold handleNewSession.
    destruct (initialized s) eqn:Hi; simpl; [| done].
    destruct (antigravityClient s) as [c |] eqn:Hc; [| done].
    unfold atRest, getSession. simpl. rewrite Hi, Hc.
    split; [by eauto |]. split; [| done].
    intros sid session. rewrite lookup_insert. case_decide.
    + intros [= <-]. simpl. split; [done |]. split; [| done].
      by apply orStr_ne.
    + apply I2.
  - by apply (atRest_turn id _ (pp_sessionId params)).
  - by apply (atRest_turn id _ (tr_sessionId params)).
  - simpl. unfold handleCancel.
    assert (sessions (sessionManager s) !! cp_sessionId params
              ≫= s_abortController = None) as Hidle.
    { destruct (sessions (sessionManager s) !! cp_sessionId params)
        as [session |] eqn:Hs; [| done].
      simpl. by destruct (I2 _ _ Hs) as (_ & _ & ->). }
    rewrite (cancelSession_idle _ _ Hidle). simpl.
    by destruct s.
  - simpl. unfold atRest, handleShutdown, getSession. simpl.
    split; [| split; [| done]].
    + intros sid [x Hx]. by rewrite lookup_empty in Hx.
    + intros sid x Hx. by rewrite lookup_empty in Hx.
  - done.
Qed.

Lemma atRest_handleAll requests s :
  atRest s →
  atRest (handleAll Date_now Math_random JSON_stringify requests s).
Proof.
  revert s. induction requests as [| [id call] requests IH]; intros s I;
    [done |].
  unfold handleAll in *. cbn [foldl fst snd]. apply IH.
  destruct (exitCode s); [done |]. by apply atRest_handleRequest.
Qed.

(** X27.  For requests handled one after the other on a new server: a session
    exists only once the server is initialized and has a backend client. *)
Theorem sessions_need_initialize_and_client opts requests sid :
  let s :=
    handleAll Date_now Math_random JSON_stringify requests
      (createAcpServer opts) in
  is_Some (getSession sid (sessionManager s)) →
  initialized s = true ∧ is_Some (antigravityClient s).
Proof.
  intros s.
  destruct (atRest_handleAll requests _ (atRest_created opts)) as (I1 & _).
  apply I1.
Qed.

(** X28.  For requests handled one after the other on a new server: every
    session is stored under its own identifier, has a model that is not
    empty, and is left without cancellation handle by every request that
    has been answered. *)
Theorem stored_sessions_are_at_rest opts requests sid session :
  let s :=
    handleAll Date_now Math_random JSON_stringify requests
      (createAcpServer opts) in
  getSession sid (sessionManager s) = Some session →
  s_id session = sid ∧ s_model session ≠ "" ∧ s_abortController session = None.
Proof.
  intros s.
  destruct (atRest_handleAll requests _ (atRest_created opts))
    as (_ & I2 & _).
  apply I2.
Qed.

(** X29.  For requests handled one after the other on a new server: every
    backend call gets a controller of its own, the calls carrying the
    controllers 0, 1, 2, ... in their order. *)
Theorem every_turn_has_its_own_controller opts requests :
  let s :=
    handleAll Date_now Math_random JSON_stringify requests
      (createAcpServer opts) in
  (o_signal <$> backendCalls s) = seq 0 (length (backendCalls s))
  ∧ controllers s = length (backendCalls s).
Proof.
  intros s.
  by destruct (atRest_handleAll requests _ (atRest_created opts))
    as (_ & _ & _ & I4 & I5).
Qed.

Lemma answerIds_notifications ns : answerIds (Notification <$> ns) = [].
Proof. by induction ns. Qed.

Lemma answerIds_handleRequest id call s :
  answerIds (stdout (handleRequest Date_now Math_random JSON_stringify id call s)) =
  (answerIds (stdout s) ++ [Some id])%list.
Proof.
  destruct (handleRequest_answered Date_now Math_random JSON_stringify id call s)
    as (ns & line & H & A).
  rewrite H. unfold answerIds. rewrite !omap_app.
  fold (answerIds (Notification <$> ns)). rewrite answerIds_notifications.
  simpl. destruct line; simpl in *; by subst.
Qed.

Lemma exitCode_handleRequest id call s :
  call ≠ CShutdown →
  exitCode (handleRequest Date_now Math_random JSON_stringify id call s) =
  exitCode s.
Proof.
  intros Hne.
  destruct call as [loaded | params | params stream | params stream
                    | params | | method]; try done.
  - simpl. unfold handleNewSession.
    destruct (initialized s); simpl; [| done].
    by destruct (antigravityClient s).
  - by destruct (request_storeCalls Date_now Math_random JSON_stringify id
                   (CPrompt params stream) _ s eq_refl)
      as ((_ & _ & _ & _ & _ & E) & _).
  - by destruct (request_storeCalls Date_now Math_random JSON_stringify id
                   (CToolResult params stream) _ s eq_refl)
      as ((_ & _ & _ & _ & _ & E) & _).
  - by destruct (request_storeCalls Date_now Math_random JSON_stringify id
                   (CCancel params) _ s eq_refl)
      as ((_ & _ & _ & _ & _ & E) & _).
Qed.

Lemma handleAll_exited requests s code :
  exitCode s = Some code →
  handleAll Date_now Math_random JSON_stringify requests s = s.
Proof.
  intros He. induction requests as [| r requests IH]; [done |].
  unfold handleAll in *. cbn [foldl]. by rewrite He.
Qed.

Lemma answerIds_handleAll requests s :
  exitCode s = None →
  answerIds (stdout (handleAll Date_now Math_random JSON_stringify requests s)) =
  (answerIds (stdout s) ++ ((λ r, Some r.1) <$> untilShutdown requests))%list.
Proof.
  revert s. induction requests as [| [id call] requests IH]; intros s He.
  - simpl. by rewrite app_nil_r.
  - unfold handleAll in *. cbn [foldl fst snd]. rewrite He.
    assert (call = CShutdown ∨ call ≠ CShutdown) as [-> | Hne]
      by (destruct call; by (left + right)).
    + fold (handleAll Date_now Math_random JSON_stringify requests
              (handleRequest Date_now Math_random JSON_stringify id CShutdown s)).
      rewrite (handleAll_exited requests _ 0%Z) by done.
      by rewrite answerIds_handleRequest.
    + rewrite IH by by rewrite exitCode_handleRequest.
      rewrite answerIds_handleRequest, <- app_assoc. f_equal.
      by destruct call.
Qed.







End Sequences.

(** ** Further examples *)

(** An operation on a session that the store does not have. *)
Lemma absent_session_is_ignored_witness :
  storeCall oneSessionStore (CallAddUserMessage theSession "hi") = oneSessionStore.
Proof.
  refine (proj1 (absent_session_is_ignored oneSessionStore
                   (CallAddUserMessage theSession "hi") _)).
  reflexivity.
Defined.

(** Two operations on the session of [oneSessionStore]. *)
Lemma setup_is_immutable_witness :
  dom (sessions
         (foldl storeCall oneSessionStore
            [CallAddUserMessage storedSession "hi";
             CallSetAbortController storedSession (Some 3)])) =
  dom (sessions oneSessionStore).
Proof.
  refine (proj1 (setup_is_immutable
                   [CallAddUserMessage storedSession "hi";
                    CallSetAbortController storedSession (Some 3)]
                   oneSessionStore storedSession newSessionOf.1 _)).
  reflexivity.
Defined.

(** A tool call on the new session of [oneSessionStore]. *)
Lemma tool_call_joins_trailing_model_element_witness :
  ∃ init ps,
    getContents storedSession (addToolCall storedSession readFileCall oneSessionStore) =
    (init ++ [ {| role := Model;
                  parts := ps ++ [FunctionCallPart readFileCall] |} ])%list.
Proof.
  destruct (tool_call_joins_trailing_model_element oneSessionStore storedSession
              newSessionOf.1 readFileCall eq_refl) as (init & ps & H & _).
  exact (ex_intro _ init (ex_intro _ ps H)).
Defined.

(** Another session is not touched by [createSession]. *)
Lemma created_session_is_stored_witness :
  getSession theSession newSessionOf.2 =
  getSession theSession (createSessionManager None).
Proof.
  refine (proj1 (proj2 (proj2 (proj2 (proj2
    (created_session_is_stored 1 1 "k3x9qa" None (createSessionManager None))))))
    theSession _).
  vm_compute. discriminate.
Defined.

(** A session created with a configuration that names a model. *)
Lemma created_session_has_a_model_witness :
  s_model
    (createSession 1 1 "k3x9qa" (Some modelConfig) (createSessionManager None)).1 =
  "gemini-2.5-pro".
Proof.
  refine (proj1 (proj2
    (created_session_has_a_model 1 1 "k3x9qa" (Some modelConfig) None))
    "gemini-2.5-pro" _ _).
  - reflexivity.
  - discriminate.
Defined.

(** Deleting the session of [liveStore] leaves another identifier as it
    was. *)
Lemma deleteSession_removes_and_aborts_witness :
  getSession theSession (deleteSession storedSession liveStore).2 =
  getSession theSession liveStore.
Proof.
  refine (proj1 (proj2 (proj2
    (deleteSession_removes_and_aborts liveStore storedSession)))
    theSession _).
  vm_compute. discriminate.
Defined.

(** Clearing [liveStore] aborts the handle of its session. *)
Lemma clear_aborts_every_live_handle_witness :
  7 ∈ abortedControllers (clear liveStore).
Proof.
  refine (proj2 (proj1 (proj2 (clear_aborts_every_live_handle liveStore)) 7) _).
  right. exists storedSession, (setController (Some 7) newSessionOf.1).
  split; reflexivity.
Defined.

(** The turn of [readFileStream] on the session of [sessionServer]. *)
Lemma turn_result_lists_tool_calls_witness :
  last
    (stdout
       (handlePrompt frozenClock stringifyUnused (IdNum 2)
          {| pp_sessionId := theSession; pp_messages := userSays "read a.txt" |}
          readFileStream sessionServer)) =
  Some (Response (IdNum 2)
          (PromptResult (Some [ {| p_id := "c1"; p_name := "read_file" |} ]))).
Proof.
  refine (eq_trans (f_equal last (proj1
    (turn_result_lists_tool_calls frozenClock stringifyUnused sessionServer
       theSession sessionState (IdNum 2) (events readFileStream) _ _ _)
    (userSays "read a.txt"))) _).
  - reflexivity.
  - exists credentials. reflexivity.
  - reflexivity.
  - reflexivity.
Defined.

(** A prompt whose stream is cancelled after a first text. *)
Lemma stream_error_is_reported_witness :
  last
    (stdout
       (handlePrompt frozenClock stringifyUnused (IdNum 2)
          {| pp_sessionId := theSession; pp_messages := userSays "hi" |}
          cancelledStream sessionServer)) =
  Some (ErrorResponse (Some (IdNum 2)) (-32001) "Request cancelled" None).
Proof.
  destruct (stream_error_is_reported frozenClock stringifyUnused sessionServer
              theSession sessionState (IdNum 2) (events cancelledStream)
              "AbortError" "The operation was aborted"
              eq_refl (ex_intro _ credentials eq_refl) eq_refl)
    as (code & text & Habort & _ & Hprompt & _).
  destruct (Habort eq_refl) as [-> ->].
  exact (eq_trans (f_equal last (Hprompt (userSays "hi"))) eq_refl).
Defined.

(** The backend call of a prompt on the session of [sessionServer]. *)
Lemma turn_sends_the_recorded_history_witness :
  backendCalls
    (handlePrompt frozenClock stringifyUnused (IdNum 2)
       {| pp_sessionId := theSession; pp_messages := userSays "hi" |}
       cancelledStream sessionServer) =
  [backendRequest sessionState sessionServer
     [ {| role := User; parts := [TextPart "hi"] |} ] 0].
Proof.
  refine (proj1
    (turn_sends_the_recorded_history frozenClock stringifyUnused sessionServer
       theSession sessionState (IdNum 2) cancelledStream _ _ _)
    (userSays "hi")).
  - reflexivity.
  - exists credentials. reflexivity.
  - reflexivity.
Defined.

(** A prompt for a session that [readyServer] does not have. *)
Lemma unknown_session_is_reported_witness :
  handlePrompt frozenClock stringifyUnused (IdNum 1)
    {| pp_sessionId := theSession; pp_messages := userSays "hi" |}
    cancelledStream readyServer =
  write
    (ErrorResponse (Some (IdNum 1)) (-32001)
       ("Session not found: " +:+ theSession) None)
    readyServer.
Proof.
  refine (proj1
    (unknown_session_is_reported frozenClock stringifyUnused readyServer
       theSession (IdNum 1) cancelledStream _ _ _)
    (userSays "hi")).
  - reflexivity.
  - exists credentials. reflexivity.
  - reflexivity.
Defined.

(** [newSession] on a server that was initialized without credentials. *)
Lemma unauthenticated_server_rejects_witness :
  handleNewSession frozenClock fixedRandom (IdNum 1)
    {| ns_config := None |} anonymousServer =
  write
    (ErrorResponse (Some (IdNum 1)) (-32001) "Authentication required"
       (Some (JObj [("type", JStr "authRequired")])))
    anonymousServer.
Proof.
  refine (proj1
    (unauthenticated_server_rejects frozenClock fixedRandom stringifyUnused
       anonymousServer (IdNum 1) _ _)
    {| ns_config := None |}).
  - reflexivity.
  - reflexivity.
Defined.

(** A cancel on the session of [sessionServer]. *)
Lemma request_touches_only_its_session_witness :
  dom (sessions
         (sessionManager
            (handleRequest frozenClock fixedRandom stringifyUnused (IdNum 2)
               (CCancel {| cp_sessionId := theSession |}) sessionServer))) =
  dom (sessions (sessionManager sessionServer)).
Proof.
  refine (proj1 (proj2
    (request_touches_only_its_session frozenClock fixedRandom stringifyUnused
       (IdNum 2) (CCancel {| cp_sessionId := theSession |}) theSession
       sessionServer _))).
  reflexivity.
Defined.

(** A prompt on the session of [sessionServer]. *)
Lemma request_only_grows_histories_witness :
  grownFrom
    (getContents theSession (sessionManager sessionServer))
    (getContents theSession
       (sessionManager
          (handleRequest frozenClock fixedRandom stringifyUnused (IdNum 2)
             (CPrompt
                {| pp_sessionId := theSession; pp_messages := userSays "hi" |}
                cancelledStream)
             sessionServer))).
Proof.
  refine (request_only_grows_histories frozenClock fixedRandom stringifyUnused
            (IdNum 2)
            (CPrompt
               {| pp_sessionId := theSession; pp_messages := userSays "hi" |}
               cancelledStream)
            theSession sessionServer theSession _).
  reflexivity.
Defined.

(** The text "hel" of a stream that is cancelled is not in the history. *)
Lemma unfinished_text_is_not_recorded_witness :
  getContents theSession
    (sessionManager
       (handlePrompt frozenClock stringifyUnused (IdNum 2)
          {| pp_sessionId := theSession; pp_messages := userSays "hi" |}
          cancelledStream sessionServer)) =
  [ {| role := User; parts := [TextPart "hi"] |} ].
Proof.
  refine (proj1
    (unfinished_text_is_not_recorded frozenClock stringifyUnused sessionServer
       theSession sessionState (IdNum 2) cancelledStream _ _ _ _)
    (userSays "hi")).
  - reflexivity.
  - exists credentials. reflexivity.
  - reflexivity.
  - vm_compute. repeat constructor.
Defined.

(** The round trip of [readFileCall] on the session of [sessionServer]. *)
Lemma tool_call_round_trip_witness :
  ∃ callId,
    callId ≠ ""
    ∧ last
        (stdout
           (handlePrompt frozenClock stringifyUnused (IdNum 2)
              {| pp_sessionId := theSession;
                 pp_messages := userSays "read a.txt" |}
              readFileStream sessionServer)) =
      Some (Response (IdNum 2)
              (PromptResult
                 (Some [ {| p_id := callId; p_name := "read_file" |} ]))).
Proof.
  destruct (tool_call_round_trip frozenClock stringifyUnused sessionServer
              theSession sessionState (IdNum 2) (userSays "read a.txt")
              readFileCall eq_refl (ex_intro _ credentials eq_refl) eq_refl)
    as (callId & Hne & _ & Hlast & _).
  exact (ex_intro _ callId (conj Hne Hlast)).
Defined.

(** After [initialize] and [newSession] the session is there, and the
    server is initialized and has a client. *)
Lemma sessions_need_initialize_and_client_witness :
  initialized
    (handleAll frozenClock fixedRandom stringifyUnused twoRequests
       (createAcpServer credentialOptions)) = true
  ∧ is_Some
      (antigravityClient
         (handleAll frozenClock fixedRandom stringifyUnused twoRequests
            (createAcpServer credentialOptions))).
Proof.
  refine (sessions_need_initialize_and_client frozenClock fixedRandom
            stringifyUnused credentialOptions twoRequests theSession _).
  exists sessionState. reflexivity.
Defined.

(** After [initialize] and [newSession] the session is at rest. *)
Lemma stored_sessions_are_at_rest_witness :
  s_id sessionState = theSession
  ∧ s_model sessionState ≠ ""
  ∧ s_abortController sessionState = None.
Proof.
  refine (stored_sessions_are_at_rest frozenClock fixedRandom stringifyUnused
            credentialOptions twoRequests theSession sessionState _).
  reflexivity.
Defined.

(** A history whose trailing model element was replaced is not a history
    that was extended. *)
Lemma replacement_is_no_extension : ¬ extendedFrom twoElements overwritten.
Proof.
  intros (_ & _ & _ & H).
  destruct (H 1 _ eq_refl) as (c' & Hc' & _ & ps & calls & E & Hps).
  simpl in Hc'. simplify_eq. simpl in E.
  symmetry in E. apply app_eq_nil in E as [-> _].
  destruct Hps as [Hps | (i & old & more & F & Hps)]; [done |].
  simpl in F. by simplify_eq.
Qed.

(** The lines of [someLines] on a new server: the answers, one for each
    line that is not blank, up to the one of [shutdown]. *)
Lemma start_someLines :
  stdout
    (server
       (start frozenClock fixedRandom stringifyUnused someLines
          (createAcpServer credentialOptions))) =
  [ Response (IdNum 0) (InitializeResult initializeResult);
    ErrorResponse (Some (IdNum 1)) (-32001)
      ("Session not found: " +:+ theSession) None;
    Response (IdNum 2) (NewSessionResult theSession);
    parseError;
    parseError;
    parseError;
    parseError;
    Response (IdNum 6) EmptyResult ].
Proof. reflexivity. Qed.
